(** * A shallow embedding of the TalentLMS API client ([talentlms/api.py],
    [talentlms/exceptions.py]).

    Strings are modelled at the byte level: a Python [str] is represented by
    the bytes of its UTF-8 encoding, one [ascii] (8-bit) character per byte,
    which is what [urllib.parse.quote_plus] works on; [str.isdigit] and
    [int()] decode them to code points and use the Unicode tables of Python
    3.11.  [int()] and [str()] are modelled without the limit on the number
    of digits ([sys.get_int_max_str_digits()]).  JSON numbers are modelled
    as integers. *)

#[local] Set Warnings "-register-all".
From Stdlib Require Import String Ascii List ZArith NArith Bool Lia Sorting.Permutation
  Sorting.Sorted.
Import ListNotations.
Open Scope string_scope.

(* ------------------------------------------------------------------ *)
(** ** Bytes and strings *)

Definition code (c : ascii) : nat := nat_of_ascii c.

Fixpoint str_has (c : ascii) (s : string) : bool :=
  match s with
  | EmptyString => false
  | String d s' => Ascii.eqb c d || str_has c s'
  end.

Fixpoint str_prefix (p s : string) : bool :=
  match p, s with
  | EmptyString, _ => true
  | String a p', String b s' => Ascii.eqb a b && str_prefix p' s'
  | _, _ => false
  end.

(** Python's substring test [p in s]. *)
Fixpoint str_contains (p s : string) : bool :=
  str_prefix p s ||
  match s with
  | EmptyString => false
  | String _ s' => str_contains p s'
  end.

(** [s.replace(a, b)] for single characters [a] and [b]. *)
Fixpoint replace_char (a b : ascii) (s : string) : string :=
  match s with
  | EmptyString => EmptyString
  | String c s' =>
      String (if Ascii.eqb c a then b else c) (replace_char a b s')
  end.

(** Python compares strings by code point; on bytes this is the
    lexicographic order on [code]. *)
Fixpoint str_leb (s1 s2 : string) : bool :=
  match s1, s2 with
  | EmptyString, _ => true
  | String _ _, EmptyString => false
  | String a s1', String b s2' =>
      if Nat.ltb (code a) (code b) then true
      else if Nat.ltb (code b) (code a) then false
      else str_leb s1' s2'
  end.

(** [list.sort()] on strings: the sorted permutation (insertion sort). *)
Fixpoint insert_sorted (x : string) (l : list string) : list string :=
  match l with
  | [] => [x]
  | y :: l' => if str_leb x y then x :: y :: l' else y :: insert_sorted x l'
  end.

Fixpoint sort_strings (l : list string) : list string :=
  match l with
  | [] => []
  | x :: l' => insert_sorted x (sort_strings l')
  end.

(** [sep.join(l)]. *)
Definition join (sep : string) (l : list string) : string := String.concat sep l.

(* ------------------------------------------------------------------ *)
(** ** [urllib.parse.quote_plus] and [unquote_plus] *)

(** [_ALWAYS_SAFE]: ASCII letters, digits and [_.-~]. *)
Definition always_safe (c : ascii) : bool :=
  let n := code c in
  (Nat.leb 65 n && Nat.leb n 90) || (Nat.leb 97 n && Nat.leb n 122) ||
  (Nat.leb 48 n && Nat.leb n 57) ||
  Ascii.eqb c "_" || Ascii.eqb c "." || Ascii.eqb c "-" || Ascii.eqb c "~".

Definition hex_digit (n : nat) : ascii :=
  if Nat.ltb n 10 then ascii_of_nat (48 + n) else ascii_of_nat (55 + n).

(** One byte of [quote(string, safe)]: kept when safe, else [%XX] with
    upper-case hex digits. *)
Definition quote_byte (safe : string) (c : ascii) : string :=
  if always_safe c || str_has c safe then String c EmptyString
  else String "%" (String (hex_digit (code c / 16))
                     (String (hex_digit (code c mod 16)) EmptyString)).

Fixpoint quote (safe : string) (s : string) : string :=
  match s with
  | EmptyString => EmptyString
  | String c s' => quote_byte safe c ++ quote safe s'
  end.

(** [quote_plus(string, safe='')]:
    [if ' ' in string: string = quote(string, safe + ' '); return string.replace(' ', '+')]
    [else: return quote(string, safe)]. *)
Definition quote_plus (safe : string) (s : string) : string :=
  if str_has " " s then replace_char " " "+" (quote (safe ++ " ") s)
  else quote safe s.

(** The entries of [_hextobyte]: both cases of hex digits. *)
Definition hex_val (c : ascii) : option nat :=
  let n := code c in
  if Nat.leb 48 n && Nat.leb n 57 then Some (n - 48)
  else if Nat.leb 65 n && Nat.leb n 70 then Some (n - 55)
  else if Nat.leb 97 n && Nat.leb n 102 then Some (n - 87)
  else None.

(** [unquote_to_bytes]: a [%] followed by two hex digits is replaced by the
    byte; any other [%] is kept. *)
Fixpoint unquote (s : string) : string :=
  match s with
  | EmptyString => EmptyString
  | String c s' =>
      if Ascii.eqb c "%" then
        match s' with
        | String h (String l s'') =>
            match hex_val h, hex_val l with
            | Some x, Some y => String (ascii_of_nat (x * 16 + y)) (unquote s'')
            | _, _ => String "%" (unquote s')
            end
        | _ => String "%" (unquote s')
        end
      else String c (unquote s')
  end.

(** [unquote_plus(string)]: [string = string.replace('+', ' '); return unquote(string)]. *)
Definition unquote_plus (s : string) : string := unquote (replace_char "+" " " s).

(* ------------------------------------------------------------------ *)
(** ** Python values *)

(** Scalar arguments and request-parameter values (a [bool] is kept apart
    from an [int] because [str()] prints them differently). *)
Inductive scalar : Type :=
| SNone
| SBool (b : bool)
| SInt (z : Z)
| SStr (s : string).

(** A request parameter dict, in insertion order. *)
Definition params : Type := list (string * scalar).

(** Parsed JSON bodies ([json.loads]) and the values built from them. *)
Inductive pyval : Type :=
| PNone
| PBool (b : bool)
| PInt (z : Z)
| PStr (s : string)
| PList (l : list pyval)
| PDict (kvs : list (pyval * pyval)).

Fixpoint pos_digits (fuel : nat) (n : N) (acc : string) : string :=
  match fuel with
  | O => acc
  | S fuel' =>
      let d := ascii_of_N (48 + N.modulo n 10) in
      let q := N.div n 10 in
      if N.eqb q 0 then String d acc else pos_digits fuel' q (String d acc)
  end.

Definition N_to_dec (n : N) : string :=
  match n with
  | N0 => "0"
  | Npos p => pos_digits (Pos.size_nat p) n EmptyString
  end.

(** [str(z)] for an [int]. *)
Definition Z_to_dec (z : Z) : string :=
  match z with
  | Zneg p => "-" ++ N_to_dec (Npos p)
  | _ => N_to_dec (Z.to_N z)
  end.

(** [str(v)]. *)
Definition py_str (v : scalar) : string :=
  match v with
  | SNone => "None"
  | SBool true => "True"
  | SBool false => "False"
  | SInt z => Z_to_dec z
  | SStr s => s
  end.

Definition is_ascii_digit (c : ascii) : bool :=
  Nat.leb 48 (code c) && Nat.leb (code c) 57.

(** *** Code points *)

Definition zcode (c : ascii) : Z := Z.of_nat (code c).

Definition cont_byte (b : ascii) : bool := ((128 <=? zcode b) && (zcode b <? 192))%Z.

(** The code points of the UTF-8 bytes of a [str].  A byte that does not
    start a well-formed sequence gives U+FFFD and decoding goes on with the
    next byte, so a byte below 0x80 is always a code point of its own. *)
Fixpoint utf8_decode (l : list ascii) : list Z :=
  match l with
  | [] => []
  | b0 :: r =>
      let n0 := zcode b0 in
      if (n0 <? 128)%Z then n0 :: utf8_decode r
      else if ((192 <=? n0) && (n0 <? 224))%Z then
        match r with
        | b1 :: r1 =>
            if cont_byte b1 then ((n0 - 192) * 64 + (zcode b1 - 128))%Z :: utf8_decode r1
            else 65533%Z :: utf8_decode r
        | [] => [65533%Z]
        end
      else if ((224 <=? n0) && (n0 <? 240))%Z then
        match r with
        | b1 :: b2 :: r2 =>
            if cont_byte b1 && cont_byte b2 then
              ((n0 - 224) * 4096 + (zcode b1 - 128) * 64 + (zcode b2 - 128))%Z
                :: utf8_decode r2
            else 65533%Z :: utf8_decode r
        | _ => 65533%Z :: utf8_decode r
        end
      else if ((240 <=? n0) && (n0 <? 248))%Z then
        match r with
        | b1 :: b2 :: b3 :: r3 =>
            if cont_byte b1 && cont_byte b2 && cont_byte b3 then
              ((n0 - 240) * 262144 + (zcode b1 - 128) * 4096 + (zcode b2 - 128) * 64
               + (zcode b3 - 128))%Z :: utf8_decode r3
            else 65533%Z :: utf8_decode r
        | _ => 65533%Z :: utf8_decode r
        end
      else 65533%Z :: utf8_decode r
  end.

(** [[ord(ch) for ch in s]]. *)
Definition code_points (s : string) : list Z := utf8_decode (list_ascii_of_string s).

Definition in_ranges (rs : list (Z * Z)) (c : Z) : bool :=
  existsb (fun r => (fst r <=? c) && (c <=? snd r))%Z rs.

(** Code points [c] with [chr(c).isdigit()] (Unicode 14.0.0, as in Python 3.11), as
    inclusive ranges. *)
Definition digit_ranges : list (Z * Z) := [
   (48, 57); (178, 179); (185, 185); (1632, 1641); (1776, 1785);
   (1984, 1993); (2406, 2415); (2534, 2543); (2662, 2671); (2790, 2799);
   (2918, 2927); (3046, 3055); (3174, 3183); (3302, 3311); (3430, 3439);
   (3558, 3567); (3664, 3673); (3792, 3801); (3872, 3881); (4160, 4169);
   (4240, 4249); (4969, 4977); (6112, 6121); (6160, 6169); (6470, 6479);
   (6608, 6618); (6784, 6793); (6800, 6809); (6992, 7001); (7088, 7097);
   (7232, 7241); (7248, 7257); (8304, 8304); (8308, 8313); (8320, 8329);
   (9312, 9320); (9332, 9340); (9352, 9360); (9450, 9450); (9461, 9469);
   (9471, 9471); (10102, 10110); (10112, 10120); (10122, 10130); (42528, 42537);
   (43216, 43225); (43264, 43273); (43472, 43481); (43504, 43513); (43600, 43609);
   (44016, 44025); (65296, 65305); (66720, 66729); (68160, 68163); (68912, 68921);
   (69216, 69224); (69714, 69722); (69734, 69743); (69872, 69881); (69942, 69951);
   (70096, 70105); (70384, 70393); (70736, 70745); (70864, 70873); (71248, 71257);
   (71360, 71369); (71472, 71481); (71904, 71913); (72016, 72025); (72784, 72793);
   (73040, 73049); (73120, 73129); (92768, 92777); (92864, 92873); (93008, 93017);
   (120782, 120831); (123200, 123209); (123632, 123641); (125264, 125273); (127232, 127242);
   (130032, 130041)]%Z.

(** Code points from U+0080 up with [chr(c).isspace()] ([Py_UNICODE_ISSPACE]). *)
Definition space_ranges : list (Z * Z) := [
   (133, 133); (160, 160); (5760, 5760); (8192, 8202); (8232, 8233);
   (8239, 8239); (8287, 8287); (12288, 12288)]%Z.

(** The first code point of each run of ten decimal digits: [unicodedata.decimal]
    of [z + k] is [k] for [k] in [0 .. 9], and no other code point has a
    decimal value. *)
Definition decimal_starts : list Z := [
   48; 1632; 1776; 1984; 2406; 2534; 2662; 2790; 2918; 3046;
   3174; 3302; 3430; 3558; 3664; 3792; 3872; 4160; 4240; 6112;
   6160; 6470; 6608; 6784; 6800; 6992; 7088; 7232; 7248; 42528;
   43216; 43264; 43472; 43504; 43600; 44016; 65296; 66720; 68912; 69734;
   69872; 69942; 70096; 70384; 70736; 70864; 71248; 71360; 71472; 71904;
   72016; 72784; 73040; 73120; 92768; 92864; 93008; 120782; 120792; 120802;
   120812; 120822; 123200; 123632; 125264; 130032]%Z.

(** [Py_UNICODE_TODECIMAL]: the decimal value of a code point, if any. *)
Definition to_decimal (c : Z) : option Z :=
  match find (fun z => (z <=? c) && (c <=? z + 9))%Z decimal_starts with
  | Some z => Some (c - z)%Z
  | None => None
  end.

(** [str.isdigit()]: non-empty and every character a digit. *)
Definition isdigit (s : string) : bool :=
  match code_points s with
  | [] => false
  | cps => forallb (in_ranges digit_ranges) cps
  end.

(* ------------------------------------------------------------------ *)
(** ** Exceptions ([exceptions.py]) *)

Inductive exc_kind : Type :=
| TalentLMSError
| InvalidRequestError
| InvalidArgumentsError
| UserAlreadyExistsError
| UserAlreadyEnrolledError
| UserNotEnrolledError
| UserDeletedError
| UserDoesNotExistError
| UserInactiveError
| WeakPasswordError
| PasswordIncorrectError
| CourseExistsError
| CourseDoesNotExistError
| CategoryDoesNotExistError
| GroupDoesNotExistError
| BranchDoesNotExistError
| UnitDoesNotExistError.

(** What a call can raise: a [TalentLMSError] subclass carrying the message
    and the request context [(api_method, api_params)], or a builtin. *)
Inductive exn : Type :=
| ETalent (k : exc_kind) (msg : pyval) (ctx : string * option params)
| ValueError
| TypeError
| KeyError
| IndexError
| NotImplementedError
| JSONDecodeError.

(** [exc_map] of [raise_error]. *)
Definition exc_map : list (string * exc_kind) := [
  ("The requested branch does not exist", BranchDoesNotExistError);
  ("The requested category does not exist", CategoryDoesNotExistError);
  ("The requested course does not exist", CourseDoesNotExistError);
  ("The requested course is already a member of this branch", CourseExistsError);
  ("The requested course is already a member of this group", CourseExistsError);
  ("There is no group with such key", GroupDoesNotExistError);
  ("The requested group does not exist", GroupDoesNotExistError);
  ("Invalid arguments provided", InvalidArgumentsError);
  ("The requested API action does not exist", InvalidRequestError);
  ("Your login or password is incorrect. Please try again, making sure that CAPS LOCK key is off", PasswordIncorrectError);
  ("The requested unit does not exist", UnitDoesNotExistError);
  ("The requested user is already a member of this branch", UserAlreadyEnrolledError);
  ("The requested user is already a member of this group", UserAlreadyEnrolledError);
  ("The requested user is already enrolled in this course", UserAlreadyEnrolledError);
  ("A user with the same email address already exists", UserAlreadyExistsError);
  ("A user with the same login already exists", UserAlreadyExistsError);
  ("The requested user is no longer available", UserDeletedError);
  ("The requested user does not exist", UserDoesNotExistError);
  ("Your account is inactive. Please activate the account using the instructions sent to you via e-mail. If you did not receive the e-mail, check your spam folder.", UserInactiveError);
  ("The requested user is not a member of this branch", UserNotEnrolledError);
  ("The requested user is not a member of this group", UserNotEnrolledError);
  ("The requested user is not enrolled in this course", UserNotEnrolledError);
  ("User does not have a progress registered for the survey", UserNotEnrolledError);
  ("User does not have a progress registered for the test", UserNotEnrolledError);
  ("Password is not strong enough (should have at least (1) upper case letter, at least (1) lower case letter, at least (1) number, at least (8) characters in length)", WeakPasswordError)
].

Fixpoint assoc_str {A} (k : string) (l : list (string * A)) : option A :=
  match l with
  | [] => None
  | (k', v) :: l' => if String.eqb k k' then Some v else assoc_str k l'
  end.

(** [exc_map.get(message, TalentLMSError)]: the key is hashed first, so a
    list or dict message raises [TypeError]; a non-string scalar matches no
    (string) key. *)
Definition exc_map_get (message : pyval) : option exc_kind :=
  match message with
  | PList _ | PDict _ => None
  | PStr m => Some (match assoc_str m exc_map with
                    | Some k => k
                    | None => TalentLMSError
                    end)
  | _ => Some TalentLMSError
  end.

(* ------------------------------------------------------------------ *)
(** ** Client state, requests and the call monad *)

(** [self.api_url], [self.auth] (an [HTTPBasicAuth(api_key, '')]). *)
Record client : Type := mk_client {
  api_url : string;
  auth : string * string
}.

(** [api.__init__(domain, api_key, ssl)]: [protocol = ('http', 'https')[ssl]]. *)
Definition make_client (domain api_key : string) (ssl : bool) : client :=
  let protocol := if ssl then "https" else "http" in
  {| api_url := protocol ++ "://" ++ domain ++ "/api/v1"; auth := (api_key, "") |}.

(** A request handed to [requests.get] / [requests.post]. *)
Inductive request : Type :=
| ReqGet (url : string) (au : string * string)
| ReqPost (url : string) (data : option params) (au : string * string).

(** The client object and the requests issued so far. *)
Record state : Type := mk_state {
  st_client : client;
  st_log : list request
}.

Inductive outcome (A : Type) : Type :=
| Ok (a : A)
| Exc (e : exn).
Arguments Ok {A} a.
Arguments Exc {A} e.

Definition M (A : Type) : Type := state -> state * outcome A.

Definition ret {A} (a : A) : M A := fun s => (s, Ok a).
Definition throw {A} (e : exn) : M A := fun s => (s, Exc e).
Definition bind {A B} (m : M A) (f : A -> M B) : M B :=
  fun s => match m s with
           | (s', Ok a) => f a s'
           | (s', Exc e) => (s', Exc e)
           end.
Definition lift {A} (o : outcome A) : M A :=
  match o with Ok a => ret a | Exc e => throw e end.

Notation "x <- m ;; k" := (bind m (fun x => k))
  (at level 61, m at next level, right associativity).

(** Reading [self]'s attributes. *)
Definition get_self : M client := fun s => (s, Ok (st_client s)).

(* ------------------------------------------------------------------ *)
(** ** [int()], membership and subscription *)

(** [_PyUnicode_TransformDecimalAndSpaceToASCII], the first step of [int(s)]
    for a [str]: a code point below 127 is kept, other whitespace becomes a
    space, a decimal digit its ASCII digit, anything else ['?'] (the C code
    ends the copy there with ['?'], which the parser rejects wherever it
    stands). *)
Definition int_char (c : Z) : Z :=
  if (c <? 127)%Z then c
  else if in_ranges space_ranges c then 32%Z
  else match to_decimal c with Some d => (48 + d)%Z | None => 63%Z end.

(** [Py_ISSPACE]: the ASCII whitespace [PyLong_FromString] skips. *)
Definition is_py_space (c : Z) : bool := (((9 <=? c) && (c <=? 13)) || (c =? 32))%Z.

Fixpoint strip_left (l : list Z) : list Z :=
  match l with
  | c :: l' => if is_py_space c then strip_left l' else l
  | [] => []
  end.

Definition strip (l : list Z) : list Z := rev (strip_left (rev (strip_left l))).

Definition is_zdigit (c : Z) : bool := ((48 <=? c) && (c <=? 57))%Z.

(** Decimal digits with single underscores between digits; [need] is true at
    the start and after an underscore. *)
Fixpoint parse_digits (l : list Z) (acc : Z) (need : bool) : option Z :=
  match l with
  | [] => if need then None else Some acc
  | c :: l' =>
      if is_zdigit c then parse_digits l' (acc * 10 + (c - 48))%Z false
      else if (c =? 95)%Z then (if need then None else parse_digits l' acc true)
      else None
  end.

(** [PyLong_FromString(s, NULL, 10)] on the transformed (ASCII) string, which
    must be used up: surrounding whitespace, an optional sign, digits. *)
Definition long_from_string (l : list Z) : option Z :=
  match strip l with
  | [] => None
  | c :: l' =>
      if (c =? 45)%Z then option_map Z.opp (parse_digits l' 0 true)
      else if (c =? 43)%Z then parse_digits l' 0 true
      else parse_digits (c :: l') 0 true
  end.

(** [int(s)] for a string. *)
Definition parse_int (s : string) : option Z :=
  long_from_string (map int_char (code_points s)).

(** [int(v)]. *)
Definition py_int (v : scalar) : outcome Z :=
  match v with
  | SNone => Exc TypeError
  | SBool b => Ok (if b then 1 else 0)%Z
  | SInt z => Ok z
  | SStr s => match parse_int s with Some z => Ok z | None => Exc ValueError end
  end.

(** [(a, b)[v]] for a two-element tuple or list. *)
Definition index2 {A} (a b : A) (v : scalar) : outcome A :=
  let idx i := match i with
               | 0%Z | (-2)%Z => Ok a
               | 1%Z | (-1)%Z => Ok b
               | _ => Exc IndexError
               end in
  match v with
  | SBool false => Ok a
  | SBool true => Ok b
  | SInt z => idx z
  | _ => Exc TypeError
  end.

Definition is_pstr (k : string) (v : pyval) : bool :=
  match v with PStr s => String.eqb k s | _ => false end.

(** [k in v] for a string [k]. *)
Definition py_contains (k : string) (v : pyval) : outcome bool :=
  match v with
  | PDict kvs => Ok (existsb (fun kv => is_pstr k (fst kv)) kvs)
  | PList l => Ok (existsb (is_pstr k) l)
  | PStr s => Ok (str_contains k s)
  | _ => Exc TypeError
  end.

(** [v[k]] for a string [k]. *)
Definition py_getitem (v : pyval) (k : string) : outcome pyval :=
  match v with
  | PDict kvs =>
      match find (fun kv => is_pstr k (fst kv)) kvs with
      | Some (_, x) => Ok x
      | None => Exc KeyError
      end
  | _ => Exc TypeError
  end.

(** [d[k] = v] on a parameter dict: an existing key keeps its position. *)
Fixpoint dict_set (k : string) (v : scalar) (d : params) : params :=
  match d with
  | [] => [(k, v)]
  | (k', v') :: d' => if String.eqb k k' then (k, v) :: d' else (k', v') :: dict_set k v d'
  end.

(** [{**d, **e}]. *)
Definition dict_update (d e : params) : params :=
  fold_left (fun acc kv => dict_set (fst kv) (snd kv) acc) e d.

(** [raise_error(message, params)]: [e = exc_map.get(message, TalentLMSError)];
    [raise e(message, params)]. *)
Definition raise_error {A} (message : pyval) (ctx : string * option params) : M A :=
  match exc_map_get message with
  | Some k => throw (ETalent k message ctx)
  | None => throw TypeError
  end.

(** [quote_plus(str(param)) + ':' + quote_plus(str(val), safe='@')]. *)
Definition encode_param (kv : string * scalar) : string :=
  quote_plus "" (fst kv) ++ ":" ++ quote_plus "@" (py_str (snd kv)).

(** The path segment built by [_get]. *)
Definition get_params_of (api_params : option params) : string :=
  let params_list :=
    match api_params with
    | None => []
    | Some p => sort_strings (map encode_param p)
    end in
  join "," params_list.

(** [if result is not None and 'error' in result:
       raise_error(result['error']['message'], (api_method, api_params))
     return result]. *)
Definition check_result (api_method : string) (api_params : option params)
    (result : pyval) : M pyval :=
  match result with
  | PNone => ret result
  | _ =>
      has_error <- lift (py_contains "error" result) ;;
      if has_error then
        err <- lift (py_getitem result "error") ;;
        message <- lift (py_getitem err "message") ;;
        raise_error message (api_method, api_params)
      else ret result
  end.

(* ------------------------------------------------------------------ *)
(** ** The client methods *)

Section Client.

(** The server: the parsed body ([json.loads(resp.text)]) of the response
    to a request, given the requests sent before it; [None] when the body is
    not JSON. *)
Variable server : list request -> request -> option pyval.

(** Python's [float(v)] (floating point is not modelled). *)
Variable py_float : scalar -> outcome scalar.

(** [requests.get] / [requests.post] followed by [json.loads(resp.text)]. *)
Definition send (r : request) : M pyval :=
  fun s =>
    ({| st_client := st_client s; st_log := st_log s ++ [r] |},
     match server (st_log s) r with
     | Some v => Ok v
     | None => Exc JSONDecodeError
     end).

Definition _get (api_method : string) (api_params : option params) : M pyval :=
  self <- get_self ;;
  let get_params := get_params_of api_params in
  result <- send (ReqGet (api_url self ++ "/" ++ api_method ++ "/" ++ get_params)
                         (auth self)) ;;
  check_result api_method api_params result.

Definition _post (api_method : string) (api_params : option params) : M pyval :=
  self <- get_self ;;
  result <- send (ReqPost (api_url self ++ "/" ++ api_method) api_params (auth self)) ;;
  check_result api_method api_params result.

(** The request [_get] ([is_post = false]) or [_post] ([is_post = true])
    sends for a given client. *)
Definition helper_request (is_post : bool) (self : client) (api_method : string)
    (api_params : option params) : request :=
  if is_post then ReqPost (api_url self ++ "/" ++ api_method) api_params (auth self)
  else ReqGet (api_url self ++ "/" ++ api_method ++ "/" ++ get_params_of api_params)
              (auth self).

Definition helper (is_post : bool) : string -> option params -> M pyval :=
  if is_post then _post else _get.

Definition int_ (v : scalar) : M Z := lift (py_int v).

Definition users (search_term : scalar) : M pyval :=
  match search_term with
  | SNone => _get "users" None
  | SBool _ | SInt _ => i <- int_ search_term ;; _get "users" (Some [("id", SInt i)])
  | SStr s =>
      if isdigit s then i <- int_ search_term ;; _get "users" (Some [("id", SInt i)])
      else if str_has "@" s then _get "users" (Some [("email", search_term)])
      else _get "users" (Some [("username", search_term)])
  end.

Definition user_login (login password logout_redirect : scalar) : M pyval :=
  let data := [("login", login); ("password", password)] in
  let data := match logout_redirect with
              | SNone => data
              | _ => dict_set "logout_redirect" logout_redirect data
              end in
  _post "userlogin" (Some data).

Definition user_logout (user_id next_url : scalar) : M pyval :=
  let data := [("user_id", user_id)] in
  let data := match next_url with SNone => data | _ => dict_set "next" next_url data end in
  _post "userlogout" (Some data).

Definition user_signup (first_name last_name email login password : scalar)
    (custom_fields : option params) : M pyval :=
  let custom_fields := match custom_fields with None => [] | Some c => c end in
  _post "usersignup"
    (Some (dict_update [("first_name", first_name); ("last_name", last_name);
                        ("email", email); ("login", login); ("password", password)]
                       custom_fields)).

(** An optional [data['deleted_by_user_id'] = int(deleted_by_user_id)]. *)
Definition with_deleted_by (data : params) (deleted_by_user_id : scalar) : M params :=
  match deleted_by_user_id with
  | SNone => ret data
  | _ => d <- int_ deleted_by_user_id ;; ret (dict_set "deleted_by_user_id" (SInt d) data)
  end.

Definition delete_user (user_id deleted_by_user_id permanent : scalar) : M pyval :=
  u <- int_ user_id ;;
  p <- lift (index2 "no" "yes" permanent) ;;
  data <- with_deleted_by [("user_id", SInt u); ("permanent", SStr p)] deleted_by_user_id ;;
  _post "deleteuser" (Some data).

Definition edit_user (user_id : scalar) (user_info : params) : M pyval :=
  if Nat.eqb (length user_info) 0 then throw ValueError
  else
    u <- int_ user_id ;;
    _post "edituser" (Some (dict_update [("user_id", SInt u)] user_info)).

Definition user_set_status (user_id status : scalar) : M pyval :=
  match status with
  | SStr "active" | SStr "inactive" =>
      u <- int_ user_id ;;
      _get "usersetstatus" (Some [("user_id", SInt u); ("status", status)])
  | _ => throw ValueError
  end.

(** [if x is None: return self._get(m)]; [return self._get(m, {'id': int(x)})]. *)
Definition get_by_id (api_method : string) (x : scalar) : M pyval :=
  match x with
  | SNone => _get api_method None
  | _ => i <- int_ x ;; _get api_method (Some [("id", SInt i)])
  end.

Definition courses (course_id : scalar) : M pyval := get_by_id "courses" course_id.
Definition categories (category_id : scalar) : M pyval := get_by_id "categories" category_id.
Definition groups (group_id : scalar) : M pyval := get_by_id "groups" group_id.
Definition branches (branch_id : scalar) : M pyval := get_by_id "branches" branch_id.

Definition coerce_int (v : scalar) : outcome scalar :=
  match py_int v with Ok z => Ok (SInt z) | Exc e => Exc e end.

Definition coerce_str (v : scalar) : outcome scalar := Ok (SStr (py_str v)).

(** [for k, v in kwargs.items(): if k not in allowed_kwargs: raise KeyError(...)
     elif v is not None: data[k] = kwarg_types[k](v)]. *)
Fixpoint apply_kwargs (kwarg_types : list (string * (scalar -> outcome scalar)))
    (kwargs : params) (data : params) : M params :=
  match kwargs with
  | [] => ret data
  | (k, v) :: kwargs' =>
      match assoc_str k kwarg_types with
      | None => throw KeyError
      | Some conv =>
          match v with
          | SNone => apply_kwargs kwarg_types kwargs' data
          | _ => x <- lift (conv v) ;; apply_kwargs kwarg_types kwargs' (dict_set k x data)
          end
      end
  end.

(** An optional [data[k] = v] when [v is not None]. *)
Definition set_opt (k : string) (v : scalar) (data : params) : params :=
  match v with SNone => data | _ => dict_set k v data end.

Definition create_course (name description category_id : scalar) (kwargs : params)
    : M pyval :=
  let data := set_opt "category_id" category_id
                (set_opt "description" description [("name", name)]) in
  data <- apply_kwargs [("code", coerce_str); ("price", py_float);
                        ("time_limit", coerce_int); ("creator_id", coerce_int)]
                       kwargs data ;;
  _post "createcourse" (Some data).

Definition delete_course (course_id deleted_by_user_id : scalar) : M pyval :=
  c <- int_ course_id ;;
  data <- with_deleted_by [("course_id", SInt c)] deleted_by_user_id ;;
  _post "deletecourse" (Some data).

Definition create_group (name description key : scalar) (kwargs : params) : M pyval :=
  let data := set_opt "key" key (set_opt "description" description [("name", name)]) in
  data <- apply_kwargs [("price", py_float); ("creator_id", coerce_int);
                        ("max_redemptions", coerce_int)]
                       kwargs data ;;
  _post "creategroup" (Some data).

Definition delete_group (group_id deleted_by_user_id : scalar) : M pyval :=
  g <- int_ group_id ;;
  data <- with_deleted_by [("group_id", SInt g)] deleted_by_user_id ;;
  _post "deletegroup" (Some data).

Definition delete_branch (branch_id deleted_by_user_id : scalar) : M pyval :=
  b <- int_ branch_id ;;
  data <- with_deleted_by [("branch_id", SInt b)] deleted_by_user_id ;;
  _post "deletebranch" (Some data).

Definition branch_set_status (branch_id status : scalar) : M pyval :=
  b <- int_ branch_id ;;
  st <- lift (index2 "inactive" "active" status) ;;
  _get "branchsetstatus" (Some [("branch_id", SInt b); ("status", SStr st)]).

Definition add_user_to_course (user_id course_id role : scalar) : M pyval :=
  u <- int_ user_id ;;
  c <- int_ course_id ;;
  _post "addusertocourse" (Some [("user_id", SInt u); ("course_id", SInt c); ("role", role)]).

(** [self._get(m, {ka: int(a), kb: int(b)})]. *)
Definition get_two_ids (api_method ka kb : string) (a b : scalar) : M pyval :=
  x <- int_ a ;;
  y <- int_ b ;;
  _get api_method (Some [(ka, SInt x); (kb, SInt y)]).

Definition remove_user_from_course (user_id course_id : scalar) : M pyval :=
  get_two_ids "removeuserfromcourse" "user_id" "course_id" user_id course_id.
Definition get_user_status_in_course (user_id course_id : scalar) : M pyval :=
  get_two_ids "getuserstatusincourse" "user_id" "course_id" user_id course_id.
Definition reset_user_progress (user_id course_id : scalar) : M pyval :=
  get_two_ids "resetuserprogress" "user_id" "course_id" user_id course_id.
Definition add_user_to_branch (user_id branch_id : scalar) : M pyval :=
  get_two_ids "addusertobranch" "user_id" "branch_id" user_id branch_id.
Definition remove_user_from_branch (user_id branch_id : scalar) : M pyval :=
  get_two_ids "removeuserfrombranch" "user_id" "branch_id" user_id branch_id.
Definition add_course_to_branch (course_id branch_id : scalar) : M pyval :=
  get_two_ids "addcoursetobranch" "course_id" "branch_id" course_id branch_id.
Definition remove_user_from_group (user_id group_id : scalar) : M pyval :=
  get_two_ids "removeuserfromgroup" "user_id" "group_id" user_id group_id.
Definition add_course_to_group (course_id group_id : scalar) : M pyval :=
  get_two_ids "addcoursetogroup" "course_id" "group_id" course_id group_id.
Definition get_test_answers (test_id user_id : scalar) : M pyval :=
  get_two_ids "gettestanswers" "test_id" "user_id" test_id user_id.
Definition get_survey_answers (survey_id user_id : scalar) : M pyval :=
  get_two_ids "getsurveyanswers" "survey_id" "user_id" survey_id user_id.

Definition add_user_to_group (user_id group_key : scalar) : M pyval :=
  u <- int_ user_id ;;
  _get "addusertogroup" (Some [("user_id", SInt u); ("group_key", SStr (py_str group_key))]).

Definition get_users_by_custom_field (custom_field_value : scalar) : M pyval :=
  _get "getusersbycustomfield" (Some [("custom_field_value", custom_field_value)]).

Definition get_courses_by_custom_field (custom_field_value : scalar) : M pyval :=
  _get "getcoursesbycustomfield" (Some [("custom_field_value", custom_field_value)]).

(** [for f in v]: a list yields its items, a dict its keys, a string its
    characters. *)
Definition py_iter (v : pyval) : outcome (list pyval) :=
  match v with
  | PList l => Ok l
  | PDict kvs => Ok (map fst kvs)
  | PStr s => Ok (map (fun c => PStr (String c EmptyString)) (list_ascii_of_string s))
  | _ => Exc TypeError
  end.

Definition py_num (v : pyval) : option Z :=
  match v with PBool b => Some (if b then 1 else 0)%Z | PInt z => Some z | _ => None end.

(** [==] on the hashable values a JSON body can hold. *)
Definition py_key_eq (a b : pyval) : bool :=
  match a, b with
  | PNone, PNone => true
  | PStr x, PStr y => String.eqb x y
  | _, _ => match py_num a, py_num b with
            | Some x, Some y => Z.eqb x y
            | _, _ => false
            end
  end.

(** [d[k] = v] on a dict of Python values; [k] must be hashable. *)
Fixpoint pydict_set (k v : pyval) (d : list (pyval * pyval)) : list (pyval * pyval) :=
  match d with
  | [] => [(k, v)]
  | (k', v') :: d' => if py_key_eq k k' then (k', v) :: d' else (k', v') :: pydict_set k v d'
  end.

(** [{f['name']: f for f in fields}]. *)
Fixpoint by_name (fields : list pyval) (acc : list (pyval * pyval))
    : outcome (list (pyval * pyval)) :=
  match fields with
  | [] => Ok acc
  | f :: fields' =>
      match py_getitem f "name" with
      | Exc e => Exc e
      | Ok (PList _) | Ok (PDict _) => Exc TypeError
      | Ok k => by_name fields' (pydict_set k f acc)
      end
  end.

Definition get_custom_registration_fields : M pyval :=
  custom_fields <- _get "getcustomregistrationfields" None ;;
  items <- lift (py_iter custom_fields) ;;
  d <- lift (by_name items []) ;;
  ret (PDict d).

Definition get_custom_course_fields : M pyval := _get "getcustomcoursefields" None.

Definition category_leafs_and_courses (category_id : scalar) : M pyval :=
  c <- int_ category_id ;;
  _get "categoryleafsandcourses" (Some [("id", SInt c)]).

Definition get_users_progress_in_units (unit_id user_id : scalar) : M pyval :=
  u <- int_ unit_id ;;
  _get "getusersprogressinunits" (Some (set_opt "user_id" user_id [("unit_id", SInt u)])).

(** [api.events]: the event types and their descriptions. *)
Definition events : list (string * string) := [
  ("user_login_user", "User log in");
  ("user_register_user", "User registration");
  ("user_self_register", "User self registration");
  ("user_delete_user", "User deletion");
  ("user_undelete_user", "Undelete user");
  ("user_property_change", "User update");
  ("user_create_payment", "User payment");
  ("user_upgrade_level", "User level");
  ("user_unlock_badge", "User badge");
  ("course_create_course", "Course creation");
  ("course_delete_course", "Course deletion");
  ("course_undelete_course", "Undelete course");
  ("course_property_change", "Course update");
  ("course_add_user", "Added user to course");
  ("course_remove_user", "Removed user from course");
  ("course_completion", "User completed course");
  ("course_failure", "User did not pass course");
  ("course_reset_user_progress", "Reset progress");
  ("branch_create_branch", "Branch creation");
  ("branch_delete_branch", "Branch deletion");
  ("branch_property_change", "Branch update");
  ("branch_add_user", "Added user to branch");
  ("branch_remove_user", "Removed user from branch");
  ("branch_add_course", "Added course to branch");
  ("branch_remove_course", "Removed course from branch");
  ("group_create_group", "Group creation");
  ("group_delete_group", "Group deletion");
  ("group_property_change", "Group update");
  ("group_add_user", "Added user to group");
  ("group_remove_user", "Removed user from group");
  ("group_add_course", "Added course to group");
  ("group_remove_course", "Removed course from group");
  ("certification_issue_certification", "Certification issued to user");
  ("certification_refresh_certification", "Certification renewed");
  ("certification_remove_certification", "Certification removed");
  ("certification_expire_certification", "Certification expired");
  ("unitprogress_test_completion", "Test completion");
  ("unitprogress_test_failed", "Test fail");
  ("unitprogress_survey_completion", "Survey completion");
  ("unitprogress_assignment_answered", "Assignment submission");
  ("unitprogress_assignment_graded", "Assignment grading");
  ("unitprogress_ilt_graded", "ILT grading");
  ("notification_create_notification", "Notification creation");
  ("notification_delete_notification", "Notification deletion");
  ("notification_update_notification", "Notification update");
  ("automation_create_automation", "Automation creation");
  ("automation_delete_automation", "Automation deletion");
  ("automation_update_automation", "Automation update");
  ("reports_create_custom_report", "Custom report creation");
  ("reports_delete_custom_report", "Custom report deletion");
  ("reports_update_custom_report", "Custom report update")
].

Definition get_timeline (event_type : string) : M pyval :=
  if negb (existsb (String.eqb event_type) (map fst events)) then throw ValueError
  else _get "gettimeline" (Some [("event_type", SStr event_type)]).

Definition siteinfo : M pyval := _get "siteinfo" None.
Definition ratelimit : M pyval := _get "ratelimit" None.

(** The methods whose body is [raise NotImplementedError]. *)
Definition create_branch (name : scalar) (branch_info : params) : M pyval :=
  throw NotImplementedError.
Definition forgot_username (email domain_url : scalar) : M pyval := throw NotImplementedError.
Definition forgot_password (username domain_url redirect_url : scalar) : M pyval :=
  throw NotImplementedError.
Definition go_to_course (user_id course_id logout_redirect course_completed_redirect
    header_hidden_options : scalar) : M pyval := throw NotImplementedError.
Definition buy_course (user_id course_id coupon : scalar) : M pyval := throw NotImplementedError.
Definition buy_category_courses (user_id category_id coupon : scalar) : M pyval :=
  throw NotImplementedError.
Definition get_ilt_sessions (ilt_id : scalar) : M pyval := throw NotImplementedError.

(** A call of one of the client's methods, with its arguments. *)
Inductive call : Type :=
| C_get (api_method : string) (api_params : option params)
| C_post (api_method : string) (api_params : option params)
| C_users (search_term : scalar)
| C_user_login (login password logout_redirect : scalar)
| C_user_logout (user_id next_url : scalar)
| C_user_signup (first_name last_name email login password : scalar)
    (custom_fields : option params)
| C_delete_user (user_id deleted_by_user_id permanent : scalar)
| C_edit_user (user_id : scalar) (user_info : params)
| C_user_set_status (user_id status : scalar)
| C_courses (course_id : scalar)
| C_create_course (name description category_id : scalar) (kwargs : params)
| C_delete_course (course_id deleted_by_user_id : scalar)
| C_categories (category_id : scalar)
| C_groups (group_id : scalar)
| C_create_group (name description key : scalar) (kwargs : params)
| C_delete_group (group_id deleted_by_user_id : scalar)
| C_branches (branch_id : scalar)
| C_create_branch (name : scalar) (branch_info : params)
| C_delete_branch (branch_id deleted_by_user_id : scalar)
| C_branch_set_status (branch_id status : scalar)
| C_forgot_username (email domain_url : scalar)
| C_forgot_password (username domain_url redirect_url : scalar)
| C_add_user_to_course (user_id course_id role : scalar)
| C_remove_user_from_course (user_id course_id : scalar)
| C_get_user_status_in_course (user_id course_id : scalar)
| C_reset_user_progress (user_id course_id : scalar)
| C_add_user_to_branch (user_id branch_id : scalar)
| C_remove_user_from_branch (user_id branch_id : scalar)
| C_add_course_to_branch (course_id branch_id : scalar)
| C_add_user_to_group (user_id group_key : scalar)
| C_remove_user_from_group (user_id group_id : scalar)
| C_add_course_to_group (course_id group_id : scalar)
| C_go_to_course (user_id course_id logout_redirect course_completed_redirect
    header_hidden_options : scalar)
| C_get_users_by_custom_field (custom_field_value : scalar)
| C_get_courses_by_custom_field (custom_field_value : scalar)
| C_buy_course (user_id course_id coupon : scalar)
| C_buy_category_courses (user_id category_id coupon : scalar)
| C_get_custom_registration_fields
| C_get_custom_course_fields
| C_category_leafs_and_courses (category_id : scalar)
| C_get_users_progress_in_units (unit_id user_id : scalar)
| C_get_test_answers (test_id user_id : scalar)
| C_get_survey_answers (survey_id user_id : scalar)
| C_get_ilt_sessions (ilt_id : scalar)
| C_get_timeline (event_type : string)
| C_siteinfo
| C_ratelimit.

Definition run_call (c : call) : M pyval :=
  match c with
  | C_get m p => _get m p
  | C_post m p => _post m p
  | C_users t => users t
  | C_user_login l p r => user_login l p r
  | C_user_logout u n => user_logout u n
  | C_user_signup f l e lo p c => user_signup f l e lo p c
  | C_delete_user u d p => delete_user u d p
  | C_edit_user u i => edit_user u i
  | C_user_set_status u s => user_set_status u s
  | C_courses c => courses c
  | C_create_course n d c k => create_course n d c k
  | C_delete_course c d => delete_course c d
  | C_categories c => categories c
  | C_groups g => groups g
  | C_create_group n d k kw => create_group n d k kw
  | C_delete_group g d => delete_group g d
  | C_branches b => branches b
  | C_create_branch n i => create_branch n i
  | C_delete_branch b d => delete_branch b d
  | C_branch_set_status b s => branch_set_status b s
  | C_forgot_username e d => forgot_username e d
  | C_forgot_password u d r => forgot_password u d r
  | C_add_user_to_course u c r => add_user_to_course u c r
  | C_remove_user_from_course u c => remove_user_from_course u c
  | C_get_user_status_in_course u c => get_user_status_in_course u c
  | C_reset_user_progress u c => reset_user_progress u c
  | C_add_user_to_branch u b => add_user_to_branch u b
  | C_remove_user_from_branch u b => remove_user_from_branch u b
  | C_add_course_to_branch c b => add_course_to_branch c b
  | C_add_user_to_group u k => add_user_to_group u k
  | C_remove_user_from_group u g => remove_user_from_group u g
  | C_add_course_to_group c g => add_course_to_group c g
  | C_go_to_course u c l cc h => go_to_course u c l cc h
  | C_get_users_by_custom_field v => get_users_by_custom_field v
  | C_get_courses_by_custom_field v => get_courses_by_custom_field v
  | C_buy_course u c k => buy_course u c k
  | C_buy_category_courses u c k => buy_category_courses u c k
  | C_get_custom_registration_fields => get_custom_registration_fields
  | C_get_custom_course_fields => get_custom_course_fields
  | C_category_leafs_and_courses c => category_leafs_and_courses c
  | C_get_users_progress_in_units u v => get_users_progress_in_units u v
  | C_get_test_answers t u => get_test_answers t u
  | C_get_survey_answers s u => get_survey_answers s u
  | C_get_ilt_sessions i => get_ilt_sessions i
  | C_get_timeline e => get_timeline e
  | C_siteinfo => siteinfo
  | C_ratelimit => ratelimit
  end.

End Client.

(** The test client of [tests/test_talentlms.py] and its parameters. *)
Definition test_client : client := make_client "example.talentlms.com" "FAKE_API_KEY_HERE" true.
Definition test_data : params :=
  [("param_1", SStr "str_value:with/special.symbols"); ("param_2", SInt 1);
   ("param_3", SBool false); ("param_4", SStr "user@example.com")].

(** A server answering every request with the same body. *)
Definition const_server (v : option pyval) : list request -> request -> option pyval :=
  fun _ _ => v.

Definition no_float : scalar -> outcome scalar := fun _ => Exc ValueError.

Definition init_state (c : client) : state := {| st_client := c; st_log := [] |}.

(** The strings ['\u00b2'] (SUPERSCRIPT TWO, a digit without a decimal value)
    and ['\u0663'] (ARABIC-INDIC DIGIT THREE), as UTF-8 bytes. *)
Definition superscript_two : string := String "194"%char (String "178"%char EmptyString).
Definition arabic_three : string := String "217"%char (String "163"%char EmptyString).

(* ------------------------------------------------------------------ *)
(** ** Auxiliary definitions for the proofs *)

(** The order [list.sort()] sorts by. *)
Definition le_str (a b : string) : Prop := str_leb a b = true.

(** Computations that leave the state alone. *)
Definition pure_state {A} (m : M A) : Prop := forall s, fst (m s) = s.

(** [quote_plus] byte by byte. *)
Fixpoint str_flat (f : ascii -> string) (s : string) : string :=
  match s with
  | EmptyString => EmptyString
  | String c s' => f c ++ str_flat f s'
  end.

Definition qp_byte (safe : string) (c : ascii) : string :=
  if Ascii.eqb c " " then "+" else quote_byte safe c.

(** The code points of a list of inclusive ranges. *)
Definition range_points (rs : list (Z * Z)) : list Z :=
  flat_map (fun r => map (fun k => fst r + Z.of_nat k)%Z
                         (seq 0 (Z.to_nat (snd r - fst r + 1)))) rs.

(** [str.isdecimal()]: non-empty and every character a decimal digit. *)
Definition isdecimal (s : string) : bool :=
  match code_points s with
  | [] => false
  | cps => forallb (fun c => match to_decimal c with Some _ => true | None => false end) cps
  end.

(** The value of a string of decimal digits. *)
Definition decimal_value (s : string) : Z :=
  fold_left (fun acc c => acc * 10 + match to_decimal c with Some d => d | None => 0 end)%Z
    (code_points s) 0%Z.

(** Computations that leave the client configuration alone and only add
    requests to the log. *)
Definition keeps_client {A} (m : M A) : Prop :=
  forall s, st_client (fst (m s)) = st_client s /\
            exists sent, st_log (fst (m s)) = (st_log s ++ sent)%list.

(** Computations that leave the client configuration alone and append at
    most [n] requests to the log. *)
Definition sends_within {A} (n : nat) (m : M A) : Prop :=
  forall s, st_client (fst (m s)) = st_client s /\
            exists sent, st_log (fst (m s)) = (st_log s ++ sent)%list /\ length sent <= n.

(** Computations that raise, either before sending anything (the state is
    left alone) or with [JSONDecodeError] after sending one request (the
    client left alone and that request added to the log). *)
Definition raises_no_json {A} (m : M A) : Prop :=
  forall s, (fst (m s) = s /\ exists e, snd (m s) = Exc e) \/
            (exists r, fst (m s) = {| st_client := st_client s; st_log := st_log s ++ [r] |} /\
                       snd (m s) = Exc JSONDecodeError).

(** [s.split(c)] for a single character [c]. *)
Fixpoint split_on (c : ascii) (s : string) : list string :=
  match s with
  | EmptyString => [EmptyString]
  | String d s' =>
      if Ascii.eqb c d then EmptyString :: split_on c s'
      else match split_on c s' with
           | w :: ws => String d w :: ws
           | [] => [String d EmptyString]
           end
  end.

(** Reading a [_get] path segment back: split it on [','], each item on
    [':'], and [unquote_plus] both halves. *)
Definition decode_pair (item : string) : string * string :=
  match split_on ":" item with
  | [k; v] => (unquote_plus k, unquote_plus v)
  | _ => (item, EmptyString)
  end.

Definition decode_get_params (segment : string) : list (string * string) :=
  map decode_pair (split_on "," segment).

(** The methods whose body is [self._get(m, {ka: int(a), kb: int(b)})], with
    [m], [ka] and [kb]. *)
Definition two_id_methods (server : list request -> request -> option pyval)
    : list ((scalar -> scalar -> M pyval) * string * string * string) := [
  (remove_user_from_course server, "removeuserfromcourse", "user_id", "course_id");
  (get_user_status_in_course server, "getuserstatusincourse", "user_id", "course_id");
  (reset_user_progress server, "resetuserprogress", "user_id", "course_id");
  (add_user_to_branch server, "addusertobranch", "user_id", "branch_id");
  (remove_user_from_branch server, "removeuserfrombranch", "user_id", "branch_id");
  (add_course_to_branch server, "addcoursetobranch", "course_id", "branch_id");
  (remove_user_from_group server, "removeuserfromgroup", "user_id", "group_id");
  (add_course_to_group server, "addcoursetogroup", "course_id", "group_id");
  (get_test_answers server, "gettestanswers", "test_id", "user_id");
  (get_survey_answers server, "getsurveyanswers", "survey_id", "user_id")
].

(** [kwarg_types[k](v)] for an integer keyword: [int(v)] or its error. *)
Definition int_result (v : scalar) (r : outcome scalar) : Prop :=
  (exists z, py_int v = Ok z /\ r = Ok (SInt z)) \/ (exists e, py_int v = Exc e /\ r = Exc e).

(** The conversions of [create_course]'s keyword arguments: [str] for
    ['code'], [float] for ['price'], [int] for ['time_limit'] and
    ['creator_id']. *)
Definition course_conv (py_float : scalar -> outcome scalar) (k : string) (v : scalar)
    (r : outcome scalar) : Prop :=
  (k = "code" /\ r = Ok (SStr (py_str v))) \/ (k = "price" /\ r = py_float v) \/
  ((k = "time_limit" \/ k = "creator_id") /\ int_result v r).

(** The conversions of [create_group]'s keyword arguments: [float] for
    ['price'], [int] for ['creator_id'] and ['max_redemptions']. *)
Definition group_conv (py_float : scalar -> outcome scalar) (k : string) (v : scalar)
    (r : outcome scalar) : Prop :=
  (k = "price" /\ r = py_float v) \/
  ((k = "creator_id" \/ k = "max_redemptions") /\ int_result v r).

(* ------------------------------------------------------------------ *)
(** ** Proofs *)

Example test_get_success_url :
  st_log (fst (_get (const_server (Some (PDict [(PStr "result", PStr "ok")])))
                    "test_api_method" (Some test_data) (init_state test_client))) =
  [ReqGet ("https://example.talentlms.com/api/v1/test_api_method/" ++
           "param_1:str_value%3Awith%2Fspecial.symbols,param_2:1,param_3:False," ++
           "param_4:user@example.com") ("FAKE_API_KEY_HERE", "")].
Proof. vm_compute. reflexivity. Qed.

(** *** Strings *)

Lemma str_app_assoc (a b c : string) : (a ++ b) ++ c = a ++ (b ++ c).
Proof. induction a as [|x a IH]; simpl; [reflexivity | now rewrite IH]. Qed.

Lemma code_inj (a b : ascii) : code a = code b -> a = b.
Proof.
  unfold code; intro H.
  rewrite <- (ascii_nat_embedding a), <- (ascii_nat_embedding b), H; reflexivity.
Qed.

Lemma str_leb_refl (s : string) : str_leb s s = true.
Proof. induction s as [|a s IH]; simpl; [reflexivity|]. now rewrite Nat.ltb_irrefl. Qed.

Lemma str_leb_total (a b : string) : str_leb a b = true \/ str_leb b a = true.
Proof.
  revert b; induction a as [|x a IH]; intros [|y b]; simpl; auto.
  destruct (Nat.ltb (code x) (code y)) eqn:E1; auto.
  destruct (Nat.ltb (code y) (code x)) eqn:E2; auto.
Qed.

Lemma str_leb_antisym (a b : string) :
  str_leb a b = true -> str_leb b a = true -> a = b.
Proof.
  revert b; induction a as [|x a IH]; intros [|y b]; simpl; try discriminate; auto.
  destruct (Nat.ltb (code x) (code y)) eqn:E1; destruct (Nat.ltb (code y) (code x)) eqn:E2;
    try discriminate.
  - apply Nat.ltb_lt in E1, E2; lia.
  - intros H1 H2. apply Nat.ltb_ge in E1, E2.
    rewrite (code_inj x y) by lia. now rewrite (IH b H1 H2).
Qed.

Lemma str_leb_trans (a b c : string) :
  str_leb a b = true -> str_leb b c = true -> str_leb a c = true.
Proof.
  revert b c; induction a as [|x a IH]; intros [|y b] [|z c]; simpl; try discriminate; auto.
  destruct (Nat.ltb (code x) (code y)) eqn:E1; destruct (Nat.ltb (code y) (code x)) eqn:E2;
  destruct (Nat.ltb (code y) (code z)) eqn:E3; destruct (Nat.ltb (code z) (code y)) eqn:E4;
  destruct (Nat.ltb (code x) (code z)) eqn:E5; destruct (Nat.ltb (code z) (code x)) eqn:E6;
  rewrite ?Nat.ltb_lt, ?Nat.ltb_ge in *; try discriminate; try lia; eauto.
Qed.

(** *** Sorting *)


Lemma insert_sorted_perm (x : string) (l : list string) :
  Permutation (x :: l) (insert_sorted x l).
Proof.
  induction l as [|y l IH]; simpl; [reflexivity|].
  destruct (str_leb x y); [reflexivity|].
  rewrite perm_swap. now constructor.
Qed.

Lemma sort_strings_perm (l : list string) : Permutation l (sort_strings l).
Proof.
  induction l as [|x l IH]; simpl; [reflexivity|].
  rewrite <- insert_sorted_perm. now constructor.
Qed.

Lemma insert_sorted_sorted (x : string) (l : list string) :
  Sorted le_str l -> Sorted le_str (insert_sorted x l).
Proof.
  induction 1 as [|y l Hl IH Hhd]; simpl.
  - repeat constructor.
  - destruct (str_leb x y) eqn:Exy.
    + constructor; [constructor; assumption | constructor; exact Exy].
    + assert (Hyx : le_str y x).
      { destruct (str_leb_total x y); [congruence | assumption]. }
      constructor; [exact IH|].
      destruct l as [|z l]; simpl.
      * constructor; exact Hyx.
      * inversion Hhd; subst.
        destruct (str_leb x z); constructor; assumption.
Qed.

Lemma sort_strings_sorted (l : list string) : Sorted le_str (sort_strings l).
Proof. induction l; simpl; [constructor | now apply insert_sorted_sorted]. Qed.

(** Two sorted permutations of each other are equal. *)
Lemma sorted_perm_unique (l1 l2 : list string) :
  Sorted le_str l1 -> Sorted le_str l2 -> Permutation l1 l2 -> l1 = l2.
Proof.
  intros H1 H2.
  assert (Htr : RelationClasses.Transitive le_str) by (intros a b c; apply str_leb_trans).
  apply Sorted_StronglySorted in H1, H2; try exact Htr.
  revert l2 H2; induction H1 as [|a l1 Hs1 IH Hf1]; intros l2 H2 Hp.
  - symmetry; now apply Permutation_nil.
  - destruct H2 as [|b l2 Hs2 Hf2].
    + now apply Permutation_sym, Permutation_nil in Hp.
    + assert (Hab : a = b).
      { assert (Ha : In a (b :: l2)) by (apply (Permutation_in a Hp); now left).
        assert (Hb : In b (a :: l1)) by (apply (Permutation_in b (Permutation_sym Hp)); now left).
        destruct Ha as [->|Ha]; [reflexivity|]. destruct Hb as [->|Hb]; [reflexivity|].
        apply str_leb_antisym.
        - exact (proj1 (Forall_forall _ _) Hf1 b Hb).
        - exact (proj1 (Forall_forall _ _) Hf2 a Ha). }
      subst b. f_equal. apply IH; [exact Hs2|].
      exact (Permutation_cons_inv Hp).
Qed.

Lemma sort_strings_perm_eq (l1 l2 : list string) :
  Permutation l1 l2 -> sort_strings l1 = sort_strings l2.
Proof.
  intro Hp. apply sorted_perm_unique; try apply sort_strings_sorted.
  rewrite <- !sort_strings_perm; exact Hp.
Qed.

(** *** The request helpers *)

Lemma helper_unfold (server : list request -> request -> option pyval) (b : bool)
    (m : string) (p : option params) (s : state) :
  helper server b m p s =
  let s1 := {| st_client := st_client s;
               st_log := st_log s ++ [helper_request b (st_client s) m p] |} in
  match server (st_log s) (helper_request b (st_client s) m p) with
  | Some v => check_result m p v s1
  | None => (s1, Exc JSONDecodeError)
  end.
Proof.
  destruct b; unfold helper, _get, _post, bind, get_self, send; simpl;
    destruct (server _ _); reflexivity.
Qed.

Lemma raise_error_state {A} (msg : pyval) (ctx : string * option params) (s : state) :
  exists e, @raise_error A msg ctx s = (s, Exc e).
Proof. unfold raise_error; destruct (exc_map_get msg); eexists; reflexivity. Qed.

Create HintDb pure_db.

Lemma ret_pure {A} (a : A) : pure_state (ret a).
Proof. intro; reflexivity. Qed.
Lemma throw_pure {A} (e : exn) : pure_state (@throw A e).
Proof. intro; reflexivity. Qed.
Lemma lift_pure {A} (o : outcome A) : pure_state (lift o).
Proof. destruct o; intro; reflexivity. Qed.
Lemma raise_error_pure {A} (msg : pyval) (ctx : string * option params) :
  pure_state (@raise_error A msg ctx).
Proof. intro s; destruct (@raise_error_state A msg ctx s) as [e ->]; reflexivity. Qed.
Lemma bind_pure {A B} (m : M A) (f : A -> M B) :
  pure_state m -> (forall a, pure_state (f a)) -> pure_state (bind m f).
Proof.
  intros Hm Hf s; unfold bind. specialize (Hm s).
  destruct (m s) as [s' [a|e]]; simpl in *; subst; [apply Hf | reflexivity].
Qed.
#[local] Hint Resolve ret_pure throw_pure lift_pure raise_error_pure bind_pure : pure_db.

Lemma check_result_pure (m : string) (p : option params) (r : pyval) :
  pure_state (check_result m p r).
Proof.
  unfold check_result; destruct r; auto with pure_db;
  apply bind_pure; auto with pure_db; intros []; auto 6 with pure_db.
Qed.

Lemma check_result_state (m : string) (p : option params) (r : pyval) (s : state) :
  fst (check_result m p r s) = s.
Proof. apply check_result_pure. Qed.

Lemma helper_state (server : list request -> request -> option pyval) (b : bool)
    (m : string) (p : option params) (s : state) :
  fst (helper server b m p s) =
  {| st_client := st_client s; st_log := st_log s ++ [helper_request b (st_client s) m p] |}.
Proof.
  rewrite helper_unfold; cbv zeta.
  destruct (server _ _); [apply check_result_state | reflexivity].
Qed.

Lemma exc_map_nodup : NoDup (map fst exc_map).
Proof. simpl; repeat constructor; simpl; intuition discriminate. Qed.

Lemma assoc_str_in {A} (k : string) (l : list (string * A)) (v : A) :
  assoc_str k l = Some v -> In (k, v) l.
Proof.
  induction l as [|[k' v'] l IH]; simpl; [discriminate|].
  destruct (String.eqb k k') eqn:E; [|auto].
  apply String.eqb_eq in E; subst. intros [= ->]; now left.
Qed.

Lemma assoc_str_none {A} (k : string) (l : list (string * A)) :
  assoc_str k l = None -> ~ In k (map fst l).
Proof.
  induction l as [|[k' v'] l IH]; simpl; [auto|].
  destruct (String.eqb k k') eqn:E; [discriminate|].
  apply String.eqb_neq in E. intros H [->|Hin]; [congruence | exact (IH H Hin)].
Qed.

Lemma in_nodup_unique {A} (k : string) (l : list (string * A)) (v w : A) :
  NoDup (map fst l) -> In (k, v) l -> In (k, w) l -> v = w.
Proof.
  induction l as [|[k' v'] l IH]; simpl; [tauto|].
  intros Hnd; inversion Hnd as [|? ? Hnot Hnd']; subst.
  intros [Hv|Hv] [Hw|Hw].
  - congruence.
  - injection Hv as <- <-. exfalso; apply Hnot. now apply (in_map fst) in Hw.
  - injection Hw as <- <-. exfalso; apply Hnot. now apply (in_map fst) in Hv.
  - now apply IH.
Qed.

Lemma getitem_dict_contains (r x : pyval) (k : string) :
  py_getitem r k = Ok x -> py_contains k r = Ok true.
Proof.
  destruct r as [| | | | |kvs]; simpl; try discriminate.
  destruct (find _ kvs) as [[kk vv]|] eqn:F; [|discriminate]. intros _.
  apply find_some in F. destruct F as [Hin Hk].
  f_equal. apply existsb_exists. now exists (kk, vv).
Qed.

(** *** Results of the helpers *)

(** ** C10 *)
(** C10: when the parsed body of the response is JSON [null], [_get] and
    [_post] skip the error check and return [None] without raising. *)
Theorem helper_null_returned (server : list request -> request -> option pyval)
    (is_post : bool) (c : client) (log : list request) (m : string) (p : option params)
    (Hnull : server log (helper_request is_post c m p) = Some PNone) :
  snd (helper server is_post m p (mk_state c log)) = Ok PNone.
Proof. rewrite helper_unfold; simpl. now rewrite Hnull. Qed.

Lemma helper_null_returned_witness :
  snd (helper (const_server (Some PNone)) false "siteinfo" None (mk_state test_client [])) =
  Ok PNone /\
  snd (helper (const_server (Some PNone)) true "userlogout"
              (Some [("user_id", SInt 40457)]) (mk_state test_client [])) = Ok PNone.
Proof.
  split; apply helper_null_returned; reflexivity.
Defined.

Lemma check_result_error (m : string) (p : option params) (r err msg : pyval) (s : state) :
  py_getitem r "error" = Ok err -> py_getitem err "message" = Ok msg ->
  check_result m p r s = raise_error msg (m, p) s.
Proof.
  intros He Hm. pose proof (getitem_dict_contains r err "error" He) as Hc.
  destruct r; try discriminate He;
  unfold check_result, bind, lift, ret, throw; rewrite Hc, He, Hm; reflexivity.
Qed.

Lemma is_pstr_true (k : string) (v : pyval) : is_pstr k v = true -> v = PStr k.
Proof.
  destruct v; simpl; try discriminate. intro H; apply String.eqb_eq in H; now subst.
Qed.

Lemma check_result_no_error (m : string) (p : option params) (r : pyval) (s : state) :
  ((exists kvs, r = PDict kvs /\ ~ In (PStr "error") (map fst kvs)) \/
   (exists l, r = PList l /\ ~ In (PStr "error") l)) ->
  check_result m p r s = (s, Ok r).
Proof.
  intros [[kvs [-> Hn]] | [l [-> Hn]]]; unfold check_result, bind, lift, ret; simpl.
  - destruct (existsb _ kvs) eqn:E; [|reflexivity].
    exfalso; apply existsb_exists in E. destruct E as [[k v] [Hin Hk]].
    apply Hn. apply is_pstr_true in Hk. simpl in Hk; subst k.
    now apply (in_map fst) in Hin.
  - destruct (existsb _ l) eqn:E; [|reflexivity].
    exfalso; apply existsb_exists in E. destruct E as [x [Hin Hk]].
    apply is_pstr_true in Hk; subst x. exact (Hn Hin).
Qed.

Lemma check_result_message_fails (m : string) (p : option params) (r err : pyval) (e : exn)
    (s : state) :
  py_getitem r "error" = Ok err -> py_getitem err "message" = Exc e ->
  check_result m p r s = (s, Exc e).
Proof.
  intros He Hm. pose proof (getitem_dict_contains r err "error" He) as Hc.
  destruct r; try discriminate He;
  unfold check_result, bind, lift, ret, throw; rewrite Hc, He, Hm; reflexivity.
Qed.

Lemma getitem_missing (kvs : list (pyval * pyval)) (k : string) :
  ~ In (PStr k) (map fst kvs) -> py_getitem (PDict kvs) k = Exc KeyError.
Proof.
  intro Hn. simpl. destruct (find _ kvs) as [[kk vv]|] eqn:F; [|reflexivity].
  exfalso. apply find_some in F. destruct F as [Hin Hk].
  apply is_pstr_true in Hk. simpl in Hk; subst kk. apply Hn. now apply (in_map fst) in Hin.
Qed.

Lemma getitem_not_dict (v : pyval) (k : string) :
  (forall kvs, v <> PDict kvs) -> py_getitem v k = Exc TypeError.
Proof. intro H. destruct v as [| | | | |kvs]; try reflexivity. now destruct (H kvs). Qed.

Lemma helper_answered (server : list request -> request -> option pyval) (is_post : bool)
    (c : client) (log : list request) (m : string) (p : option params) (r : pyval) :
  server log (helper_request is_post c m p) = Some r ->
  helper server is_post m p (mk_state c log) =
  check_result m p r {| st_client := c; st_log := log ++ [helper_request is_post c m p] |}.
Proof. intro Hs. rewrite helper_unfold. cbv zeta. cbn [st_log st_client]. now rewrite Hs. Qed.

(** ** C1 *)
(** C1 (as amended): [raise_error] never returns normally, whatever the
    message.  When the parsed body of a [_get] or [_post] response is an
    object with an ['error'] key, the call raises after sending its request:
    if [result['error']] is an object with a ['message'], [raise_error] gets
    that message and [(api_method, api_params)] and raises the kind the
    table [exc_map] gives for a string message found there, the generic
    [TalentLMSError] for any other string and for a number, a boolean or
    [null], and [TypeError] for a list or an object (not hashable); if
    [result['error']] is not an object, or has no ['message'],
    [result['error']['message']] raises [TypeError] or [KeyError] and
    [raise_error] is not called. *)
Theorem error_message_mapped :
  (forall (A : Type) (msg : pyval) (ctx : string * option params) (s : state),
     exists e, @raise_error A msg ctx s = (s, Exc e)) /\
  (forall (server : list request -> request -> option pyval) (is_post : bool)
          (c : client) (log : list request) (m : string) (p : option params) (r err : pyval),
     server log (helper_request is_post c m p) = Some r ->
     py_getitem r "error" = Ok err ->
     let s1 := {| st_client := c; st_log := log ++ [helper_request is_post c m p] |} in
     (forall msg : string, py_getitem err "message" = Ok (PStr msg) ->
        exists k,
          helper server is_post m p (mk_state c log) = (s1, Exc (ETalent k (PStr msg) (m, p))) /\
          ((In (msg, k) exc_map /\ forall k', In (msg, k') exc_map -> k' = k) \/
           (~ In msg (map fst exc_map) /\ k = TalentLMSError))) /\
     (forall msg : pyval, py_getitem err "message" = Ok msg ->
        (msg = PNone \/ (exists b, msg = PBool b) \/ (exists z, msg = PInt z)) ->
        helper server is_post m p (mk_state c log) =
        (s1, Exc (ETalent TalentLMSError msg (m, p)))) /\
     (forall msg : pyval, py_getitem err "message" = Ok msg ->
        ((exists l, msg = PList l) \/ (exists kvs, msg = PDict kvs)) ->
        helper server is_post m p (mk_state c log) = (s1, Exc TypeError)) /\
     ((forall kvs, err <> PDict kvs) ->
        helper server is_post m p (mk_state c log) = (s1, Exc TypeError)) /\
     (forall kvs, err = PDict kvs -> ~ In (PStr "message") (map fst kvs) ->
        helper server is_post m p (mk_state c log) = (s1, Exc KeyError))).
Proof.
  split; [exact (@raise_error_state) |].
  intros server is_post c log m p r err Hs He. cbv zeta.
  rewrite (helper_answered server is_post c log m p r Hs).
  split; [|split; [|split; [|split]]].
  - intros msg Hm. rewrite (check_result_error m p r err (PStr msg) _ He Hm).
    unfold raise_error, exc_map_get.
    destruct (assoc_str msg exc_map) as [k|] eqn:E.
    + exists k; split; [reflexivity|]. left. apply assoc_str_in in E.
      split; [exact E|]. intros k' H'. exact (in_nodup_unique msg exc_map k' k exc_map_nodup H' E).
    + exists TalentLMSError; split; [reflexivity|]. right. split; [|reflexivity].
      exact (assoc_str_none msg exc_map E).
  - intros msg Hm Hk. rewrite (check_result_error m p r err msg _ He Hm).
    destruct Hk as [-> | [[b ->] | [z ->]]]; reflexivity.
  - intros msg Hm Hk. rewrite (check_result_error m p r err msg _ He Hm).
    destruct Hk as [[l ->] | [kvs ->]]; reflexivity.
  - intro Hnd. apply check_result_message_fails with (err := err); [exact He|].
    now apply getitem_not_dict.
  - intros kvs -> Hn. apply check_result_message_fails with (err := PDict kvs); [exact He|].
    now apply getitem_missing.
Qed.

Lemma error_message_mapped_witness :
  let req := helper_request false test_client "users" (Some [("id", SInt 123456)]) in
  let s1 := {| st_client := test_client; st_log := [req] |} in
  let msg := "A user with the same login already exists" in
  (exists k,
    helper (const_server (Some (PDict [(PStr "error", PDict [(PStr "message", PStr msg)])])))
           false "users" (Some [("id", SInt 123456)]) (mk_state test_client []) =
      (s1, Exc (ETalent k (PStr msg) ("users", Some [("id", SInt 123456)]))) /\
    ((In (msg, k) exc_map /\ forall k', In (msg, k') exc_map -> k' = k) \/
     (~ In msg (map fst exc_map) /\ k = TalentLMSError))) /\
  helper (const_server (Some (PDict [(PStr "error", PDict [(PStr "message", PInt 5)])])))
         false "users" (Some [("id", SInt 123456)]) (mk_state test_client []) =
    (s1, Exc (ETalent TalentLMSError (PInt 5) ("users", Some [("id", SInt 123456)]))) /\
  helper (const_server (Some (PDict [(PStr "error", PStr "boom")])))
         false "users" (Some [("id", SInt 123456)]) (mk_state test_client []) =
    (s1, Exc TypeError) /\
  helper (const_server (Some (PDict [(PStr "error", PDict [(PStr "type", PStr "x")])])))
         false "users" (Some [("id", SInt 123456)]) (mk_state test_client []) =
    (s1, Exc KeyError).
Proof.
  cbv zeta. split; [|split; [|split]].
  - refine (proj1 (proj2 error_message_mapped _ false test_client [] "users"
                     (Some [("id", SInt 123456)])
                     (PDict [(PStr "error", PDict [(PStr "message",
                              PStr "A user with the same login already exists")])])
                     (PDict [(PStr "message", PStr "A user with the same login already exists")])
                     eq_refl eq_refl) _ eq_refl).
  - refine (proj1 (proj2 (proj2 error_message_mapped _ false test_client [] "users"
                     (Some [("id", SInt 123456)])
                     (PDict [(PStr "error", PDict [(PStr "message", PInt 5)])])
                     (PDict [(PStr "message", PInt 5)]) eq_refl eq_refl)) _ eq_refl _).
    right; right; exists 5%Z; reflexivity.
  - refine (proj1 (proj2 (proj2 (proj2 (proj2 error_message_mapped _ false test_client []
                     "users" (Some [("id", SInt 123456)])
                     (PDict [(PStr "error", PStr "boom")]) (PStr "boom") eq_refl eq_refl))))
                  _).
    intros kvs; discriminate.
  - refine (proj2 (proj2 (proj2 (proj2 (proj2 error_message_mapped _ false test_client []
                     "users" (Some [("id", SInt 123456)])
                     (PDict [(PStr "error", PDict [(PStr "type", PStr "x")])])
                     (PDict [(PStr "type", PStr "x")]) eq_refl eq_refl))))
                  [(PStr "type", PStr "x")] eq_refl _).
    simpl; intuition discriminate.
Defined.

(** C1 fails as stated: an ['error'] entry that is not an object with a
    ['message'] makes [result['error']['message']] raise [TypeError], so the
    error-mapping helper is never invoked and no [TalentLMSError] kind is
    raised. *)
Lemma error_key_without_message :
  let r := snd (_get (const_server (Some (PDict [(PStr "error", PStr "boom")])))
                     "users" None (init_state test_client)) in
  r = Exc TypeError /\ forall k msg ctx, r <> Exc (ETalent k msg ctx).
Proof. vm_compute. split; [reflexivity | discriminate]. Qed.

(** ** X18 *)
(** X18: when the parsed body is an object without an ['error'] key, or an
    array none of whose elements is the string ['error'], [_get] and
    [_post] return it unchanged. *)
Theorem no_error_returned (server : list request -> request -> option pyval)
    (is_post : bool) (c : client) (log : list request) (m : string) (p : option params)
    (r : pyval)
    (Hs : server log (helper_request is_post c m p) = Some r)
    (Hshape : (exists kvs, r = PDict kvs /\ ~ In (PStr "error") (map fst kvs)) \/
              (exists l, r = PList l /\ ~ In (PStr "error") l)) :
  snd (helper server is_post m p (mk_state c log)) = Ok r.
Proof.
  rewrite helper_unfold; simpl; rewrite Hs.
  now rewrite check_result_no_error.
Qed.

Lemma no_error_returned_witness :
  snd (helper (const_server (Some (PDict [(PStr "result", PStr "ok")]))) true
              "test_api_method" (Some test_data) (mk_state test_client [])) =
  Ok (PDict [(PStr "result", PStr "ok")]).
Proof.
  apply no_error_returned; [reflexivity|].
  left; eexists; split; [reflexivity|]. simpl; intuition discriminate.
Defined.

(** ** C3 *)
(** C3 (a slip of the code): a body without an ['error'] key should be
    returned unchanged, but the test ['error' in result] also holds for an
    array that has the string ['error'] among its elements, and then
    [result['error']] raises [TypeError] (an array is indexed by integers):
    [_get] and [_post] raise after sending instead of returning the array. *)
Theorem error_string_in_array (server : list request -> request -> option pyval)
    (is_post : bool) (c : client) (log : list request) (m : string) (p : option params)
    (l : list pyval)
    (Hs : server log (helper_request is_post c m p) = Some (PList l))
    (Hin : In (PStr "error") l) :
  helper server is_post m p (mk_state c log) =
  ({| st_client := c; st_log := log ++ [helper_request is_post c m p] |}, Exc TypeError).
Proof.
  rewrite (helper_answered server is_post c log m p (PList l) Hs).
  assert (He : existsb (is_pstr "error") l = true).
  { apply existsb_exists. exists (PStr "error"). split; [exact Hin | reflexivity]. }
  unfold check_result, bind, lift, ret, throw. cbn [py_contains py_getitem snd fst].
  rewrite He. reflexivity.
Qed.

Lemma error_string_in_array_witness :
  helper (const_server (Some (PList [PStr "ok"; PStr "error"]))) false "users" None
         (mk_state test_client []) =
  ({| st_client := test_client; st_log := [helper_request false test_client "users" None] |},
   Exc TypeError).
Proof.
  apply (error_string_in_array _ false test_client [] "users" None [PStr "ok"; PStr "error"]
           eq_refl).
  right; left; reflexivity.
Defined.

(** *** Percent-encoding *)

Lemma str_flat_app (f : ascii -> string) (a b : string) :
  str_flat f (a ++ b) = str_flat f a ++ str_flat f b.
Proof. induction a as [|c a IH]; simpl; [reflexivity|]. now rewrite IH, str_app_assoc. Qed.

Lemma quote_flat (safe s : string) : quote safe s = str_flat (quote_byte safe) s.
Proof. induction s as [|c s IH]; simpl; congruence. Qed.

Lemma replace_char_app (a b : ascii) (x y : string) :
  replace_char a b (x ++ y) = replace_char a b x ++ replace_char a b y.
Proof. induction x as [|c x IH]; simpl; congruence. Qed.

Lemma str_has_app (c : ascii) (x y : string) :
  str_has c (x ++ y) = str_has c x || str_has c y.
Proof. induction x as [|d x IH]; simpl; [reflexivity|]. rewrite IH; apply orb_assoc. Qed.

Lemma hex_digit_props (n : nat) : n < 16 ->
  hex_val (hex_digit n) = Some n /\ hex_digit n <> " "%char /\ hex_digit n <> "+"%char.
Proof.
  intro H.
  do 16 (destruct n as [|n]; [split; [reflexivity | split; discriminate]|]).
  lia.
Qed.

Lemma code_div_lt (c : ascii) : code c / 16 < 16.
Proof. pose proof (nat_ascii_bounded c). unfold code. apply Nat.Div0.div_lt_upper_bound. lia. Qed.

Lemma code_mod_lt (c : ascii) : code c mod 16 < 16.
Proof. apply Nat.mod_upper_bound; lia. Qed.

Lemma hex_roundtrip (c : ascii) : ascii_of_nat (code c / 16 * 16 + code c mod 16) = c.
Proof.
  rewrite (Nat.mul_comm _ 16), <- Nat.div_mod_eq. apply ascii_nat_embedding.
Qed.

(** Outside the space branch and inside it, [quote_plus] is byte-wise. *)
Lemma quote_plus_flat (safe s : string) : quote_plus safe s = str_flat (qp_byte safe) s.
Proof.
  unfold quote_plus. rewrite quote_flat.
  destruct (str_has " " s) eqn:Hsp.
  - clear Hsp. induction s as [|c s IH]; simpl; [reflexivity|].
    rewrite replace_char_app, IH. f_equal.
    unfold qp_byte, quote_byte. rewrite str_has_app.
    change (str_has c " ") with (Ascii.eqb c " " || false).
    destruct (Ascii.eqb c " ") eqn:Ec.
    + apply Ascii.eqb_eq in Ec; subst c. rewrite !orb_true_r. reflexivity.
    + rewrite orb_false_r.
      destruct (hex_digit_props (code c / 16) (code_div_lt c)) as [_ [H1 _]].
      destruct (hex_digit_props (code c mod 16) (code_mod_lt c)) as [_ [H2 _]].
      apply (proj2 (Ascii.eqb_neq _ _)) in H1, H2.
      set (hi := hex_digit (code c / 16)) in *. set (lo := hex_digit (code c mod 16)) in *.
      clearbody hi lo.
      destruct (always_safe c || str_has c safe); cbn [replace_char].
      * now rewrite Ec.
      * now rewrite H1, H2.
  - induction s as [|c s IH]; simpl; [reflexivity|].
    change (str_has " " (String c s)) with (Ascii.eqb " " c || str_has " " s) in Hsp.
    apply orb_false_iff in Hsp. destruct Hsp as [Hc Hs].
    rewrite (IH Hs). unfold qp_byte. rewrite Ascii.eqb_sym, Hc. reflexivity.
Qed.

Lemma unquote_plus_byte (safe : string) (c : ascii) (rest : string) :
  str_has "%" safe = false -> str_has "+" safe = false ->
  unquote (replace_char "+" " " (qp_byte safe c) ++ rest) = String c (unquote rest).
Proof.
  intros Hpct Hplus. unfold qp_byte.
  destruct (Ascii.eqb c " ") eqn:Ec.
  - apply Ascii.eqb_eq in Ec; subst c. reflexivity.
  - unfold quote_byte. destruct (always_safe c || str_has c safe) eqn:Hs.
    + assert (Hc1 : c <> "+"%char /\ c <> "%"%char).
      { apply orb_true_iff in Hs. destruct Hs as [Hs|Hs];
          split; intros ->; try discriminate Hs; congruence. }
      destruct Hc1 as [Hc1 Hc2]. apply (proj2 (Ascii.eqb_neq _ _)) in Hc1, Hc2.
      simpl. rewrite Hc1. simpl. rewrite Hc2. reflexivity.
    + destruct (hex_digit_props (code c / 16) (code_div_lt c)) as [V1 [_ P1]].
      destruct (hex_digit_props (code c mod 16) (code_mod_lt c)) as [V2 [_ P2]].
      apply (proj2 (Ascii.eqb_neq _ _)) in P1, P2.
      pose proof (hex_roundtrip c) as R.
      set (x := code c / 16) in *. set (y := code c mod 16) in *.
      set (hi := hex_digit x) in *. set (lo := hex_digit y) in *.
      clearbody hi lo x y.
      cbn [replace_char append]. rewrite P1, P2.
      cbn [unquote Ascii.eqb]. rewrite V1, V2, R. reflexivity.
Qed.

Lemma unquote_plus_quote_plus (safe s : string) :
  str_has "%" safe = false -> str_has "+" safe = false ->
  unquote_plus (quote_plus safe s) = s.
Proof.
  intros H1 H2. unfold unquote_plus. rewrite quote_plus_flat.
  induction s as [|c s IH]; simpl; [reflexivity|].
  rewrite replace_char_app, unquote_plus_byte by assumption. now rewrite IH.
Qed.

(** ** C5 *)
(** C5: the GET helper encodes a key [k] with [quote_plus(k)] and a string
    value [v] with [quote_plus(v, safe='@')]; [unquote_plus] recovers [k] and
    [v] from them, and an ['@'] of a value is copied as ['@'], never
    percent-encoded. *)
Theorem quote_plus_roundtrip :
  (forall k v : string, encode_param (k, SStr v) = quote_plus "" k ++ ":" ++ quote_plus "@" v) /\
  (forall k : string, unquote_plus (quote_plus "" k) = k) /\
  (forall v : string, unquote_plus (quote_plus "@" v) = v) /\
  (forall s1 s2 : string,
     quote_plus "@" (s1 ++ "@" ++ s2) = quote_plus "@" s1 ++ "@" ++ quote_plus "@" s2).
Proof.
  split; [reflexivity|]. split; [intro k; now apply unquote_plus_quote_plus|].
  split; [intro v; now apply unquote_plus_quote_plus|].
  intros s1 s2. rewrite !quote_plus_flat, str_flat_app. reflexivity.
Qed.

(** *** The GET path segment *)

Lemma get_log (server : list request -> request -> option pyval) (m : string)
    (p : option params) (s : state) :
  st_log (fst (_get server m p s)) =
  (st_log s ++ [ReqGet (api_url (st_client s) ++ "/" ++ m ++ "/" ++ get_params_of p)
                       (auth (st_client s))])%list.
Proof. exact (f_equal st_log (helper_state server false m p s)). Qed.

(** ** C2 *)
(** C2: for every endpoint and parameter dict, [_get] requests
    [{scheme}://{domain}/api/v1/{endpoint}/{segment}] with the client's
    Basic-Auth credentials, where the scheme is [https] when [ssl] is true
    and [http] otherwise, and the segment joins with commas the sorted list
    of the strings [quote_plus(key) + ':' + quote_plus(str(value), safe='@')]. *)
Theorem get_url_built (server : list request -> request -> option pyval)
    (domain api_key : string) (ssl : bool) (log : list request) (endpoint : string)
    (p : params) :
  exists l,
    Sorted le_str l /\
    Permutation l (map (fun kv => quote_plus "" (fst kv) ++ ":" ++
                                  quote_plus "@" (py_str (snd kv))) p) /\
    st_log (fst (_get server endpoint (Some p) (mk_state (make_client domain api_key ssl) log))) =
    (log ++ [ReqGet ((if ssl then "https" else "http") ++ "://" ++ domain ++ "/api/v1/" ++
                     endpoint ++ "/" ++ join "," l) (api_key, "")])%list.
Proof.
  exists (sort_strings (map encode_param p)).
  split; [apply sort_strings_sorted|].
  split; [symmetry; apply sort_strings_perm|].
  rewrite get_log. unfold get_params_of.
  destruct ssl; simpl; now rewrite str_app_assoc.
Qed.

(** ** C4 *)
(** C4: two parameter dicts holding the same key/value pairs, in whatever
    insertion order, give the same encoded segment, hence the same GET
    request. *)
Theorem get_params_order_independent (p1 p2 : params)
    (H1 : NoDup (map fst p1)) (H2 : NoDup (map fst p2))
    (Hsame : forall kv, In kv p1 <-> In kv p2) :
  get_params_of (Some p1) = get_params_of (Some p2) /\
  forall (server : list request -> request -> option pyval) (m : string) (s : state),
    st_log (fst (_get server m (Some p1) s)) = st_log (fst (_get server m (Some p2) s)).
Proof.
  assert (Hseg : get_params_of (Some p1) = get_params_of (Some p2)).
  { unfold get_params_of. f_equal. apply sort_strings_perm_eq.
    apply Permutation_map, NoDup_Permutation; try assumption;
      eapply NoDup_map_inv; eassumption. }
  split; [exact Hseg|]. intros server m s. now rewrite !get_log, Hseg.
Qed.

Lemma get_params_order_independent_witness :
  get_params_of (Some test_data) = get_params_of (Some (rev test_data)) /\
  forall (server : list request -> request -> option pyval) (m : string) (s : state),
    st_log (fst (_get server m (Some test_data) s)) =
    st_log (fst (_get server m (Some (rev test_data)) s)).
Proof.
  apply get_params_order_independent.
  - simpl; repeat constructor; simpl; intuition discriminate.
  - simpl; repeat constructor; simpl; intuition discriminate.
  - intro kv; simpl; tauto.
Defined.

(** *** Endpoint methods *)

Lemma in_events_existsb (ev : string) :
  existsb (String.eqb ev) (map fst events) = true <-> In ev (map fst events).
Proof.
  rewrite existsb_exists. split.
  - intros [x [Hin Hx]]. apply String.eqb_eq in Hx; now subst.
  - intro H; exists ev; split; [exact H | apply String.eqb_refl].
Qed.

(** ** C6 *)
(** C6: [get_timeline] raises [ValueError], with no request sent, for an
    event type that is not a key of [events]; for a key it is exactly
    [_get('gettimeline', {'event_type': event_type})], which sends one GET. *)
Theorem get_timeline_validated (server : list request -> request -> option pyval)
    (event_type : string) (s : state) :
  (~ In event_type (map fst events) ->
     get_timeline server event_type s = (s, Exc ValueError)) /\
  (In event_type (map fst events) ->
     get_timeline server event_type s =
       _get server "gettimeline" (Some [("event_type", SStr event_type)]) s /\
     st_log (fst (get_timeline server event_type s)) =
       (st_log s ++ [ReqGet (api_url (st_client s) ++ "/gettimeline/" ++
                             get_params_of (Some [("event_type", SStr event_type)]))
                            (auth (st_client s))])%list).
Proof.
  unfold get_timeline. split.
  - intro Hn. destruct (existsb _ _) eqn:E; [|reflexivity].
    exfalso; apply Hn, in_events_existsb, E.
  - intro Hi. apply in_events_existsb in Hi. rewrite Hi. simpl.
    split; [reflexivity|]. apply get_log.
Qed.

Lemma get_timeline_validated_witness :
  get_timeline (const_server (Some (PList []))) "user_logout_user" (init_state test_client) =
    (init_state test_client, Exc ValueError) /\
  (get_timeline (const_server (Some (PList []))) "user_login_user" (init_state test_client) =
     _get (const_server (Some (PList []))) "gettimeline"
          (Some [("event_type", SStr "user_login_user")]) (init_state test_client) /\
   st_log (fst (get_timeline (const_server (Some (PList []))) "user_login_user"
                             (init_state test_client))) =
     (st_log (init_state test_client) ++
      [ReqGet (api_url (st_client (init_state test_client)) ++ "/gettimeline/" ++
               get_params_of (Some [("event_type", SStr "user_login_user")]))
              (auth (st_client (init_state test_client)))])%list).
Proof.
  split.
  - apply (get_timeline_validated (const_server (Some (PList []))) "user_logout_user").
    simpl; intuition discriminate.
  - apply (get_timeline_validated (const_server (Some (PList []))) "user_login_user").
    simpl; left; reflexivity.
Defined.

Lemma assoc_dict_set (k k' : string) (v : scalar) (d : params) :
  assoc_str k (dict_set k' v d) = if String.eqb k k' then Some v else assoc_str k d.
Proof.
  induction d as [|[k2 v2] d IH]; simpl; [reflexivity|].
  destruct (String.eqb k' k2) eqn:E2.
  - apply String.eqb_eq in E2; subst k2. simpl. now destruct (String.eqb k k').
  - simpl. rewrite IH. destruct (String.eqb k k2) eqn:E; [|reflexivity].
    apply String.eqb_eq in E; subst k2.
    destruct (String.eqb k k') eqn:E'; [|reflexivity].
    apply String.eqb_eq in E'; subst. now rewrite String.eqb_refl in E2.
Qed.

Lemma assoc_update_notin (k : string) (d e : params) :
  ~ In k (map fst e) -> assoc_str k (dict_update d e) = assoc_str k d.
Proof.
  unfold dict_update. revert d; induction e as [|[k' v'] e IH]; intros d Hn; simpl; [reflexivity|].
  simpl in Hn. rewrite IH by tauto. rewrite assoc_dict_set.
  destruct (String.eqb k k') eqn:E; [|reflexivity].
  apply String.eqb_eq in E; subst. tauto.
Qed.

Lemma assoc_update_in (k : string) (v : scalar) (d e : params) :
  NoDup (map fst e) -> In (k, v) e -> assoc_str k (dict_update d e) = Some v.
Proof.
  unfold dict_update. revert d; induction e as [|[k' v'] e IH]; intros d Hnd Hin; simpl; [contradiction|].
  inversion Hnd as [|? ? Hnot Hnd']; subst.
  destruct Hin as [Heq|Hin].
  - injection Heq as -> ->.
    change (assoc_str k (dict_update (dict_set k v d) e) = Some v).
    rewrite assoc_update_notin by exact Hnot. rewrite assoc_dict_set, String.eqb_refl. reflexivity.
  - now apply IH.
Qed.

Lemma dict_set_fresh (k : string) (v : scalar) (d : params) :
  ~ In k (map fst d) -> dict_set k v d = (d ++ [(k, v)])%list.
Proof.
  induction d as [|[k' v'] d IH]; simpl; [reflexivity|]. intro Hn.
  destruct (String.eqb k k') eqn:E.
  - apply String.eqb_eq in E; subst. tauto.
  - rewrite IH by tauto. reflexivity.
Qed.

Lemma dict_update_fresh (d e : params) :
  NoDup (map fst e) -> (forall k, In k (map fst e) -> ~ In k (map fst d)) ->
  dict_update d e = (d ++ e)%list.
Proof.
  unfold dict_update. revert d; induction e as [|[k v] e IH]; intros d Hnd Hfr; simpl.
  - now rewrite app_nil_r.
  - inversion Hnd as [|? ? Hnot Hnd']; subst.
    rewrite dict_set_fresh by (apply Hfr; now left).
    rewrite IH; [now rewrite <- app_assoc | exact Hnd'|].
    intros k' Hk'. rewrite map_app, in_app_iff. simpl. intros [H|[H|H]]; [| |contradiction].
    + exact (Hfr k' (or_intror Hk') H).
    + subst. contradiction.
Qed.

(** ** C7 *)
(** C7 (as amended): [edit_user] with an empty [user_info] raises
    [ValueError] and sends nothing.  With a non-empty [user_info] it first
    applies [int()] to [user_id]: when that raises, the exception propagates
    and nothing is sent; otherwise exactly one POST goes to ['edituser'] with
    the body [{'user_id': int(user_id), **user_info}], which is
    [user_info] preceded by the coerced ['user_id'] when [user_info] has no
    ['user_id'] key, and whose ['user_id'] is [user_info]'s own when it has
    one. *)
Theorem edit_user_checked (server : list request -> request -> option pyval)
    (user_id : scalar) (user_info : params) (s : state) :
  (user_info = [] -> edit_user server user_id user_info s = (s, Exc ValueError)) /\
  (user_info <> [] -> forall e, py_int user_id = Exc e ->
     edit_user server user_id user_info s = (s, Exc e)) /\
  (user_info <> [] -> forall z, py_int user_id = Ok z ->
     let body := dict_update [("user_id", SInt z)] user_info in
     edit_user server user_id user_info s = _post server "edituser" (Some body) s /\
     st_log (fst (edit_user server user_id user_info s)) =
       (st_log s ++ [ReqPost (api_url (st_client s) ++ "/edituser") (Some body)
                             (auth (st_client s))])%list /\
     (NoDup (map fst user_info) -> ~ In "user_id" (map fst user_info) ->
        body = ("user_id", SInt z) :: user_info) /\
     (forall v, NoDup (map fst user_info) -> In ("user_id", v) user_info ->
        assoc_str "user_id" body = Some v)).
Proof.
  unfold edit_user. split; [|split].
  - intros ->. reflexivity.
  - intros Hne e He. destruct user_info as [|kv ui]; [congruence|]. simpl.
    unfold bind, int_, lift. rewrite He. reflexivity.
  - intros Hne z Hz. cbv zeta.
    set (body := dict_update [("user_id", SInt z)] user_info).
    destruct user_info as [|kv ui]; [congruence|].
    cbn [length Nat.eqb].
    assert (Hrun : bind (int_ user_id) (fun u =>
              _post server "edituser" (Some (dict_update [("user_id", SInt u)] (kv :: ui)))) s =
            _post server "edituser" (Some body) s).
    { unfold bind, int_, lift. rewrite Hz. reflexivity. }
    rewrite Hrun. split; [reflexivity|]. split.
    + exact (f_equal st_log (helper_state server true "edituser" (Some body) s)).
    + split.
      * intros Hnd Hn. unfold body. rewrite dict_update_fresh; [reflexivity | exact Hnd|].
        intros k Hk. simpl. intros [<-|[]]. exact (Hn Hk).
      * intros v Hnd Hin. now apply assoc_update_in.
Qed.

Lemma edit_user_checked_witness :
  edit_user (const_server (Some (PDict []))) (SInt 40457) [] (init_state test_client) =
    (init_state test_client, Exc ValueError) /\
  edit_user (const_server (Some (PDict []))) (SStr "abc") [("login", SStr "johnsmith")]
            (init_state test_client) = (init_state test_client, Exc ValueError) /\
  st_log (fst (edit_user (const_server (Some (PDict []))) (SStr "40457")
                         [("login", SStr "johnsmith")] (init_state test_client))) =
    [ReqPost (api_url test_client ++ "/edituser")
             (Some (dict_update [("user_id", SInt 40457)] [("login", SStr "johnsmith")]))
             (auth test_client)].
Proof.
  split; [|split].
  - exact (proj1 (edit_user_checked (const_server (Some (PDict []))) (SInt 40457) []
                    (init_state test_client)) eq_refl).
  - apply (proj1 (proj2 (edit_user_checked (const_server (Some (PDict []))) (SStr "abc")
                           [("login", SStr "johnsmith")] (init_state test_client))));
      [discriminate | vm_compute; reflexivity].
  - exact (proj1 (proj2 (proj2 (proj2 (edit_user_checked (const_server (Some (PDict [])))
             (SStr "40457") [("login", SStr "johnsmith")] (init_state test_client)))
             ltac:(discriminate) 40457%Z ltac:(vm_compute; reflexivity)))).
Defined.

(** C7 fails as stated: a ['user_id'] entry of [user_info] replaces the
    coerced identifier in the POST body, and a [user_id] that [int()]
    rejects raises [ValueError] with nothing sent although [user_info] is
    non-empty. *)
Lemma edit_user_counterexample :
  st_log (fst (edit_user (const_server (Some (PDict []))) (SInt 40457)
                         [("user_id", SStr "x"); ("login", SStr "johnsmith")]
                         (init_state test_client))) =
    [ReqPost "https://example.talentlms.com/api/v1/edituser"
             (Some [("user_id", SStr "x"); ("login", SStr "johnsmith")])
             ("FAKE_API_KEY_HERE", "")] /\
  edit_user (const_server (Some (PDict []))) (SStr "abc") [("login", SStr "johnsmith")]
            (init_state test_client) = (init_state test_client, Exc ValueError).
Proof. vm_compute. split; reflexivity. Qed.

(** *** Code points and [int()] *)

Lemma utf8_decode_ascii (b : ascii) (l : list ascii) :
  (zcode b < 128)%Z -> utf8_decode (b :: l) = zcode b :: utf8_decode l.
Proof. intro H. cbn [utf8_decode]. now rewrite (proj2 (Z.ltb_lt _ _) H). Qed.

Lemma cont_not_ascii (b : ascii) : cont_byte b = true -> (zcode b < 128)%Z -> False.
Proof. unfold cont_byte. intros H1 H2. apply andb_true_iff in H1. destruct H1 as [H1 _]. lia. Qed.

Ltac step_witness pre :=
  eexists _, pre, _; split; [reflexivity | split; [reflexivity | split]].

(** One decoding step: a code point, then the bytes after the continuation
    bytes it used. *)
Lemma utf8_decode_step (b0 : ascii) (r : list ascii) :
  exists x pre t, utf8_decode (b0 :: r) = x :: utf8_decode t /\ r = (pre ++ t)%list /\
                  Forall (fun c => cont_byte c = true) pre /\
                  ((zcode b0 < 128)%Z -> x = zcode b0).
Proof.
  cbn [utf8_decode].
  destruct (zcode b0 <? 128)%Z eqn:E0.
  { step_witness (@nil ascii); [constructor | reflexivity]. }
  assert (Hx : forall x, (zcode b0 < 128)%Z -> x = zcode b0).
  { intros x H. apply Z.ltb_ge in E0. lia. }
  destruct r as [|b1 [|b2 [|b3 r3]]];
  repeat match goal with
         | |- context [if ?c then _ else _] =>
             let E := fresh "E" in destruct c eqn:E
         end;
  rewrite ?andb_true_iff in *;
  repeat match goal with H : _ /\ _ |- _ => destruct H end;
  first [ step_witness (@nil ascii); [constructor | apply Hx]
        | step_witness [b1]; [repeat constructor; assumption | apply Hx]
        | step_witness [b1; b2]; [repeat constructor; assumption | apply Hx]
        | step_witness [b1; b2; b3]; [repeat constructor; assumption | apply Hx]
        | exists 65533%Z, [], []; split; [reflexivity | split; [reflexivity | split]];
          [constructor | apply Hx] ].
Qed.

(** A byte below 0x80 of the UTF-8 bytes is a code point of the decoding. *)
Lemma utf8_decode_keeps_ascii (b : ascii) (l : list ascii) :
  In b l -> (zcode b < 128)%Z -> In (zcode b) (utf8_decode l).
Proof.
  intros Hin Hb. remember (length l) as n eqn:En.
  assert (Hn : length l <= n) by lia. clear En. revert l Hn Hin.
  induction n as [|n IH]; intros l Hn Hin.
  - destruct l; [destruct Hin | simpl in Hn; lia].
  - destruct l as [|b0 r]; [destruct Hin|]. simpl in Hn.
    destruct (utf8_decode_step b0 r) as [x [pre [t [Hd [Hr [Hpre Hx]]]]]].
    rewrite Hd. destruct Hin as [<- | Hin].
    + left. now apply Hx.
    + right. subst r. apply in_app_or in Hin. destruct Hin as [Hin | Hin].
      * exfalso. apply (cont_not_ascii b); [|exact Hb].
        exact (proj1 (Forall_forall _ _) Hpre b Hin).
      * apply IH; [rewrite length_app in Hn; lia | exact Hin].
Qed.

Lemma utf8_decode_ascii_all (l : list ascii) :
  forallb (fun c => zcode c <? 127)%Z l = true -> utf8_decode l = map zcode l.
Proof.
  induction l as [|c l IH]; [reflexivity|]. cbn [forallb map]. intro H.
  apply andb_true_iff in H. destruct H as [Hc H]. apply Z.ltb_lt in Hc.
  rewrite utf8_decode_ascii by lia. f_equal. now apply IH.
Qed.

Lemma at_code_point (str : string) : str_has "@" str = true -> In 64%Z (code_points str).
Proof.
  intro H. unfold code_points.
  change 64%Z with (zcode "@"). apply utf8_decode_keeps_ascii; [|reflexivity].
  revert H. induction str as [|d t IH]; cbn [str_has list_ascii_of_string In]; [discriminate|].
  intro H; apply orb_true_iff in H; destruct H as [H|H].
  - left. apply Ascii.eqb_eq in H; now symmetry.
  - right; now apply IH.
Qed.

Lemma at_not_digit (str : string) : str_has "@" str = true -> isdigit str = false.
Proof.
  intro H. pose proof (at_code_point str H) as Hin. unfold isdigit.
  destruct (code_points str) as [|c l]; [reflexivity|].
  apply not_true_is_false. intro Hd.
  pose proof (proj1 (forallb_forall _ _) Hd 64%Z Hin). discriminate.
Qed.

Lemma in_range_points (rs : list (Z * Z)) (c : Z) :
  in_ranges rs c = true -> In c (range_points rs).
Proof.
  unfold in_ranges, range_points. intro H. apply existsb_exists in H.
  destruct H as [r [Hr Hc]]. apply andb_true_iff in Hc. destruct Hc as [H1 H2].
  apply Z.leb_le in H1, H2. apply in_flat_map. exists r. split; [exact Hr|].
  apply in_map_iff. exists (Z.to_nat (c - fst r)). split; [lia|].
  apply in_seq. lia.
Qed.

Lemma decimal_table :
  forallb (fun z => forallb (fun k => in_ranges digit_ranges (z + k) &&
                                      (int_char (z + k) =? 48 + k)%Z)
                            [0; 1; 2; 3; 4; 5; 6; 7; 8; 9]%Z) decimal_starts = true.
Proof. vm_compute. reflexivity. Qed.

(** A decimal digit is a digit, and [int()] reads it as its ASCII digit. *)
Lemma to_decimal_props (c d : Z) :
  to_decimal c = Some d ->
  in_ranges digit_ranges c = true /\ int_char c = (48 + d)%Z /\ (0 <= d <= 9)%Z.
Proof.
  unfold to_decimal. destruct (find _ decimal_starts) as [z|] eqn:F; [|discriminate].
  intros [= <-]. apply find_some in F. destruct F as [Hz Hc].
  apply andb_true_iff in Hc. destruct Hc as [H1 H2]. apply Z.leb_le in H1, H2.
  pose proof (proj1 (forallb_forall _ _) decimal_table z Hz) as Hk. cbv beta in Hk.
  assert (Hin : In (c - z)%Z [0; 1; 2; 3; 4; 5; 6; 7; 8; 9]%Z).
  { assert (c - z = 0 \/ c - z = 1 \/ c - z = 2 \/ c - z = 3 \/ c - z = 4 \/ c - z = 5 \/
            c - z = 6 \/ c - z = 7 \/ c - z = 8 \/ c - z = 9)%Z as Hm by lia.
    simpl; lia. }
  pose proof (proj1 (forallb_forall _ _) Hk _ Hin) as Hb.
  apply andb_true_iff in Hb. destruct Hb as [Hb1 Hb2]. apply Z.eqb_eq in Hb2.
  replace (z + (c - z))%Z with c in Hb1, Hb2 by lia.
  split; [exact Hb1 | split; [exact Hb2 | lia]].
Qed.

Lemma nondecimal_digit_table :
  forallb (fun c => match to_decimal c with Some _ => true | None => int_char c =? 63 end)%Z
          (range_points digit_ranges) = true.
Proof. vm_compute. reflexivity. Qed.

(** A digit without a decimal value is turned into ['?'] by [int()]. *)
Lemma nondecimal_digit (c : Z) :
  in_ranges digit_ranges c = true -> to_decimal c = None -> int_char c = 63%Z.
Proof.
  intros Hd Hn. apply in_range_points in Hd.
  pose proof (proj1 (forallb_forall _ _) nondecimal_digit_table c Hd) as H.
  cbv beta in H. rewrite Hn in H. now apply Z.eqb_eq.
Qed.

Lemma decimal_isdigit (str : string) : isdecimal str = true -> isdigit str = true.
Proof.
  unfold isdecimal, isdigit. destruct (code_points str) as [|c l]; [discriminate|].
  intro H. apply forallb_forall. intros x Hx.
  pose proof (proj1 (forallb_forall _ _) H x Hx) as Hd. cbv beta in Hd.
  destruct (to_decimal x) as [d|] eqn:E; [|discriminate].
  exact (proj1 (to_decimal_props x d E)).
Qed.

Lemma zdigit_not_space (c : Z) : is_zdigit c = true -> is_py_space c = false.
Proof.
  unfold is_zdigit, is_py_space. intro H.
  apply andb_true_iff in H; destruct H as [H1 H2]. apply Z.leb_le in H1, H2.
  apply orb_false_iff. split; [apply andb_false_iff | apply Z.eqb_neq; lia].
  right. apply Z.leb_gt. lia.
Qed.

Lemma strip_left_digits (l : list Z) : forallb is_zdigit l = true -> strip_left l = l.
Proof.
  destruct l as [|c l]; [reflexivity|]. simpl. intro H.
  apply andb_true_iff in H. now rewrite zdigit_not_space by tauto.
Qed.

Lemma strip_digits (l : list Z) : forallb is_zdigit l = true -> strip l = l.
Proof.
  intro H. unfold strip. rewrite (strip_left_digits l H).
  rewrite strip_left_digits; [apply rev_involutive|].
  apply forallb_forall. intros x Hx. apply in_rev in Hx.
  exact (proj1 (forallb_forall _ _) H x Hx).
Qed.

Lemma parse_digits_all (l : list Z) (acc : Z) (need : bool) :
  forallb is_zdigit l = true -> (l <> [] \/ need = false) ->
  parse_digits l acc need = Some (fold_left (fun acc c => acc * 10 + (c - 48))%Z l acc).
Proof.
  revert acc need; induction l as [|c l IH]; intros acc need Hd Hne; simpl.
  - destruct Hne as [H | ->]; [congruence | reflexivity].
  - simpl in Hd. apply andb_true_iff in Hd; destruct Hd as [Hc Hd].
    rewrite Hc. apply IH; [exact Hd | now right].
Qed.

Lemma zdigit_not_sign (c : Z) : is_zdigit c = true -> (c =? 45)%Z = false /\ (c =? 43)%Z = false.
Proof.
  unfold is_zdigit. intro H. apply andb_true_iff in H; destruct H as [H1 H2].
  apply Z.leb_le in H1, H2. split; apply Z.eqb_neq; lia.
Qed.

(** [PyLong_FromString] on a non-empty string of ASCII digits. *)
Lemma long_digits (l : list Z) :
  l <> [] -> forallb is_zdigit l = true ->
  long_from_string l = Some (fold_left (fun acc c => acc * 10 + (c - 48))%Z l 0%Z).
Proof.
  intros Hne H. unfold long_from_string. rewrite strip_digits by exact H.
  destruct l as [|c l']; [congruence|].
  pose proof H as Hc. simpl in Hc. apply andb_true_iff in Hc. destruct Hc as [Hc _].
  destruct (zdigit_not_sign c Hc) as [-> ->].
  apply parse_digits_all; [exact H | left; discriminate].
Qed.

(** ... and on ['-'] followed by such a string. *)
Lemma long_neg (l : list Z) :
  l <> [] -> forallb is_zdigit l = true ->
  long_from_string (45%Z :: l) =
  Some (- fold_left (fun acc c => acc * 10 + (c - 48))%Z l 0%Z)%Z.
Proof.
  intros Hne H. unfold long_from_string, strip.
  change (strip_left (45%Z :: l)) with (45%Z :: l).
  change (rev (45%Z :: l)) with (rev l ++ [45%Z])%list.
  assert (Hr : forallb is_zdigit (rev l) = true).
  { apply forallb_forall. intros x Hx. apply in_rev in Hx.
    exact (proj1 (forallb_forall _ _) H x Hx). }
  destruct (rev l) as [|d r] eqn:E.
  - exfalso. apply Hne. apply (f_equal (@rev Z)) in E. now rewrite rev_involutive in E.
  - simpl in Hr. apply andb_true_iff in Hr. destruct Hr as [Hd _].
    rewrite <- app_comm_cons. cbn [strip_left]. rewrite zdigit_not_space by exact Hd.
    rewrite app_comm_cons, <- E, rev_app_distr, rev_involutive. cbn [rev app].
    cbn -[parse_digits]. rewrite parse_digits_all by (exact H || (left; exact Hne)).
    reflexivity.
Qed.

Lemma strip_left_in (x : Z) (l : list Z) :
  In x l -> is_py_space x = false -> In x (strip_left l).
Proof.
  induction l as [|c l IH]; [tauto|]. simpl. intros [<-|H] Hx.
  - rewrite Hx. now left.
  - destruct (is_py_space c); [auto | now right].
Qed.

Lemma parse_digits_bad (l : list Z) (acc : Z) (need : bool) :
  In 63%Z l -> parse_digits l acc need = None.
Proof.
  revert acc need; induction l as [|c l IH]; intros acc need H; [destruct H|].
  destruct H as [Hc|H]; [subst c; reflexivity|]. simpl.
  destruct (is_zdigit c); [auto|]. destruct (c =? 95)%Z; [destruct need; auto | reflexivity].
Qed.

(** A ['?'] anywhere makes [PyLong_FromString] fail. *)
Lemma long_bad (l : list Z) : In 63%Z l -> long_from_string l = None.
Proof.
  intro H. unfold long_from_string.
  assert (Hs : In 63%Z (strip l)).
  { unfold strip. apply (proj1 (in_rev _ _)). apply strip_left_in; [|reflexivity].
    apply (proj1 (in_rev _ _)). apply strip_left_in; [exact H | reflexivity]. }
  destruct (strip l) as [|c l']; [reflexivity|].
  destruct Hs as [Hc|Hs]; [subst c; reflexivity|].
  destruct (c =? 45)%Z; [now rewrite parse_digits_bad|].
  destruct (c =? 43)%Z; [now rewrite parse_digits_bad | apply parse_digits_bad; now right].
Qed.

Lemma int_char_decimals (cps : list Z) (acc : Z) :
  forallb (fun c => match to_decimal c with Some _ => true | None => false end) cps = true ->
  forallb is_zdigit (map int_char cps) = true /\
  fold_left (fun acc c => acc * 10 + (c - 48))%Z (map int_char cps) acc =
  fold_left (fun acc c => acc * 10 + match to_decimal c with Some d => d | None => 0 end)%Z
            cps acc.
Proof.
  revert acc. induction cps as [|c cps IH]; intros acc H; [split; reflexivity|].
  simpl in H. destruct (to_decimal c) as [d|] eqn:E; [|discriminate].
  destruct (to_decimal_props c d E) as [_ [Hi Hd]].
  simpl. rewrite Hi, E. destruct (IH (acc * 10 + d)%Z H) as [IH1 IH2].
  split.
  - rewrite IH1, andb_true_r. unfold is_zdigit. apply andb_true_iff. split; apply Z.leb_le; lia.
  - replace (48 + d - 48)%Z with d by lia. exact IH2.
Qed.

(** [int(s)] of a string of decimal digits. *)
Lemma py_int_decimal (str : string) :
  isdecimal str = true -> py_int (SStr str) = Ok (decimal_value str).
Proof.
  unfold isdecimal, py_int, parse_int, decimal_value. intro H.
  destruct (code_points str) as [|c l]; [discriminate|].
  destruct (int_char_decimals (c :: l) 0%Z H) as [H1 H2].
  rewrite long_digits by (discriminate || exact H1). now rewrite H2.
Qed.

Lemma forallb_false_exists {A} (f : A -> bool) (l : list A) :
  forallb f l = false -> exists x, In x l /\ f x = false.
Proof.
  induction l as [|a l IH]; simpl; [discriminate|]. intro H.
  destruct (f a) eqn:E; simpl in H; [|now exists a; split; [left|]].
  destruct (IH H) as [x [Hx Hf]]. exists x; split; [now right | exact Hf].
Qed.

(** [int(s)] fails for a digit string that is not a decimal string. *)
Lemma py_int_nondecimal (str : string) :
  isdigit str = true -> isdecimal str = false -> py_int (SStr str) = Exc ValueError.
Proof.
  unfold isdigit, isdecimal, py_int, parse_int.
  destruct (code_points str) as [|c l]; [discriminate|]. intros Hd Hn.
  destruct (forallb_false_exists _ _ Hn) as [x [Hx Hf]].
  destruct (to_decimal x) as [d|] eqn:E; [discriminate|].
  pose proof (proj1 (forallb_forall _ _) Hd x Hx) as Hxd.
  rewrite long_bad; [reflexivity|].
  rewrite <- (nondecimal_digit x Hxd E). now apply in_map.
Qed.

(** ** C9 *)
(** C9 (as amended): [users()] fetches [users] with no parameters and
    [users(n)] for an integer [n] fetches [{'id': n}]; a string passing
    [str.isdigit()] is given to [int()]: a string of decimal digits
    ([str.isdecimal()], ASCII or other scripts) fetches [{'id': int(s)}],
    while one holding a digit without a decimal value (such as ['²'])
    raises [ValueError] with nothing sent; any other string containing ['@']
    fetches [{'email': s}] and any other string [{'username': s}]. *)
Theorem users_dispatch (server : list request -> request -> option pyval) (s : state) :
  users server SNone s = _get server "users" None s /\
  (forall z, users server (SInt z) s = _get server "users" (Some [("id", SInt z)]) s) /\
  (forall str, isdecimal str = true ->
     users server (SStr str) s = _get server "users" (Some [("id", SInt (decimal_value str))]) s) /\
  (forall str, isdigit str = true -> isdecimal str = false ->
     users server (SStr str) s = (s, Exc ValueError)) /\
  (forall str, str_has "@" str = true ->
     users server (SStr str) s = _get server "users" (Some [("email", SStr str)]) s) /\
  (forall str, isdigit str = false -> str_has "@" str = false ->
     users server (SStr str) s = _get server "users" (Some [("username", SStr str)]) s).
Proof.
  split; [reflexivity|]. split; [reflexivity|]. split; [|split; [|split]].
  - intros str H. simpl. rewrite (decimal_isdigit str H). unfold bind, int_, lift.
    rewrite py_int_decimal by exact H. reflexivity.
  - intros str Hd Hn. simpl. rewrite Hd. unfold bind, int_, lift.
    rewrite py_int_nondecimal by assumption. reflexivity.
  - intros str H. simpl. rewrite (at_not_digit str H), H. reflexivity.
  - intros str H1 H2. simpl. rewrite H1, H2. reflexivity.
Qed.

Lemma users_dispatch_witness :
  let srv := const_server (Some (PList [])) in
  let s := init_state test_client in
  users srv (SStr "40457") s = _get srv "users" (Some [("id", SInt 40457)]) s /\
  users srv (SStr arabic_three) s = _get srv "users" (Some [("id", SInt 3)]) s /\
  users srv (SStr superscript_two) s = (s, Exc ValueError) /\
  users srv (SStr "jsmith@example.com") s =
    _get srv "users" (Some [("email", SStr "jsmith@example.com")]) s /\
  users srv (SStr "john.smith") s = _get srv "users" (Some [("username", SStr "john.smith")]) s.
Proof.
  intros srv s. destruct (users_dispatch srv s) as [_ [_ [H3 [H4 [H5 H6]]]]].
  split; [|split; [|split; [|split]]].
  - exact (H3 "40457" eq_refl).
  - exact (H3 arabic_three eq_refl).
  - exact (H4 superscript_two eq_refl eq_refl).
  - exact (H5 "jsmith@example.com" eq_refl).
  - exact (H6 "john.smith" eq_refl eq_refl).
Defined.

(** C9 fails as stated: ['²'] is a digit-only string ([str.isdigit()]
    holds), but [int('²')] raises [ValueError], so [users] raises and
    sends no request instead of fetching an id. *)
Lemma superscript_two_not_id :
  let srv := const_server (Some (PList [])) in
  let s := init_state test_client in
  isdigit superscript_two = true /\
  users srv (SStr superscript_two) s = (s, Exc ValueError) /\
  forall z, users srv (SStr superscript_two) s <> _get srv "users" (Some [("id", SInt z)]) s.
Proof.
  vm_compute. split; [reflexivity | split; [reflexivity|]]. intros z H.
  apply (f_equal (fun p => st_log (fst p))) in H. discriminate.
Qed.

(** *** The client configuration *)

Create HintDb keeps_db.

Lemma pure_keeps {A} (m : M A) : pure_state m -> keeps_client m.
Proof. intros H s. rewrite (H s). split; [reflexivity | exists []; now rewrite app_nil_r]. Qed.

Lemma ret_keeps {A} (a : A) : keeps_client (ret a).
Proof. apply pure_keeps, ret_pure. Qed.
Lemma throw_keeps {A} (e : exn) : keeps_client (@throw A e).
Proof. apply pure_keeps, throw_pure. Qed.
Lemma lift_keeps {A} (o : outcome A) : keeps_client (lift o).
Proof. apply pure_keeps, lift_pure. Qed.
Lemma get_self_keeps : keeps_client get_self.
Proof. apply pure_keeps. intro; reflexivity. Qed.
Lemma int_keeps (v : scalar) : keeps_client (int_ v).
Proof. apply lift_keeps. Qed.

Lemma bind_keeps {A B} (m : M A) (f : A -> M B) :
  keeps_client m -> (forall a, keeps_client (f a)) -> keeps_client (bind m f).
Proof.
  intros Hm Hf s; unfold bind. destruct (Hm s) as [Hc [l1 Hl1]].
  destruct (m s) as [s' [a|e]]; simpl in *.
  - destruct (Hf a s') as [Hc' [l2 Hl2]]. split; [congruence|].
    exists (l1 ++ l2)%list. rewrite Hl2, Hl1. symmetry; apply app_assoc.
  - split; [exact Hc | exists l1; exact Hl1].
Qed.

Lemma helper_keeps (server : list request -> request -> option pyval) (b : bool)
    (m : string) (p : option params) : keeps_client (helper server b m p).
Proof.
  intro s. rewrite helper_state. simpl. split; [reflexivity | eexists; reflexivity].
Qed.

Lemma get_keeps (server : list request -> request -> option pyval) (m : string)
    (p : option params) : keeps_client (_get server m p).
Proof. exact (helper_keeps server false m p). Qed.

Lemma post_keeps (server : list request -> request -> option pyval) (m : string)
    (p : option params) : keeps_client (_post server m p).
Proof. exact (helper_keeps server true m p). Qed.

Lemma apply_kwargs_keeps (kt : list (string * (scalar -> outcome scalar))) (kw d : params) :
  keeps_client (apply_kwargs kt kw d).
Proof.
  revert d; induction kw as [|[k v] kw IH]; intro d; simpl; [apply ret_keeps|].
  destruct (assoc_str k kt) as [conv|]; [|apply throw_keeps].
  destruct v; try apply IH; apply bind_keeps; auto using lift_keeps.
Qed.

Lemma with_deleted_by_keeps (d : params) (v : scalar) : keeps_client (with_deleted_by d v).
Proof.
  unfold with_deleted_by. destruct v; try apply ret_keeps;
    apply bind_keeps; auto using int_keeps, ret_keeps.
Qed.

#[local] Hint Resolve ret_keeps throw_keeps lift_keeps get_self_keeps int_keeps get_keeps
  post_keeps apply_kwargs_keeps with_deleted_by_keeps : keeps_db.

Ltac keeps_tac :=
  repeat match goal with
  | |- keeps_client (bind _ _) => apply bind_keeps; [|intro]
  | |- keeps_client (match ?x with _ => _ end) => destruct x
  | |- keeps_client (if ?b then _ else _) => destruct b
  | |- keeps_client _ => solve [auto with keeps_db]
  end.

(** ** C8 *)
(** C8: every method of the client and both request helpers, whether they
    return or raise, leave the client configuration ([api_url] and [auth])
    as it was; their only effect is to append the requests they send to the
    log. *)
Theorem client_config_unchanged (server : list request -> request -> option pyval)
    (py_float : scalar -> outcome scalar) (c : call) (s : state) :
  st_client (fst (run_call server py_float c s)) = st_client s /\
  exists sent, st_log (fst (run_call server py_float c s)) = (st_log s ++ sent)%list.
Proof.
  revert s. change (keeps_client (run_call server py_float c)).
  destruct c; cbn [run_call];
  unfold users, user_login, user_logout, user_signup, delete_user, edit_user,
    user_set_status, courses, categories, groups, branches, get_by_id, create_course,
    delete_course, create_group, delete_group, delete_branch, branch_set_status,
    add_user_to_course, remove_user_from_course, get_user_status_in_course,
    reset_user_progress, add_user_to_branch, remove_user_from_branch, add_course_to_branch,
    remove_user_from_group, add_course_to_group, get_test_answers,
    get_survey_answers, add_user_to_group, get_users_by_custom_field,
    get_courses_by_custom_field, get_custom_registration_fields, get_custom_course_fields,
    category_leafs_and_courses, get_users_progress_in_units, get_timeline, siteinfo,
    ratelimit, create_branch, forgot_username, forgot_password, go_to_course, buy_course,
    buy_category_courses, get_ilt_sessions, get_two_ids, get_by_id;
  cbv zeta; keeps_tac.
Qed.

(** *** Requests per call *)

Create HintDb within_db.

Lemma apply_kwargs_pure (kt : list (string * (scalar -> outcome scalar))) (kw d : params) :
  pure_state (apply_kwargs kt kw d).
Proof.
  revert d; induction kw as [|[k v] kw IH]; intro d; simpl; [apply ret_pure|].
  destruct (assoc_str k kt) as [conv|]; [|apply throw_pure].
  destruct v; try apply IH; apply bind_pure; auto using lift_pure.
Qed.

Lemma with_deleted_by_pure (d : params) (v : scalar) : pure_state (with_deleted_by d v).
Proof.
  unfold with_deleted_by. destruct v; try apply ret_pure;
    apply bind_pure; [apply lift_pure | intro; apply ret_pure].
Qed.

Lemma int_pure (v : scalar) : pure_state (int_ v).
Proof. apply lift_pure. Qed.

Lemma get_self_pure : pure_state get_self.
Proof. intro; reflexivity. Qed.

Lemma pure_within {A} (n : nat) (m : M A) : pure_state m -> sends_within n m.
Proof.
  intros H s. rewrite (H s). split; [reflexivity|]. exists []. split; [now rewrite app_nil_r | simpl; lia].
Qed.

Lemma bind_within_l {A B} (n : nat) (m : M A) (f : A -> M B) :
  pure_state m -> (forall a, sends_within n (f a)) -> sends_within n (bind m f).
Proof.
  intros Hm Hf s; unfold bind. specialize (Hm s).
  destruct (m s) as [s' [a|e]]; simpl in *; subst; [apply Hf|].
  split; [reflexivity|]. exists []. split; [now rewrite app_nil_r | simpl; lia].
Qed.

Lemma bind_within_r {A B} (n : nat) (m : M A) (f : A -> M B) :
  sends_within n m -> (forall a, pure_state (f a)) -> sends_within n (bind m f).
Proof.
  intros Hm Hf s; unfold bind. destruct (Hm s) as [Hc Hl].
  destruct (m s) as [s' [a|e]]; simpl in *; [|split; assumption].
  rewrite (Hf a s'). split; assumption.
Qed.

Lemma helper_within (server : list request -> request -> option pyval) (b : bool)
    (m : string) (p : option params) : sends_within 1 (helper server b m p).
Proof.
  intro s. rewrite helper_state. simpl. split; [reflexivity|].
  exists [helper_request b (st_client s) m p]. split; [reflexivity | simpl; lia].
Qed.

Lemma get_within (server : list request -> request -> option pyval) (m : string)
    (p : option params) : sends_within 1 (_get server m p).
Proof. exact (helper_within server false m p). Qed.

Lemma post_within (server : list request -> request -> option pyval) (m : string)
    (p : option params) : sends_within 1 (_post server m p).
Proof. exact (helper_within server true m p). Qed.

#[local] Hint Resolve ret_pure throw_pure lift_pure int_pure get_self_pure
  apply_kwargs_pure with_deleted_by_pure bind_pure : within_db.
#[local] Hint Resolve get_within post_within : within_db.
#[local] Hint Extern 1 (sends_within _ _) => apply pure_within : within_db.

Ltac within_tac :=
  repeat match goal with
  | |- sends_within _ (bind _ _) =>
      first [apply bind_within_l; [solve [auto with within_db] | intro]
            | apply bind_within_r; [| intro; solve [auto with within_db]]]
  | |- sends_within _ (match ?x with _ => _ end) => destruct x
  | |- sends_within _ (if ?b then _ else _) => destruct b
  | |- sends_within _ _ => solve [auto with within_db]
  end.

(** ** X1 *)
(** X1: every method of the client sends at most one request: a call leaves
    the client configuration as it was and adds zero or one request to the
    log, whatever the arguments and whatever the server answers. *)
Theorem call_sends_at_most_one (server : list request -> request -> option pyval)
    (py_float : scalar -> outcome scalar) (c : call) (s : state) :
  st_client (fst (run_call server py_float c s)) = st_client s /\
  exists sent, st_log (fst (run_call server py_float c s)) = (st_log s ++ sent)%list /\
               length sent <= 1.
Proof.
  revert s. change (sends_within 1 (run_call server py_float c)).
  destruct c; cbn [run_call];
  unfold users, user_login, user_logout, user_signup, delete_user, edit_user,
    user_set_status, courses, categories, groups, branches, get_by_id, create_course,
    delete_course, create_group, delete_group, delete_branch, branch_set_status,
    add_user_to_course, remove_user_from_course, get_user_status_in_course,
    reset_user_progress, add_user_to_branch, remove_user_from_branch, add_course_to_branch,
    remove_user_from_group, add_course_to_group, get_test_answers,
    get_survey_answers, add_user_to_group, get_users_by_custom_field,
    get_courses_by_custom_field, get_custom_registration_fields, get_custom_course_fields,
    category_leafs_and_courses, get_users_progress_in_units, get_timeline, siteinfo,
    ratelimit, create_branch, forgot_username, forgot_password, go_to_course, buy_course,
    buy_category_courses, get_ilt_sessions, get_two_ids, get_by_id;
  cbv zeta; within_tac.
Qed.

(** *** Without a JSON answer *)

Create HintDb raises_db.

Lemma throw_raises {A} (e : exn) : raises_no_json (@throw A e).
Proof. intro s; left; split; [reflexivity | now exists e]. Qed.

Lemma bind_raises_l {A B} (m : M A) (f : A -> M B) :
  raises_no_json m -> raises_no_json (bind m f).
Proof.
  intros Hm s; unfold bind. destruct (Hm s) as [[Hst [e He]] | [r [Hst He]]];
    destruct (m s) as [s' [a|e']]; simpl in *; try discriminate.
  - left. split; [exact Hst | now exists e'].
  - right. exists r. split; [exact Hst | now injection He as ->].
Qed.

Lemma bind_raises_r {A B} (m : M A) (f : A -> M B) :
  pure_state m -> (forall a, raises_no_json (f a)) -> raises_no_json (bind m f).
Proof.
  intros Hm Hf s; unfold bind. specialize (Hm s).
  destruct (m s) as [s' [a|e']]; simpl in Hm; subst s'; [apply Hf|].
  left; split; [reflexivity | now exists e'].
Qed.

Lemma helper_raises (server : list request -> request -> option pyval)
    (Hnone : forall log r, server log r = None) (b : bool) (m : string) (p : option params) :
  raises_no_json (helper server b m p).
Proof.
  intro s. right. exists (helper_request b (st_client s) m p).
  rewrite helper_unfold; cbv zeta. rewrite Hnone. split; reflexivity.
Qed.

#[local] Hint Resolve throw_raises : raises_db.
#[local] Hint Extern 1 (raises_no_json (_get _ _ _)) =>
  match goal with H : forall log r, _ log r = None |- raises_no_json (_get ?srv ?m ?p) =>
    exact (helper_raises srv H false m p) end : raises_db.
#[local] Hint Extern 1 (raises_no_json (_post _ _ _)) =>
  match goal with H : forall log r, _ log r = None |- raises_no_json (_post ?srv ?m ?p) =>
    exact (helper_raises srv H true m p) end : raises_db.

Ltac raises_tac :=
  repeat match goal with
  | |- raises_no_json (bind _ _) =>
      first [apply bind_raises_l; solve [auto with raises_db]
            | apply bind_raises_r; [solve [auto with within_db] | intro]]
  | |- raises_no_json (match ?x with _ => _ end) => destruct x
  | |- raises_no_json (if ?b then _ else _) => destruct b
  | |- raises_no_json _ => solve [auto with raises_db]
  end.

(** ** X2 *)
(** X2: when no response body is JSON, no method returns normally: every
    call either raises before sending anything (a failed argument check or
    a [NotImplementedError] stub), leaving the state as it was, or sends
    exactly one request and then raises the [JSONDecodeError] of
    [json.loads], leaving the client configuration as it was. *)
Theorem no_json_always_raises (server : list request -> request -> option pyval)
    (py_float : scalar -> outcome scalar) (Hnone : forall log r, server log r = None)
    (c : call) (s : state) :
  (fst (run_call server py_float c s) = s /\ exists e, snd (run_call server py_float c s) = Exc e) \/
  (exists r, fst (run_call server py_float c s) =
               {| st_client := st_client s; st_log := st_log s ++ [r] |} /\
             snd (run_call server py_float c s) = Exc JSONDecodeError).
Proof.
  revert s. change (raises_no_json (run_call server py_float c)).
  destruct c; cbn [run_call];
  unfold users, user_login, user_logout, user_signup, delete_user, edit_user,
    user_set_status, courses, categories, groups, branches, get_by_id, create_course,
    delete_course, create_group, delete_group, delete_branch, branch_set_status,
    add_user_to_course, remove_user_from_course, get_user_status_in_course,
    reset_user_progress, add_user_to_branch, remove_user_from_branch, add_course_to_branch,
    remove_user_from_group, add_course_to_group, get_test_answers,
    get_survey_answers, add_user_to_group, get_users_by_custom_field,
    get_courses_by_custom_field, get_custom_registration_fields, get_custom_course_fields,
    category_leafs_and_courses, get_users_progress_in_units, get_timeline, siteinfo,
    ratelimit, create_branch, forgot_username, forgot_password, go_to_course, buy_course,
    buy_category_courses, get_ilt_sessions, get_two_ids, get_by_id;
  cbv zeta; raises_tac.
Qed.

Lemma no_json_always_raises_witness :
  let s := init_state test_client in
  (forall log r, const_server None log r = None) /\
  ((fst (run_call (const_server None) no_float C_siteinfo s) = s /\
    exists e, snd (run_call (const_server None) no_float C_siteinfo s) = Exc e) \/
   (exists r, fst (run_call (const_server None) no_float C_siteinfo s) =
                {| st_client := st_client s; st_log := st_log s ++ [r] |} /\
              snd (run_call (const_server None) no_float C_siteinfo s) = Exc JSONDecodeError)).
Proof.
  cbv zeta. split; [intros; reflexivity|].
  apply (no_json_always_raises (const_server None) no_float (fun _ _ => eq_refl)).
Defined.

(** *** Argument checks before the request *)

Lemma status_other {A B} (str : string) (x y : A -> B) (a : A) :
  str <> "active" -> str <> "inactive" ->
  match str with "active" | "inactive" => x | _ => y end a = y a.
Proof.
  intros H1 H2.
  repeat match goal with
  | |- context [match ?s with EmptyString => _ | String _ _ => _ end] => is_var s; destruct s
  | |- context [match ?c with Ascii _ _ _ _ _ _ _ _ => _ end] => is_var c; destruct c
  | |- context [if ?b then _ else _] => is_var b; destruct b
  end; try reflexivity; congruence.
Qed.

(** ** X3 *)
(** X3: [user_set_status] checks [status] before anything else: a status
    other than the strings ['active'] and ['inactive'] raises [ValueError]
    and sends nothing, whatever [user_id] is.  With a valid status, a
    [user_id] that [int()] rejects raises that error and sends nothing;
    otherwise the one request is the GET of ['usersetstatus'] with
    [{'user_id': int(user_id), 'status': status}]. *)
Theorem user_set_status_checked (server : list request -> request -> option pyval)
    (user_id status : scalar) (s : state) :
  (status <> SStr "active" -> status <> SStr "inactive" ->
     user_set_status server user_id status s = (s, Exc ValueError)) /\
  (status = SStr "active" \/ status = SStr "inactive" ->
     forall e, py_int user_id = Exc e -> user_set_status server user_id status s = (s, Exc e)) /\
  (status = SStr "active" \/ status = SStr "inactive" ->
     forall u, py_int user_id = Ok u ->
     user_set_status server user_id status s =
     _get server "usersetstatus" (Some [("user_id", SInt u); ("status", status)]) s).
Proof.
  split; [|split].
  - intros H1 H2. destruct status as [| | |str]; try reflexivity.
    unfold user_set_status.
    change ((s, @Exc pyval ValueError)) with (@throw pyval ValueError s).
    apply status_other; intros ->; auto.
  - intros [-> | ->] e He; unfold user_set_status, bind, int_, lift;
      rewrite He; reflexivity.
  - intros [-> | ->] u Hu; unfold user_set_status, bind, int_, lift;
      rewrite Hu; reflexivity.
Qed.

Lemma user_set_status_checked_witness :
  let srv := const_server (Some (PDict [])) in
  let s := init_state test_client in
  user_set_status srv (SStr "x") (SStr "deleted") s = (s, Exc ValueError) /\
  user_set_status srv (SStr "x") (SStr "active") s = (s, Exc ValueError) /\
  user_set_status srv (SInt 5) (SStr "inactive") s =
  _get srv "usersetstatus" (Some [("user_id", SInt 5); ("status", SStr "inactive")]) s.
Proof.
  cbv zeta.
  destruct (user_set_status_checked (const_server (Some (PDict []))) (SStr "x")
              (SStr "deleted") (init_state test_client)) as [H1 _].
  destruct (user_set_status_checked (const_server (Some (PDict []))) (SStr "x")
              (SStr "active") (init_state test_client)) as [_ [H2 _]].
  destruct (user_set_status_checked (const_server (Some (PDict []))) (SInt 5)
              (SStr "inactive") (init_state test_client)) as [_ [_ H3]].
  split; [apply H1; discriminate | split].
  - apply H2; [left; reflexivity | reflexivity].
  - apply H3; [right; reflexivity | reflexivity].
Defined.

Lemma index2_out {A} (a b : A) (z : Z) :
  (z < -2 \/ 1 < z)%Z -> index2 a b (SInt z) = Exc IndexError.
Proof.
  intro H. unfold index2. destruct z as [|p|p]; [lia| |];
    destruct p as [[p|p|]|[p|p|]|]; try reflexivity; lia.
Qed.

Lemma index2_in {A} (a b : A) (z : Z) :
  (-2 <= z <= 1)%Z ->
  index2 a b (SInt z) = Ok (if Z.eqb z 1 || Z.eqb z (-1) then b else a).
Proof.
  intro H. assert (z = -2 \/ z = -1 \/ z = 0 \/ z = 1)%Z as Hz by lia.
  destruct Hz as [-> | [-> | [-> | ->]]]; reflexivity.
Qed.

(** ** X4 *)
(** X4: the flag of [delete_user] ([['no', 'yes'][permanent]]) and the
    status of [branch_set_status] ([('inactive', 'active')[status]]) are
    indexes into a pair: [False] and [True] pick the first and second
    entry, and so do the integers [0], [1] and their negative forms [-2],
    [-1]; any other integer raises [IndexError] and a [None] or a string
    raises [TypeError], in both cases after the id was coerced and before
    anything is sent. *)
Theorem pair_index_flags (server : list request -> request -> option pyval)
    (id : scalar) (u : Z) (Hu : py_int id = Ok u) (s : state) :
  (forall b,
     delete_user server id SNone (SBool b) s =
     _post server "deleteuser"
       (Some [("user_id", SInt u); ("permanent", SStr (if b then "yes" else "no"))]) s /\
     branch_set_status server id (SBool b) s =
     _get server "branchsetstatus"
       (Some [("branch_id", SInt u); ("status", SStr (if b then "active" else "inactive"))]) s) /\
  (forall z, (-2 <= z <= 1)%Z ->
     let second := Z.eqb z 1 || Z.eqb z (-1) in
     delete_user server id SNone (SInt z) s =
     _post server "deleteuser"
       (Some [("user_id", SInt u); ("permanent", SStr (if second then "yes" else "no"))]) s /\
     branch_set_status server id (SInt z) s =
     _get server "branchsetstatus"
       (Some [("branch_id", SInt u);
              ("status", SStr (if second then "active" else "inactive"))]) s) /\
  (forall z d, (z < -2 \/ 1 < z)%Z ->
     delete_user server id d (SInt z) s = (s, Exc IndexError) /\
     branch_set_status server id (SInt z) s = (s, Exc IndexError)) /\
  (forall v d, (v = SNone \/ exists str, v = SStr str) ->
     delete_user server id d v s = (s, Exc TypeError) /\
     branch_set_status server id v s = (s, Exc TypeError)).
Proof.
  unfold delete_user, branch_set_status, bind, int_, lift; rewrite Hu; cbn [ret].
  split; [|split; [|split]].
  - intros []; split; reflexivity.
  - intros z Hz; cbv zeta. rewrite !index2_in by exact Hz.
    destruct (Z.eqb z 1 || Z.eqb z (-1)); split; reflexivity.
  - intros z d Hz. rewrite !index2_out by exact Hz. split; reflexivity.
  - intros v d [-> | [str ->]]; split; reflexivity.
Qed.

Lemma pair_index_flags_witness :
  let srv := const_server (Some (PDict [])) in
  let s := init_state test_client in
  delete_user srv (SStr "12") SNone (SBool true) s =
  _post srv "deleteuser" (Some [("user_id", SInt 12); ("permanent", SStr "yes")]) s /\
  branch_set_status srv (SInt 3) (SInt (-2)) s =
  _get srv "branchsetstatus" (Some [("branch_id", SInt 3); ("status", SStr "inactive")]) s /\
  delete_user srv (SInt 12) SNone (SInt 2) s = (s, Exc IndexError) /\
  branch_set_status srv (SInt 3) (SStr "active") s = (s, Exc TypeError).
Proof.
  cbv zeta.
  destruct (pair_index_flags (const_server (Some (PDict []))) (SStr "12") 12 eq_refl
              (init_state test_client)) as [H1 _].
  destruct (pair_index_flags (const_server (Some (PDict []))) (SInt 3) 3 eq_refl
              (init_state test_client)) as [_ [H2 [_ H4]]].
  destruct (pair_index_flags (const_server (Some (PDict []))) (SInt 12) 12 eq_refl
              (init_state test_client)) as [_ [_ [H3 _]]].
  split; [exact (proj1 (H1 true)) | split; [|split]].
  - exact (proj2 (H2 (-2)%Z ltac:(lia))).
  - exact (proj1 (H3 2%Z SNone ltac:(lia))).
  - exact (proj2 (H4 (SStr "active") SNone (or_intror (ex_intro _ "active" eq_refl)))).
Defined.

Lemma two_id_methods_get_two_ids (server : list request -> request -> option pyval)
    (f : scalar -> scalar -> M pyval) (m ka kb : string) :
  In (f, m, ka, kb) (two_id_methods server) ->
  forall a b, f a b = get_two_ids server m ka kb a b.
Proof.
  intros Hin a b. simpl in Hin.
  repeat (destruct Hin as [Hin | Hin]; [injection Hin as <- <- <- <-; reflexivity |]).
  contradiction.
Qed.

(** ** X5 *)
(** X5: the methods that take ids apply [int()] to them before anything
    else: when [int()] rejects an id argument the method raises that error
    and sends nothing, whatever its other arguments.  This holds for every
    id of the two-id GET methods, for the first id of the other methods,
    and for the optional id of [courses], [categories], [groups] and
    [branches] unless it is [None] (which lists everything instead). *)
Theorem id_coercion_first (server : list request -> request -> option pyval)
    (id : scalar) (e : exn) (He : py_int id = Exc e) (s : state) :
  (forall d p, delete_user server id d p s = (s, Exc e)) /\
  (forall d, delete_course server id d s = (s, Exc e) /\ delete_group server id d s = (s, Exc e) /\
             delete_branch server id d s = (s, Exc e)) /\
  (forall st, branch_set_status server id st s = (s, Exc e)) /\
  (forall c r, add_user_to_course server id c r s = (s, Exc e)) /\
  (forall k, add_user_to_group server id k s = (s, Exc e)) /\
  (forall v, get_users_progress_in_units server id v s = (s, Exc e)) /\
  category_leafs_and_courses server id s = (s, Exc e) /\
  (id <> SNone ->
     courses server id s = (s, Exc e) /\ categories server id s = (s, Exc e) /\
     groups server id s = (s, Exc e) /\ branches server id s = (s, Exc e)) /\
  (forall f m ka kb, In (f, m, ka, kb) (two_id_methods server) ->
     (forall b, f id b s = (s, Exc e)) /\
     (forall a x, py_int a = Ok x -> f a id s = (s, Exc e))).
Proof.
  unfold delete_user, delete_course, delete_group, delete_branch, branch_set_status,
    add_user_to_course, add_user_to_group, get_users_progress_in_units,
    category_leafs_and_courses, bind, int_, lift.
  rewrite He.
  split; [intros; reflexivity|]. split; [intros; repeat split; reflexivity|].
  split; [intros; reflexivity|]. split; [intros; reflexivity|].
  split; [intros; reflexivity|]. split; [intros; reflexivity|].
  split; [reflexivity|]. split.
  - intro Hn. unfold courses, categories, groups, branches, get_by_id.
    destruct id; [congruence | | |]; unfold bind, int_, lift; rewrite He; repeat split.
  - intros f m ka kb Hin. split.
    + intro b. rewrite (two_id_methods_get_two_ids server f m ka kb Hin).
      unfold get_two_ids, bind, int_, lift. rewrite He. reflexivity.
    + intros a x Hx. rewrite (two_id_methods_get_two_ids server f m ka kb Hin).
      unfold get_two_ids, bind, int_, lift. rewrite Hx, He. reflexivity.
Qed.

Lemma id_coercion_first_witness :
  let srv := const_server (Some (PDict [])) in
  let s := init_state test_client in
  py_int (SStr "abc") = Exc ValueError /\
  courses srv (SStr "abc") s = (s, Exc ValueError) /\
  delete_user srv (SStr "abc") SNone (SInt 7) s = (s, Exc ValueError) /\
  get_test_answers srv (SInt 1) (SStr "abc") s = (s, Exc ValueError).
Proof.
  cbv zeta.
  destruct (id_coercion_first (const_server (Some (PDict []))) (SStr "abc") ValueError
              eq_refl (init_state test_client))
    as [H1 [_ [_ [_ [_ [_ [_ [H8 H9]]]]]]]].
  split; [reflexivity | split; [|split]].
  - exact (proj1 (H8 ltac:(discriminate))).
  - exact (H1 SNone (SInt 7)).
  - refine (proj2 (H9 _ "gettestanswers" "test_id" "user_id" _) (SInt 1) 1%Z eq_refl).
    simpl; tauto.
Defined.

(** *** Optional arguments *)

(** ** X6 *)
(** X6: [delete_course], [delete_group] and [delete_branch] (once the id is
    coerced) post just [{'<x>_id': id}] when [deleted_by_user_id] is
    [None]; any other value is passed through [int()] and added after the
    id as ['deleted_by_user_id'], and when [int()] rejects it the method
    raises that error and sends nothing.  [delete_user] does the same after
    its [permanent] flag. *)
Theorem deleted_by_optional (server : list request -> request -> option pyval)
    (id : scalar) (u : Z) (Hu : py_int id = Ok u) (s : state) :
  (forall f m k,
     In (f, m, k) [(delete_course server, "deletecourse", "course_id");
                   (delete_group server, "deletegroup", "group_id");
                   (delete_branch server, "deletebranch", "branch_id")] ->
     f id SNone s = _post server m (Some [(k, SInt u)]) s /\
     (forall d w, py_int d = Ok w ->
        f id d s = _post server m (Some [(k, SInt u); ("deleted_by_user_id", SInt w)]) s) /\
     (forall d e, d <> SNone -> py_int d = Exc e -> f id d s = (s, Exc e))) /\
  (forall b d w, py_int d = Ok w ->
     delete_user server id d (SBool b) s =
     _post server "deleteuser"
       (Some [("user_id", SInt u); ("permanent", SStr (if b then "yes" else "no"));
              ("deleted_by_user_id", SInt w)]) s) /\
  (forall b d e, d <> SNone -> py_int d = Exc e ->
     delete_user server id d (SBool b) s = (s, Exc e)).
Proof.
  assert (Hwd : forall (data : params) (d : scalar) (w : Z),
             ~ In "deleted_by_user_id" (map fst data) -> py_int d = Ok w ->
             forall st, with_deleted_by data d st =
                        (st, Ok (data ++ [("deleted_by_user_id", SInt w)])%list)).
  { intros data d w Hn Hd st. unfold with_deleted_by.
    destruct d; [discriminate | | |];
      unfold bind, int_, lift; rewrite Hd; cbn [ret]; now rewrite dict_set_fresh. }
  assert (Hwe : forall (data : params) (d : scalar) (e : exn),
             d <> SNone -> py_int d = Exc e ->
             forall st, with_deleted_by data d st = (st, Exc e)).
  { intros data d e Hn Hd st. unfold with_deleted_by.
    destruct d; [congruence | | |]; unfold bind, int_, lift; rewrite Hd; reflexivity. }
  split; [|split].
  - intros f m k Hin. simpl in Hin.
    destruct Hin as [Hin | [Hin | [Hin | []]]]; injection Hin as <- <- <-;
      unfold delete_course, delete_group, delete_branch, bind, int_, lift;
      rewrite Hu; cbn [ret].
    all: split; [reflexivity | split].
    all: try (intros d w Hd; rewrite (Hwd _ d w) by (simpl; intuition discriminate);
              reflexivity).
    all: intros d e Hn Hd; rewrite (Hwe _ d e Hn Hd); reflexivity.
  - intros b d w Hd. unfold delete_user, bind, int_, lift. rewrite Hu; cbn [ret].
    destruct b; cbn [index2 lift ret];
      rewrite (Hwd _ d w) by (simpl; intuition discriminate); reflexivity.
  - intros b d e Hn Hd. unfold delete_user, bind, int_, lift. rewrite Hu; cbn [ret].
    destruct b; cbn [index2 lift ret]; rewrite (Hwe _ d e Hn Hd); reflexivity.
Qed.

Lemma deleted_by_optional_witness :
  let srv := const_server (Some (PDict [])) in
  let s := init_state test_client in
  delete_group srv (SInt 4) (SStr "9") s =
  _post srv "deletegroup" (Some [("group_id", SInt 4); ("deleted_by_user_id", SInt 9)]) s /\
  delete_branch srv (SInt 4) (SStr "admin") s = (s, Exc ValueError) /\
  delete_user srv (SInt 4) (SStr "x") (SBool false) s = (s, Exc ValueError).
Proof.
  cbv zeta.
  destruct (deleted_by_optional (const_server (Some (PDict []))) (SInt 4) 4 eq_refl
              (init_state test_client)) as [H1 [_ H3]].
  split; [|split].
  - refine (proj1 (proj2 (H1 _ "deletegroup" "group_id" _)) (SStr "9") 9%Z eq_refl).
    simpl; tauto.
  - refine (proj2 (proj2 (H1 _ "deletebranch" "branch_id" _)) (SStr "admin") ValueError
              ltac:(discriminate) eq_refl).
    simpl; tauto.
  - exact (H3 false (SStr "x") ValueError ltac:(discriminate) eq_refl).
Defined.

(** ** X7 *)
(** X7: the optional arguments of [user_login], [user_logout] and
    [get_users_progress_in_units] are left out of the request when they
    are [None] and otherwise added as the last key, as given; [user_logout]
    and [get_users_progress_in_units] pass [user_id] on without [int()], so
    any value is sent as is. *)
Theorem optional_fields (server : list request -> request -> option pyval) (s : state) :
  (forall login password,
     user_login server login password SNone s =
     _post server "userlogin" (Some [("login", login); ("password", password)]) s) /\
  (forall login password r, r <> SNone ->
     user_login server login password r s =
     _post server "userlogin"
       (Some [("login", login); ("password", password); ("logout_redirect", r)]) s) /\
  (forall user_id,
     user_logout server user_id SNone s =
     _post server "userlogout" (Some [("user_id", user_id)]) s) /\
  (forall user_id next_url, next_url <> SNone ->
     user_logout server user_id next_url s =
     _post server "userlogout" (Some [("user_id", user_id); ("next", next_url)]) s) /\
  (forall unit_id x, py_int unit_id = Ok x ->
     get_users_progress_in_units server unit_id SNone s =
     _get server "getusersprogressinunits" (Some [("unit_id", SInt x)]) s /\
     (forall user_id, user_id <> SNone ->
        get_users_progress_in_units server unit_id user_id s =
        _get server "getusersprogressinunits"
          (Some [("unit_id", SInt x); ("user_id", user_id)]) s)).
Proof.
  split; [reflexivity|]. split.
  { intros l p r Hr. unfold user_login. destruct r; [congruence| | |]; reflexivity. }
  split; [reflexivity|]. split.
  { intros u n Hn. unfold user_logout. destruct n; [congruence| | |]; reflexivity. }
  intros unit_id x Hx. unfold get_users_progress_in_units, bind, int_, lift.
  rewrite Hx. split; [reflexivity|].
  intros v Hv. destruct v; [congruence| | |]; reflexivity.
Qed.

Lemma optional_fields_witness :
  let srv := const_server (Some (PDict [])) in
  let s := init_state test_client in
  user_login srv (SStr "jsmith") (SStr "pw") (SStr "https://example.com") s =
  _post srv "userlogin" (Some [("login", SStr "jsmith"); ("password", SStr "pw");
                               ("logout_redirect", SStr "https://example.com")]) s /\
  user_logout srv (SStr "not-a-number") (SStr "/bye") s =
  _post srv "userlogout" (Some [("user_id", SStr "not-a-number"); ("next", SStr "/bye")]) s /\
  get_users_progress_in_units srv (SStr "8") (SStr "abc") s =
  _get srv "getusersprogressinunits" (Some [("unit_id", SInt 8); ("user_id", SStr "abc")]) s.
Proof.
  cbv zeta.
  destruct (optional_fields (const_server (Some (PDict []))) (init_state test_client))
    as [_ [H2 [_ [H4 H5]]]].
  split; [|split].
  - apply H2; discriminate.
  - apply H4; discriminate.
  - apply (proj2 (H5 (SStr "8") 8%Z eq_refl)); discriminate.
Defined.

(** *** The sign-up body *)

Lemma keys_dict_set (x k : string) (v : scalar) (d : params) :
  In x (map fst (dict_set k v d)) -> x = k \/ In x (map fst d).
Proof.
  induction d as [|[k' v'] d IH]; simpl; [intros [H | []]; now left|].
  destruct (String.eqb k k') eqn:E; simpl.
  - apply String.eqb_eq in E; subst. intros [H | H]; [left | right; right]; auto.
  - intros [H | H]; [right; left; exact H|]. destruct (IH H); tauto.
Qed.

Lemma dict_set_nodup (k : string) (v : scalar) (d : params) :
  NoDup (map fst d) -> NoDup (map fst (dict_set k v d)).
Proof.
  induction d as [|[k' v'] d IH]; simpl; intro Hnd; [constructor; [tauto | constructor]|].
  inversion Hnd as [|? ? Hnot Hnd']; subst.
  destruct (String.eqb k k') eqn:E; simpl.
  - apply String.eqb_eq in E; subst. constructor; assumption.
  - constructor; [|now apply IH]. intro Hin. apply keys_dict_set in Hin.
    destruct Hin as [-> | Hin]; [now rewrite String.eqb_refl in E | contradiction].
Qed.

Lemma dict_update_nodup (d e : params) :
  NoDup (map fst d) -> NoDup (map fst (dict_update d e)).
Proof.
  unfold dict_update. revert d; induction e as [|[k v] e IH]; intros d Hnd; simpl;
    [exact Hnd | apply IH, dict_set_nodup, Hnd].
Qed.

(** ** X8 *)
(** X8: [user_signup] posts to ['usersignup'] the dict
    [{'first_name': .., 'last_name': .., 'email': .., 'login': .., 'password': ..,
    **custom_fields}]: it never has a repeated key; each custom field is
    sent with its own value, also when its name is one of the five standard
    keys, which it then overrides; every other standard key keeps the
    positional argument; with custom names apart from the standard keys the
    body is the five standard keys followed by the custom fields in order;
    and [custom_fields=None] sends the five standard keys only. *)
Theorem user_signup_body (server : list request -> request -> option pyval)
    (first_name last_name email login password : scalar) (cf : params) (s : state)
    (Hnd : NoDup (map fst cf)) :
  let fixed := [("first_name", first_name); ("last_name", last_name); ("email", email);
                ("login", login); ("password", password)] in
  user_signup server first_name last_name email login password None s =
  _post server "usersignup" (Some fixed) s /\
  exists body,
    user_signup server first_name last_name email login password (Some cf) s =
    _post server "usersignup" (Some body) s /\
    NoDup (map fst body) /\
    (forall k v, In (k, v) cf -> assoc_str k body = Some v) /\
    (forall k, ~ In k (map fst cf) -> assoc_str k body = assoc_str k fixed) /\
    ((forall k, In k (map fst cf) -> ~ In k (map fst fixed)) -> body = (fixed ++ cf)%list).
Proof.
  cbv zeta. split; [reflexivity|].
  eexists. split; [reflexivity|]. split; [|split; [|split]].
  - apply dict_update_nodup. simpl. repeat constructor; simpl; intuition discriminate.
  - intros k v Hin. now apply assoc_update_in.
  - intros k Hn. now apply assoc_update_notin.
  - intro Hfr. now apply dict_update_fresh.
Qed.

Lemma user_signup_body_witness :
  let srv := const_server (Some (PDict [])) in
  let s := init_state test_client in
  NoDup (map fst [("custom_field_1", SStr "Company LLC"); ("email", SStr "other@example.com")]) /\
  exists body,
    user_signup srv (SStr "John") (SStr "Smith") (SStr "jsmith@example.com")
      (SStr "john.smith") (SStr "XXXXXXXX")
      (Some [("custom_field_1", SStr "Company LLC"); ("email", SStr "other@example.com")]) s =
    _post srv "usersignup" (Some body) s /\
    assoc_str "email" body = Some (SStr "other@example.com").
Proof.
  cbv zeta.
  assert (Hnd : NoDup (map fst [("custom_field_1", SStr "Company LLC");
                                ("email", SStr "other@example.com")])).
  { simpl. repeat constructor; simpl; intuition discriminate. }
  split; [exact Hnd|].
  destruct (user_signup_body (const_server (Some (PDict []))) (SStr "John") (SStr "Smith")
              (SStr "jsmith@example.com") (SStr "john.smith") (SStr "XXXXXXXX")
              [("custom_field_1", SStr "Company LLC"); ("email", SStr "other@example.com")]
              (init_state test_client) Hnd) as [_ [body [Hb [_ [Hin _]]]]].
  exists body. split; [exact Hb|]. apply Hin. simpl; tauto.
Defined.

(** *** Keyword arguments *)

Lemma assoc_str_notin {A} (k : string) (l : list (string * A)) :
  ~ In k (map fst l) -> assoc_str k l = None.
Proof.
  induction l as [|[k' v'] l IH]; simpl; [reflexivity|]. intro Hn.
  destruct (String.eqb k k') eqn:E; [|apply IH; tauto].
  apply String.eqb_eq in E; subst. tauto.
Qed.

(** A keyword list the conversion loop gets through: every keyword is
    allowed, and its value is [None] or converts. *)
Lemma apply_kwargs_unknown_at (kt : list (string * (scalar -> outcome scalar)))
    (pre post d : params) (k : string) (v : scalar) (s : state) :
  Forall (fun kv => exists conv, assoc_str (fst kv) kt = Some conv /\
                      (snd kv = SNone \/ exists x, conv (snd kv) = Ok x)) pre ->
  assoc_str k kt = None ->
  apply_kwargs kt (pre ++ (k, v) :: post)%list d s = (s, Exc KeyError).
Proof.
  intros Hpre Hk. revert d.
  induction Hpre as [|[k' v'] pre [conv [Hc Hv]] _ IH]; intro d; cbn [app apply_kwargs fst snd] in *.
  - now rewrite Hk.
  - rewrite Hc. destruct v'; [apply IH|..];
      (destruct Hv as [Hv | [x Hx]]; [discriminate|]); unfold bind, lift; rewrite Hx; apply IH.
Qed.

Lemma apply_kwargs_fails_at (kt : list (string * (scalar -> outcome scalar)))
    (pre post d : params) (k : string) (v : scalar) (conv : scalar -> outcome scalar)
    (e : exn) (s : state) :
  Forall (fun kv => exists conv, assoc_str (fst kv) kt = Some conv /\
                      (snd kv = SNone \/ exists x, conv (snd kv) = Ok x)) pre ->
  assoc_str k kt = Some conv -> v <> SNone -> conv v = Exc e ->
  apply_kwargs kt (pre ++ (k, v) :: post)%list d s = (s, Exc e).
Proof.
  intros Hpre Hk Hv He. revert d.
  induction Hpre as [|[k' v'] pre [conv' [Hc Hv']] _ IH]; intro d; cbn [app apply_kwargs fst snd] in *.
  - rewrite Hk. destruct v; [congruence|..]; unfold bind, lift; rewrite He; reflexivity.
  - rewrite Hc. destruct v'; [apply IH|..];
      (destruct Hv' as [Hv' | [x Hx]]; [discriminate|]); unfold bind, lift; rewrite Hx; apply IH.
Qed.

Lemma apply_kwargs_skip_none (kt : list (string * (scalar -> outcome scalar)))
    (pre post d : params) (k : string) (conv : scalar -> outcome scalar) (s : state) :
  assoc_str k kt = Some conv ->
  apply_kwargs kt (pre ++ (k, SNone) :: post)%list d s = apply_kwargs kt (pre ++ post)%list d s.
Proof.
  intro Hk. revert d. induction pre as [|[k' v'] pre IH]; intro d; cbn [app apply_kwargs].
  - now rewrite Hk.
  - destruct (assoc_str k' kt) as [c|]; [|reflexivity].
    destruct v'; [apply IH|..]; unfold bind, lift; (destruct (c _); [apply IH | reflexivity]).
Qed.

Lemma apply_kwargs_converted (kt : list (string * (scalar -> outcome scalar)))
    (kw : params) (xs : list scalar) (d : params) (s : state) :
  Forall2 (fun kv x => snd kv <> SNone /\
                       exists conv, assoc_str (fst kv) kt = Some conv /\ conv (snd kv) = Ok x)
          kw xs ->
  apply_kwargs kt kw d s = (s, Ok (dict_update d (combine (map fst kw) xs))).
Proof.
  intro H. revert d.
  induction H as [|[k v] x kw xs [Hv [conv [Hc Hx]]] _ IH]; intro d;
    cbn [apply_kwargs map combine fst snd] in *.
  - reflexivity.
  - rewrite Hc. destruct v; [congruence|..]; unfold bind, lift; rewrite Hx; apply IH.
Qed.

Lemma int_result_coerce (v : scalar) (r : outcome scalar) : int_result v r -> coerce_int v = r.
Proof. unfold coerce_int. intros [[z [-> ->]] | [e [-> ->]]]; reflexivity. Qed.

Lemma course_conv_assoc (py_float : scalar -> outcome scalar) (k : string) (v : scalar)
    (r : outcome scalar) :
  course_conv py_float k v r ->
  exists conv, assoc_str k [("code", coerce_str); ("price", py_float);
                            ("time_limit", coerce_int); ("creator_id", coerce_int)] = Some conv /\
               conv v = r.
Proof.
  intros [[-> ->] | [[-> ->] | [[-> | ->] Hi]]];
    [exists coerce_str | exists py_float | exists coerce_int | exists coerce_int];
    (split; [reflexivity|]); first [reflexivity | now apply int_result_coerce].
Qed.

Lemma group_conv_assoc (py_float : scalar -> outcome scalar) (k : string) (v : scalar)
    (r : outcome scalar) :
  group_conv py_float k v r ->
  exists conv, assoc_str k [("price", py_float); ("creator_id", coerce_int);
                            ("max_redemptions", coerce_int)] = Some conv /\ conv v = r.
Proof.
  intros [[-> ->] | [[-> | ->] Hi]];
    [exists py_float | exists coerce_int | exists coerce_int];
    (split; [reflexivity|]); first [reflexivity | now apply int_result_coerce].
Qed.

Lemma assoc_allowed {A} (k : string) (l : list (string * A)) :
  In k (map fst l) -> exists conv, assoc_str k l = Some conv.
Proof.
  destruct (assoc_str k l) as [c|] eqn:E; [now exists c|].
  intro H. exfalso. exact (assoc_str_none k l E H).
Qed.

(** The precondition on the keywords before a given one, in the form of
    [apply_kwargs_unknown_at]. *)
Lemma kwargs_prefix_ok (kt : list (string * (scalar -> outcome scalar)))
    (conv_rel : string -> scalar -> outcome scalar -> Prop) (pre : params) :
  (forall k v r, conv_rel k v r -> exists conv, assoc_str k kt = Some conv /\ conv v = r) ->
  Forall (fun kv => (In (fst kv) (map fst kt) /\ snd kv = SNone) \/
                    exists x, conv_rel (fst kv) (snd kv) (Ok x)) pre ->
  Forall (fun kv => exists conv, assoc_str (fst kv) kt = Some conv /\
                      (snd kv = SNone \/ exists x, conv (snd kv) = Ok x)) pre.
Proof.
  intros Hrel. apply Forall_impl. intros [k v] [[Hk Hv] | [x Hx]]; cbn [fst snd] in *.
  - destruct (assoc_allowed k kt Hk) as [c Hc]. exists c. split; [exact Hc | now left].
  - destruct (Hrel k v (Ok x) Hx) as [c [Hc Hcv]]. exists c. split; [exact Hc|]. right; now exists x.
Qed.

Lemma kwargs_converted_ok (kt : list (string * (scalar -> outcome scalar)))
    (conv_rel : string -> scalar -> outcome scalar -> Prop) (kw : params) (xs : list scalar) :
  (forall k v r, conv_rel k v r -> exists conv, assoc_str k kt = Some conv /\ conv v = r) ->
  Forall2 (fun kv x => snd kv <> SNone /\ conv_rel (fst kv) (snd kv) (Ok x)) kw xs ->
  Forall2 (fun kv x => snd kv <> SNone /\
                       exists conv, assoc_str (fst kv) kt = Some conv /\ conv (snd kv) = Ok x)
          kw xs.
Proof.
  intros Hrel. apply Forall2_impl. intros kv x [Hv Hx]. split; [exact Hv|]. now apply Hrel.
Qed.

(** ** X9 *)
(** X9: [create_course] and [create_group] check their keyword arguments in
    order before sending.  A keyword outside [['code', 'price',
    'time_limit', 'creator_id']] (resp. [['price', 'creator_id',
    'max_redemptions']]) makes the call raise [KeyError] with no request,
    when the keywords before it are allowed and got through; an allowed
    keyword whose conversion fails makes it raise that conversion's error,
    again with nothing sent; an allowed keyword with value [None] is
    skipped, wherever it stands; when every keyword is allowed and every
    value converts ([str()] for ['code'], [float()] for ['price'], [int()]
    for the others), the call posts the base data updated, in order, with
    the converted values. *)
Theorem create_kwargs_checked (server : list request -> request -> option pyval)
    (py_float : scalar -> outcome scalar) (name description other : scalar) (s : state) :
  let course_keys := ["code"; "price"; "time_limit"; "creator_id"] in
  let group_keys := ["price"; "creator_id"; "max_redemptions"] in
  let course_data := set_opt "category_id" other (set_opt "description" description
                                                    [("name", name)]) in
  let group_data := set_opt "key" other (set_opt "description" description [("name", name)]) in
  let course_ok (kv : string * scalar) := (In (fst kv) course_keys /\ snd kv = SNone) \/
                                          exists x, course_conv py_float (fst kv) (snd kv) (Ok x) in
  let group_ok (kv : string * scalar) := (In (fst kv) group_keys /\ snd kv = SNone) \/
                                         exists x, group_conv py_float (fst kv) (snd kv) (Ok x) in
  (forall pre k v post, ~ In k course_keys -> Forall course_ok pre ->
     create_course server py_float name description other (pre ++ (k, v) :: post)%list s =
     (s, Exc KeyError)) /\
  (forall pre k v e post, v <> SNone -> course_conv py_float k v (Exc e) -> Forall course_ok pre ->
     create_course server py_float name description other (pre ++ (k, v) :: post)%list s =
     (s, Exc e)) /\
  (forall pre k post, In k course_keys ->
     create_course server py_float name description other (pre ++ (k, SNone) :: post)%list s =
     create_course server py_float name description other (pre ++ post)%list s) /\
  (forall kwargs xs,
     Forall2 (fun kv x => snd kv <> SNone /\ course_conv py_float (fst kv) (snd kv) (Ok x))
             kwargs xs ->
     create_course server py_float name description other kwargs s =
     _post server "createcourse" (Some (dict_update course_data (combine (map fst kwargs) xs)))
           s) /\
  (forall pre k v post, ~ In k group_keys -> Forall group_ok pre ->
     create_group server py_float name description other (pre ++ (k, v) :: post)%list s =
     (s, Exc KeyError)) /\
  (forall pre k v e post, v <> SNone -> group_conv py_float k v (Exc e) -> Forall group_ok pre ->
     create_group server py_float name description other (pre ++ (k, v) :: post)%list s =
     (s, Exc e)) /\
  (forall pre k post, In k group_keys ->
     create_group server py_float name description other (pre ++ (k, SNone) :: post)%list s =
     create_group server py_float name description other (pre ++ post)%list s) /\
  (forall kwargs xs,
     Forall2 (fun kv x => snd kv <> SNone /\ group_conv py_float (fst kv) (snd kv) (Ok x))
             kwargs xs ->
     create_group server py_float name description other kwargs s =
     _post server "creategroup" (Some (dict_update group_data (combine (map fst kwargs) xs)))
           s).
Proof.
  cbv zeta. unfold create_course, create_group, bind. cbv zeta.
  split; [|split; [|split; [|split; [|split; [|split; [|split]]]]]].
  - intros pre k v post Hn Hpre.
    rewrite apply_kwargs_unknown_at;
      [reflexivity | exact (kwargs_prefix_ok _ _ pre (course_conv_assoc py_float) Hpre) |].
    apply assoc_str_notin; exact Hn.
  - intros pre k v e post Hv Hc Hpre.
    destruct (course_conv_assoc py_float k v (Exc e) Hc) as [conv [Hk He]].
    rewrite (apply_kwargs_fails_at _ pre post _ k v conv e s
               (kwargs_prefix_ok _ _ pre (course_conv_assoc py_float) Hpre) Hk Hv He).
    reflexivity.
  - intros pre k post Hk.
    destruct (assoc_allowed k [("code", coerce_str); ("price", py_float);
                               ("time_limit", coerce_int); ("creator_id", coerce_int)] Hk)
      as [conv Hc].
    now rewrite (apply_kwargs_skip_none _ pre post _ k conv s Hc).
  - intros kw xs H.
    now rewrite (apply_kwargs_converted _ kw xs _ s
                   (kwargs_converted_ok _ _ kw xs (course_conv_assoc py_float) H)).
  - intros pre k v post Hn Hpre.
    rewrite apply_kwargs_unknown_at;
      [reflexivity | exact (kwargs_prefix_ok _ _ pre (group_conv_assoc py_float) Hpre) |].
    apply assoc_str_notin; exact Hn.
  - intros pre k v e post Hv Hc Hpre.
    destruct (group_conv_assoc py_float k v (Exc e) Hc) as [conv [Hk He]].
    rewrite (apply_kwargs_fails_at _ pre post _ k v conv e s
               (kwargs_prefix_ok _ _ pre (group_conv_assoc py_float) Hpre) Hk Hv He).
    reflexivity.
  - intros pre k post Hk.
    destruct (assoc_allowed k [("price", py_float); ("creator_id", coerce_int);
                               ("max_redemptions", coerce_int)] Hk) as [conv Hc].
    now rewrite (apply_kwargs_skip_none _ pre post _ k conv s Hc).
  - intros kw xs H.
    now rewrite (apply_kwargs_converted _ kw xs _ s
                   (kwargs_converted_ok _ _ kw xs (group_conv_assoc py_float) H)).
Qed.

Lemma create_kwargs_checked_witness :
  let srv := const_server (Some (PDict [])) in
  let s := init_state test_client in
  create_course srv no_float (SStr "Sample Course") SNone (SInt 12)
    [("time_limit", SStr "30"); ("price", SNone); ("colour", SStr "red")] s = (s, Exc KeyError) /\
  create_group srv no_float (SStr "G") SNone SNone
    [("creator_id", SInt 1); ("max_redemptions", SStr "ten")] s = (s, Exc ValueError) /\
  create_course srv no_float (SStr "Sample Course") SNone (SInt 12)
    [("code", SInt 101); ("time_limit", SStr " 30")] s =
  _post srv "createcourse"
    (Some [("name", SStr "Sample Course"); ("category_id", SInt 12); ("code", SStr "101");
           ("time_limit", SInt 30)]) s.
Proof.
  cbv zeta.
  destruct (create_kwargs_checked (const_server (Some (PDict []))) no_float
              (SStr "Sample Course") SNone (SInt 12) (init_state test_client))
    as [H1 [_ [_ [H4 _]]]].
  destruct (create_kwargs_checked (const_server (Some (PDict []))) no_float
              (SStr "G") SNone SNone (init_state test_client))
    as [_ [_ [_ [_ [_ [H6 _]]]]]].
  split; [|split].
  - apply (H1 [("time_limit", SStr "30"); ("price", SNone)] "colour" (SStr "red") []).
    + simpl; intuition discriminate.
    + apply Forall_cons; [|apply Forall_cons; [|apply Forall_nil]].
      * right. exists (SInt 30). right; right. split; [now left|].
        left. exists 30%Z. split; reflexivity.
      * left. split; [simpl; tauto | reflexivity].
  - apply (H6 [("creator_id", SInt 1)] "max_redemptions" (SStr "ten") ValueError []).
    + discriminate.
    + right. split; [now right|]. right. exists ValueError. split; reflexivity.
    + apply Forall_cons; [|apply Forall_nil].
      right. exists (SInt 1). right. split; [now left|].
      left. exists 1%Z. split; reflexivity.
  - rewrite (H4 [("code", SInt 101); ("time_limit", SStr " 30")] [SStr "101"; SInt 30]);
      [reflexivity|].
    apply Forall2_cons; [|apply Forall2_cons; [|apply Forall2_nil]].
    + split; [discriminate|]. left. split; reflexivity.
    + split; [discriminate|]. right; right. split; [now left|].
      left. exists 30%Z. split; reflexivity.
Defined.

(** *** Custom registration fields *)

Lemma pydict_set_fresh (k v : pyval) (d : list (pyval * pyval)) :
  (forall kv, In kv d -> py_key_eq k (fst kv) = false) -> pydict_set k v d = (d ++ [(k, v)])%list.
Proof.
  induction d as [|[k' v'] d IH]; simpl; intro H; [reflexivity|].
  pose proof (H (k', v') (or_introl eq_refl)) as Hk; simpl in Hk. rewrite Hk. f_equal. apply IH. intros kv Hkv; apply H; now right.
Qed.

Lemma by_name_distinct (fields : list pyval) (names : list string) :
  Forall2 (fun f n => py_getitem f "name" = Ok (PStr n)) fields names -> NoDup names ->
  forall acc, (forall n kv, In n names -> In kv acc -> py_key_eq (PStr n) (fst kv) = false) ->
  by_name fields acc = Ok (acc ++ combine (map PStr names) fields)%list.
Proof.
  induction 1 as [|f n fields names Hf _ IH]; intros Hnd acc Hacc; simpl.
  - now rewrite app_nil_r.
  - inversion Hnd as [|? ? Hnot Hnd']; subst. rewrite Hf.
    rewrite pydict_set_fresh by (intros kv Hkv; apply Hacc; [now left | exact Hkv]).
    rewrite IH; [now rewrite <- app_assoc | exact Hnd' |].
    intros n' kv Hn' Hkv. apply in_app_or in Hkv. destruct Hkv as [Hkv | [<- | []]].
    + apply Hacc; [now right | exact Hkv].
    + simpl. apply String.eqb_neq. intros ->. contradiction.
Qed.

Lemma getitem_is_dict (f x : pyval) (k : string) :
  py_getitem f k = Ok x -> exists kvs, f = PDict kvs.
Proof. destruct f; simpl; try discriminate. intros _; eauto. Qed.

(** ** X10 *)
(** X10: [get_custom_registration_fields] sends one GET to
    ['getcustomregistrationfields'] and, when the answer is a list of
    field objects with pairwise distinct string names, returns the dict
    [{f['name']: f for f in fields}] mapping each name to its field, in the
    order of the list (an empty list gives [{}]).  When the answer is a
    number it raises [TypeError] after sending the request. *)
Theorem custom_fields_by_name (server : list request -> request -> option pyval) (s : state) :
  let r := helper_request false (st_client s) "getcustomregistrationfields" None in
  let s1 := {| st_client := st_client s; st_log := st_log s ++ [r] |} in
  (forall fields names,
     server (st_log s) r = Some (PList fields) ->
     Forall2 (fun f n => py_getitem f "name" = Ok (PStr n)) fields names -> NoDup names ->
     get_custom_registration_fields server s = (s1, Ok (PDict (combine (map PStr names) fields)))) /\
  (forall z, server (st_log s) r = Some (PInt z) ->
     get_custom_registration_fields server s = (s1, Exc TypeError)).
Proof.
  cbv zeta. unfold get_custom_registration_fields.
  change (_get server "getcustomregistrationfields" None)
    with (helper server false "getcustomregistrationfields" None).
  split.
  - intros fields names Hsrv Hf Hnd. unfold bind. rewrite helper_unfold; cbv zeta.
    rewrite Hsrv. rewrite check_result_no_error.
    + cbn [py_iter lift ret].
      rewrite (by_name_distinct fields names Hf Hnd []) by (intros ? ? _ []). reflexivity.
    + right. exists fields. split; [reflexivity|]. clear -Hf.
      induction Hf as [|f n fs ns Hn _ IH]; simpl; [tauto|]. intros [Heq | Hin]; [|tauto].
      destruct (getitem_is_dict _ _ _ Hn) as [kvs Hkvs]. congruence.
  - intros z Hsrv. unfold bind. rewrite helper_unfold; cbv zeta. rewrite Hsrv. reflexivity.
Qed.

Lemma custom_fields_by_name_witness :
  let f1 := PDict [(PStr "name", PStr "custom_field_1"); (PStr "type", PStr "text")] in
  let f2 := PDict [(PStr "name", PStr "custom_field_2"); (PStr "type", PStr "checkbox")] in
  let srv := const_server (Some (PList [f1; f2])) in
  get_custom_registration_fields srv (init_state test_client) =
  ({| st_client := test_client;
      st_log := [helper_request false test_client "getcustomregistrationfields" None] |},
   Ok (PDict [(PStr "custom_field_1", f1); (PStr "custom_field_2", f2)])).
Proof.
  cbv zeta.
  refine (proj1 (custom_fields_by_name _ (init_state test_client)) _
            ["custom_field_1"; "custom_field_2"] eq_refl _ _).
  - repeat constructor.
  - repeat constructor; simpl; intuition discriminate.
Defined.

(** *** Error messages that are not strings *)

(** ** X11 *)
(** X11: when the ['error'] object of an answer has a ['message'] that is
    not a string, [raise_error] cannot find it in [exc_map]: a number, a
    boolean or [null] gives the generic [TalentLMSError] carrying that
    message and the request context, and a list or an object (which is not
    hashable) makes [exc_map.get] raise [TypeError] instead, in both cases
    after the request was sent. *)
Theorem error_message_not_string (server : list request -> request -> option pyval)
    (is_post : bool) (c : client) (log : list request) (m : string) (p : option params)
    (r err msg : pyval)
    (Hsrv : server log (helper_request is_post c m p) = Some r)
    (Herr : py_getitem r "error" = Ok err) (Hmsg : py_getitem err "message" = Ok msg) :
  let s1 := {| st_client := c; st_log := log ++ [helper_request is_post c m p] |} in
  ((msg = PNone \/ (exists b, msg = PBool b) \/ (exists z, msg = PInt z)) ->
     helper server is_post m p (mk_state c log) =
     (s1, Exc (ETalent TalentLMSError msg (m, p)))) /\
  ((exists l, msg = PList l) \/ (exists kvs, msg = PDict kvs) ->
     helper server is_post m p (mk_state c log) = (s1, Exc TypeError)).
Proof.
  cbv zeta. rewrite helper_unfold; cbv zeta. cbn [st_log st_client]. rewrite Hsrv.
  rewrite (check_result_error m p r err msg _ Herr Hmsg).
  split.
  - intros [-> | [[b ->] | [z ->]]]; reflexivity.
  - intros [[l ->] | [kvs ->]]; reflexivity.
Qed.

Lemma error_message_not_string_witness :
  let r := PDict [(PStr "error", PDict [(PStr "type", PStr "x"); (PStr "message", PInt 500)])] in
  let s1 := {| st_client := test_client;
               st_log := [helper_request false test_client "siteinfo" None] |} in
  helper (const_server (Some r)) false "siteinfo" None (mk_state test_client []) =
  (s1, Exc (ETalent TalentLMSError (PInt 500) ("siteinfo", None))).
Proof.
  cbv zeta.
  refine (proj1 (error_message_not_string _ false test_client [] "siteinfo" None
                   (PDict [(PStr "error", PDict [(PStr "type", PStr "x");
                                                 (PStr "message", PInt 500)])])
                   (PDict [(PStr "type", PStr "x"); (PStr "message", PInt 500)]) (PInt 500)
                   eq_refl eq_refl eq_refl) _).
  right; right; exists 500%Z; reflexivity.
Defined.

(** *** Reading the GET segment back *)

Lemma str_has_flat (x : ascii) (f : ascii -> string) (s : string) :
  (forall c, str_has x (f c) = false) -> str_has x (str_flat f s) = false.
Proof.
  intro H. induction s as [|c s IH]; simpl; [reflexivity|].
  rewrite str_has_app, H, IH. reflexivity.
Qed.

Lemma qp_byte_no_sep (c : ascii) :
  str_has ":" (qp_byte "" c) = false /\ str_has "," (qp_byte "" c) = false /\
  str_has ":" (qp_byte "@" c) = false /\ str_has "," (qp_byte "@" c) = false.
Proof. destruct c as [[] [] [] [] [] [] [] []]; vm_compute; repeat split. Qed.

Lemma encoded_no_sep (safe s : string) (x : ascii) :
  (safe = "" \/ safe = "@") -> (x = ":"%char \/ x = ","%char) ->
  str_has x (quote_plus safe s) = false.
Proof.
  intros Hs Hx. rewrite quote_plus_flat. apply str_has_flat. intro c.
  pose proof (qp_byte_no_sep c) as H.
  destruct Hs as [-> | ->]; destruct Hx as [-> | ->]; tauto.
Qed.

Lemma split_on_none (c : ascii) (a : string) : str_has c a = false -> split_on c a = [a].
Proof.
  induction a as [|d a IH]; simpl; [reflexivity|]. intro H.
  apply orb_false_iff in H. destruct H as [H1 H2]. rewrite H1, (IH H2). reflexivity.
Qed.

Lemma split_on_app (c : ascii) (a b : string) :
  str_has c a = false -> split_on c (a ++ String c b) = a :: split_on c b.
Proof.
  induction a as [|d a IH]; simpl; intro H.
  - now rewrite Ascii.eqb_refl.
  - apply orb_false_iff in H. destruct H as [H1 H2]. rewrite H1, (IH H2). reflexivity.
Qed.

Lemma split_on_concat (c : ascii) (l : list string) :
  l <> [] -> Forall (fun x => str_has c x = false) l ->
  split_on c (String.concat (String c EmptyString) l) = l.
Proof.
  intros Hne Hall. induction Hall as [|x l Hx Hl IH]; [congruence|].
  destruct l as [|y l].
  - simpl. now apply split_on_none.
  - change (String.concat (String c EmptyString) (x :: y :: l))
      with (x ++ String c (String.concat (String c EmptyString) (y :: l))).
    rewrite split_on_app by exact Hx. rewrite IH by discriminate. reflexivity.
Qed.

Lemma decode_encode_param (kv : string * scalar) :
  decode_pair (encode_param kv) = (fst kv, py_str (snd kv)).
Proof.
  unfold decode_pair, encode_param.
  change (":" ++ quote_plus "@" (py_str (snd kv))) with
    (String ":" (quote_plus "@" (py_str (snd kv)))).
  rewrite split_on_app by (apply encoded_no_sep; auto).
  rewrite (split_on_none ":" (quote_plus "@" _)) by (apply encoded_no_sep; auto).
  rewrite !unquote_plus_quote_plus by reflexivity. reflexivity.
Qed.

(** ** X12 *)
(** X12: the path segment [_get] builds can be read back: neither an
    encoded key ([quote_plus(k)]) nor an encoded value
    ([quote_plus(str(v), safe='@')]) can contain [','] or [':'], so
    splitting a non-empty segment on [','], each item on [':'], and applying
    [unquote_plus] to both halves gives back every pair [(k, str(v))] of the
    parameter dict, in the (sorted) order of the segment; an empty dict
    gives an empty segment, the same as no parameters. *)
Theorem get_segment_decodes (p : params) :
  (p <> [] ->
   Permutation (decode_get_params (get_params_of (Some p)))
               (map (fun kv => (fst kv, py_str (snd kv))) p)) /\
  get_params_of (Some []) = EmptyString /\ get_params_of None = EmptyString.
Proof.
  split; [|split; reflexivity]. intro Hne.
  unfold decode_get_params, get_params_of, join.
  pose proof (sort_strings_perm (map encode_param p)) as Hperm.
  rewrite split_on_concat.
  - transitivity (map decode_pair (map encode_param p)).
    + apply Permutation_map. symmetry; exact Hperm.
    + rewrite map_map, (map_ext _ _ decode_encode_param). reflexivity.
  - intro Hnil. rewrite Hnil in Hperm. apply Permutation_sym, Permutation_nil in Hperm.
    destruct p; [congruence | discriminate].
  - apply Forall_forall. intros x Hx.
    apply (Permutation_in _ (Permutation_sym Hperm)) in Hx.
    apply in_map_iff in Hx. destruct Hx as [kv [<- _]].
    unfold encode_param. rewrite !str_has_app.
    rewrite !encoded_no_sep by auto. reflexivity.
Qed.

Lemma get_segment_decodes_witness :
  test_data <> [] /\
  Permutation (decode_get_params (get_params_of (Some test_data)))
    [("param_1", "str_value:with/special.symbols"); ("param_2", "1");
     ("param_3", "False"); ("param_4", "user@example.com")].
Proof.
  split; [discriminate|]. exact (proj1 (get_segment_decodes test_data) ltac:(discriminate)).
Defined.

(** *** [str()] of an integer as a search term *)

Lemma list_ascii_app (a b : string) :
  list_ascii_of_string (a ++ b) = (list_ascii_of_string a ++ list_ascii_of_string b)%list.
Proof. induction a as [|c a IH]; simpl; [reflexivity | now rewrite IH]. Qed.

Lemma digit_char_props (n : N) :
  let d := ascii_of_N (48 + n mod 10) in
  is_ascii_digit d = true /\ Z.of_nat (code d - 48) = Z.of_N (n mod 10).
Proof.
  cbv zeta. pose proof (N.mod_lt n 10 ltac:(discriminate)) as Hlt.
  set (m := (n mod 10)%N) in *. clearbody m.
  assert (m = 0 \/ m = 1 \/ m = 2 \/ m = 3 \/ m = 4 \/ m = 5 \/ m = 6 \/ m = 7 \/
          m = 8 \/ m = 9)%N as Hm by lia.
  repeat destruct Hm as [-> | Hm]; [..| subst m]; split; reflexivity.
Qed.

Lemma pos_digits_spec (fuel : nat) : forall (n : N) (acc : string),
  (0 < n)%N -> (n < 10 ^ N.of_nat fuel)%N ->
  exists D, list_ascii_of_string (pos_digits fuel n acc) = (D ++ list_ascii_of_string acc)%list /\
            D <> [] /\ forallb is_ascii_digit D = true /\
            fold_left (fun acc c => acc * 10 + Z.of_nat (code c - 48))%Z D 0%Z = Z.of_N n.
Proof.
  induction fuel as [|f IH]; intros n acc Hpos Hlt.
  - simpl in Hlt. lia.
  - cbn [pos_digits].
    destruct (digit_char_props n) as [Hd Hv].
    set (d := ascii_of_N (48 + n mod 10)) in *. clearbody d.
    pose proof (N.div_mod n 10 ltac:(discriminate)) as Hdm.
    pose proof (N.mod_lt n 10 ltac:(discriminate)) as Hml.
    rewrite Nat2N.inj_succ, N.pow_succ_r' in Hlt.
    destruct (N.eqb (n / 10) 0) eqn:Eq.
    + apply N.eqb_eq in Eq. exists [d]. simpl. rewrite Hd. repeat split; [discriminate|].
      rewrite Hv. lia.
    + apply N.eqb_neq in Eq.
      destruct (IH (n / 10)%N (String d acc)) as [D [HD [Hne [Hall Hval]]]]; [lia | lia |].
      exists (D ++ [d])%list. split; [rewrite HD; simpl; now rewrite <- app_assoc|].
      split; [destruct D; simpl; discriminate|]. split.
      * rewrite forallb_app, Hall. simpl. now rewrite Hd.
      * rewrite fold_left_app, Hval. simpl. rewrite Hv. lia.
Qed.

Lemma pos_lt_pow10 (p : positive) : (Npos p < 10 ^ N.of_nat (Pos.size_nat p))%N.
Proof.
  induction p as [p IH|p IH|]; cbn [Pos.size_nat]; rewrite ?Nat2N.inj_succ, ?N.pow_succ_r';
    lia.
Qed.

Lemma ascii_digit_point (c : ascii) :
  is_ascii_digit c = true ->
  (zcode c < 127)%Z /\ is_zdigit (zcode c) = true /\ int_char (zcode c) = zcode c /\
  to_decimal (zcode c) = Some (Z.of_nat (code c - 48)) /\
  (zcode c - 48 = Z.of_nat (code c - 48))%Z.
Proof.
  unfold is_ascii_digit, zcode. intro H. apply andb_true_iff in H. destruct H as [H1 H2].
  apply Nat.leb_le in H1, H2. remember (code c) as n eqn:En. clear En.
  assert (n = 48 \/ n = 49 \/ n = 50 \/ n = 51 \/ n = 52 \/ n = 53 \/ n = 54 \/ n = 55 \/
          n = 56 \/ n = 57) as Hn by lia.
  repeat destruct Hn as [-> | Hn]; [..| subst n];
    (split; [lia|]); vm_compute; repeat split.
Qed.

(** The code points of a string of ASCII digits, and what [int()] makes of them. *)
Lemma ascii_digits_points (D : list ascii) (acc : Z) :
  forallb is_ascii_digit D = true ->
  utf8_decode D = map zcode D /\ map int_char (map zcode D) = map zcode D /\
  forallb is_zdigit (map zcode D) = true /\
  forallb (fun c => match to_decimal c with Some _ => true | None => false end)
          (map zcode D) = true /\
  fold_left (fun acc c => acc * 10 + (c - 48))%Z (map zcode D) acc =
    fold_left (fun acc c => acc * 10 + Z.of_nat (code c - 48))%Z D acc /\
  fold_left (fun acc c => acc * 10 + match to_decimal c with Some d => d | None => 0 end)%Z
            (map zcode D) acc =
    fold_left (fun acc c => acc * 10 + Z.of_nat (code c - 48))%Z D acc.
Proof.
  revert acc. induction D as [|c D IH]; intros acc H; [repeat split|].
  cbn [forallb] in H. apply andb_true_iff in H. destruct H as [Hc H].
  destruct (ascii_digit_point c Hc) as [Hlt [Hz [Hi [Hdec Hv]]]].
  destruct (IH (acc * 10 + Z.of_nat (code c - 48))%Z H) as [I1 [I2 [I3 [I4 [I5 I6]]]]].
  cbn [map forallb fold_left]. rewrite utf8_decode_ascii by lia.
  rewrite I1, Hi, I2, Hz, I3, Hdec, I4, Hv. repeat split; assumption.
Qed.

Lemma N_to_dec_digits (n : N) :
  isdecimal (N_to_dec n) = true /\ decimal_value (N_to_dec n) = Z.of_N n.
Proof.
  destruct n as [|p]; [split; reflexivity|]. unfold N_to_dec.
  destruct (pos_digits_spec (Pos.size_nat p) (Npos p) EmptyString) as [D [HD [Hne [Hall Hval]]]];
    [lia | apply pos_lt_pow10 |].
  simpl in HD. rewrite app_nil_r in HD.
  destruct (ascii_digits_points D 0%Z Hall) as [H1 [_ [_ [H4 [_ H6]]]]].
  unfold isdecimal, decimal_value, code_points. rewrite HD, H1, H6, Hval.
  destruct D as [|d D']; [congruence|]. split; [exact H4 | reflexivity].
Qed.

Lemma Z_to_dec_neg (p : positive) :
  isdigit (Z_to_dec (Zneg p)) = false /\ str_has "@" (Z_to_dec (Zneg p)) = false /\
  py_int (SStr (Z_to_dec (Zneg p))) = Ok (Zneg p).
Proof.
  destruct (pos_digits_spec (Pos.size_nat p) (Npos p) EmptyString) as [D [HD [Hne [Hall Hval]]]];
    [lia | apply pos_lt_pow10 |].
  simpl in HD. rewrite app_nil_r in HD.
  destruct (ascii_digits_points D 0%Z Hall) as [H1 [H2 [H3 [_ [H5 _]]]]].
  destruct (N_to_dec_digits (Npos p)) as [Hd _].
  assert (Hna : str_has "@" (N_to_dec (Npos p)) = false).
  { destruct (str_has "@" _) eqn:E; [|reflexivity]. apply at_not_digit in E.
    rewrite (decimal_isdigit _ Hd) in E. discriminate. }
  cbn [Z_to_dec]. change ("-" ++ N_to_dec (Npos p)) with (String "-" (N_to_dec (Npos p))).
  split; [|split; [exact Hna|]].
  - unfold isdigit, code_points. cbn [list_ascii_of_string].
    rewrite utf8_decode_ascii by (vm_compute; reflexivity). reflexivity.
  - unfold py_int, parse_int, code_points. cbn [list_ascii_of_string].
    rewrite utf8_decode_ascii by (vm_compute; reflexivity).
    assert (HD' : list_ascii_of_string (N_to_dec (Npos p)) = D) by exact HD.
    rewrite HD', H1. cbn [map]. rewrite H2.
    change (int_char (zcode "-")) with 45%Z.
    rewrite long_neg; [| destruct D; [congruence | discriminate] | exact H3].
    rewrite H5, Hval. reflexivity.
Qed.

(** ** X13 *)
(** X13: [users] tells an id from a username by [str.isdigit()], so for a
    non-negative integer [z] the call [users(str(z))] sends the same request
    as [users(z)] (the GET of ['users'] with [{'id': z}]), while for a
    negative [z] the string [str(z)] starts with ['-'] and is looked up as
    a username; in both cases [int(str(z))] gives [z] back. *)
Theorem users_str_of_int (server : list request -> request -> option pyval) (s : state) (z : Z) :
  py_int (SStr (py_str (SInt z))) = Ok z /\
  ((0 <= z)%Z -> users server (SStr (py_str (SInt z))) s = users server (SInt z) s) /\
  ((z < 0)%Z ->
     users server (SStr (py_str (SInt z))) s =
     _get server "users" (Some [("username", SStr (py_str (SInt z)))]) s).
Proof.
  destruct z as [|p|p].
  - split; [reflexivity|]. split; [intros _; reflexivity | lia].
  - destruct (N_to_dec_digits (Npos p)) as [Hd Hv].
    assert (Hpi : py_int (SStr (py_str (SInt (Zpos p)))) = Ok (Zpos p)).
    { cbn [py_str Z_to_dec Z.to_N]. rewrite py_int_decimal by exact Hd. now rewrite Hv. }
    split; [exact Hpi|]. split; [|lia]. intros _.
    cbn [users]. cbn [py_str Z_to_dec Z.to_N] in *. rewrite (decimal_isdigit _ Hd).
    unfold bind, int_, lift. rewrite Hpi. reflexivity.
  - destruct (Z_to_dec_neg p) as [Hd [Ha Hpi]].
    split; [exact Hpi|]. split; [lia|]. intros _.
    cbn [users py_str]. rewrite Hd, Ha. reflexivity.
Qed.

Lemma users_str_of_int_witness :
  let srv := const_server (Some (PList [])) in
  let s := init_state test_client in
  (0 <= 40457)%Z /\ users srv (SStr "40457") s = users srv (SInt 40457) s /\
  (-3 < 0)%Z /\ users srv (SStr "-3") s = _get srv "users" (Some [("username", SStr "-3")]) s.
Proof.
  cbv zeta.
  destruct (users_str_of_int (const_server (Some (PList []))) (init_state test_client) 40457)
    as [_ [H1 _]].
  destruct (users_str_of_int (const_server (Some (PList []))) (init_state test_client) (-3))
    as [_ [_ H2]].
  split; [lia | split; [exact (H1 ltac:(lia)) | split; [lia | exact (H2 ltac:(lia))]]].
Defined.

(** *** Lookups by id *)

(** ** X14 *)
(** X14: [courses], [categories], [groups] and [branches] list everything
    (a GET without parameters) when their id is [None], and otherwise send
    the GET with [{'id': int(x)}]; [users] treats a boolean like an integer
    ([True] is the id [1]); [category_leafs_and_courses] has no listing
    form, so [None] makes its [int()] raise [TypeError] and nothing is
    sent. *)
Theorem lookup_by_id (server : list request -> request -> option pyval) (s : state) :
  (forall f m, In (f, m) [(courses server, "courses"); (categories server, "categories");
                          (groups server, "groups"); (branches server, "branches")] ->
     f SNone s = _get server m None s /\
     (forall x z, py_int x = Ok z -> f x s = _get server m (Some [("id", SInt z)]) s)) /\
  (forall b, users server (SBool b) s =
             _get server "users" (Some [("id", SInt (if b then 1 else 0)%Z)]) s) /\
  category_leafs_and_courses server SNone s = (s, Exc TypeError).
Proof.
  split; [|split; [intros []; reflexivity | reflexivity]].
  intros f m Hin. simpl in Hin.
  destruct Hin as [Hin | [Hin | [Hin | [Hin | []]]]]; injection Hin as <- <-;
    (split; [reflexivity|]); intros x z Hx;
    unfold courses, categories, groups, branches, get_by_id;
    (destruct x; [discriminate | | |]); unfold bind, int_, lift; rewrite Hx; reflexivity.
Qed.

Lemma lookup_by_id_witness :
  let srv := const_server (Some (PDict [])) in
  let s := init_state test_client in
  groups srv (SStr "7") s = _get srv "groups" (Some [("id", SInt 7)]) s /\
  branches srv SNone s = _get srv "branches" None s.
Proof.
  cbv zeta.
  destruct (lookup_by_id (const_server (Some (PDict []))) (init_state test_client)) as [H _].
  split.
  - refine (proj2 (H _ "groups" _) (SStr "7") 7%Z eq_refl). simpl; tauto.
  - refine (proj1 (H _ "branches" _)). simpl; tauto.
Defined.

(** ** X15 *)
(** X15: once their ids are coerced, the two-id GET methods send
    [{ka: int(a), kb: int(b)}] to their endpoint (as listed in
    [two_id_methods]); [add_user_to_course] posts the coerced [user_id] and
    [course_id] with [role] as given; and [add_user_to_group] sends
    [str(group_key)], so a [None] key is sent as the string ['None']. *)
Theorem id_request_bodies (server : list request -> request -> option pyval) (s : state)
    (a b : scalar) (x y : Z) (Ha : py_int a = Ok x) (Hb : py_int b = Ok y) :
  (forall f m ka kb, In (f, m, ka, kb) (two_id_methods server) ->
     f a b s = _get server m (Some [(ka, SInt x); (kb, SInt y)]) s) /\
  (forall role, add_user_to_course server a b role s =
     _post server "addusertocourse"
       (Some [("user_id", SInt x); ("course_id", SInt y); ("role", role)]) s) /\
  (forall k, add_user_to_group server a k s =
     _get server "addusertogroup" (Some [("user_id", SInt x); ("group_key", SStr (py_str k))]) s) /\
  add_user_to_group server a SNone s =
  _get server "addusertogroup" (Some [("user_id", SInt x); ("group_key", SStr "None")]) s.
Proof.
  split; [|split; [|split]].
  - intros f m ka kb Hin. rewrite (two_id_methods_get_two_ids server f m ka kb Hin).
    unfold get_two_ids, bind, int_, lift. rewrite Ha, Hb. reflexivity.
  - intro role. unfold add_user_to_course, bind, int_, lift. rewrite Ha, Hb. reflexivity.
  - intro k. unfold add_user_to_group, bind, int_, lift. rewrite Ha. reflexivity.
  - unfold add_user_to_group, bind, int_, lift. rewrite Ha. reflexivity.
Qed.

Lemma id_request_bodies_witness :
  let srv := const_server (Some (PDict [])) in
  let s := init_state test_client in
  get_survey_answers srv (SStr "11") (SInt 40457) s =
  _get srv "getsurveyanswers" (Some [("survey_id", SInt 11); ("user_id", SInt 40457)]) s /\
  add_user_to_group srv (SInt 40457) SNone s =
  _get srv "addusertogroup" (Some [("user_id", SInt 40457); ("group_key", SStr "None")]) s.
Proof.
  cbv zeta.
  destruct (id_request_bodies (const_server (Some (PDict []))) (init_state test_client)
              (SStr "11") (SInt 40457) 11 40457 eq_refl eq_refl) as [H1 _].
  destruct (id_request_bodies (const_server (Some (PDict []))) (init_state test_client)
              (SInt 40457) (SInt 40457) 40457 40457 eq_refl eq_refl) as [_ [_ [_ H4]]].
  split; [|exact H4].
  refine (H1 _ "getsurveyanswers" "survey_id" "user_id" _). simpl; tauto.
Defined.

(** *** String answers *)

(** ** X16 *)
(** X16: when the parsed answer is a JSON string, ['error' in result] is a
    substring test: a string without ["error"] in it is returned as is,
    and a string containing ["error"] (such as ["Internal error"]) makes
    [result['error']] raise [TypeError], after the request was sent. *)
Theorem string_answer (server : list request -> request -> option pyval)
    (is_post : bool) (c : client) (log : list request) (m : string) (p : option params)
    (t : string) (Hsrv : server log (helper_request is_post c m p) = Some (PStr t)) :
  let s1 := {| st_client := c; st_log := log ++ [helper_request is_post c m p] |} in
  (str_contains "error" t = false ->
     helper server is_post m p (mk_state c log) = (s1, Ok (PStr t))) /\
  (str_contains "error" t = true ->
     helper server is_post m p (mk_state c log) = (s1, Exc TypeError)).
Proof.
  cbv zeta. rewrite helper_unfold; cbv zeta. cbn [st_log st_client]. rewrite Hsrv.
  unfold check_result, bind, lift, ret; cbn [py_contains].
  split; intro H; rewrite H; reflexivity.
Qed.

Lemma string_answer_witness :
  let srv := const_server (Some (PStr "Internal error")) in
  str_contains "error" "Internal error" = true /\
  helper srv true "userlogout" (Some [("user_id", SInt 1)]) (mk_state test_client []) =
  ({| st_client := test_client;
      st_log := [helper_request true test_client "userlogout" (Some [("user_id", SInt 1)])] |},
   Exc TypeError).
Proof.
  cbv zeta. split; [reflexivity|].
  exact (proj2 (string_answer (const_server (Some (PStr "Internal error"))) true test_client []
                  "userlogout" (Some [("user_id", SInt 1)]) "Internal error" eq_refl) eq_refl).
Defined.

(** *** Padded digit strings *)

Lemma py_int_space (str : string) :
  py_int (SStr (String " " str)) = py_int (SStr str).
Proof. reflexivity. Qed.

Lemma str_has_digits (str : string) : isdigit str = true -> str_has "@" str = false.
Proof.
  intro H. destruct (str_has "@" str) eqn:E; [|reflexivity].
  apply at_not_digit in E. congruence.
Qed.

(** ** X17 *)
(** X17: a string of decimal digits ([str.isdecimal()]) with a leading
    space is an id for every method that applies [int()] to its argument
    ([int()] strips whitespace), but not for [users], which decides with
    [str.isdigit()]: [users(' 12')] looks up the username [' 12'] while
    [courses(' 12')] fetches the course with id [12]. *)
Theorem padded_digits_lookup (server : list request -> request -> option pyval) (s : state)
    (str : string) (Hd : isdecimal str = true) :
  let padded := String " " str in
  py_int (SStr padded) = Ok (decimal_value str) /\
  users server (SStr padded) s = _get server "users" (Some [("username", SStr padded)]) s /\
  courses server (SStr padded) s =
  _get server "courses" (Some [("id", SInt (decimal_value str))]) s.
Proof.
  cbv zeta.
  assert (Hpi : py_int (SStr (String " " str)) = Ok (decimal_value str)).
  { rewrite py_int_space. now apply py_int_decimal. }
  split; [exact Hpi | split].
  - cbn [users].
    replace (isdigit (String " " str)) with false
      by (unfold isdigit, code_points; cbn [list_ascii_of_string];
          rewrite utf8_decode_ascii by (vm_compute; reflexivity); reflexivity).
    change (str_has "@" (String " " str)) with (Ascii.eqb "@" " " || str_has "@" str).
    rewrite str_has_digits by exact (decimal_isdigit _ Hd). reflexivity.
  - unfold courses, get_by_id, bind, int_, lift. rewrite Hpi. reflexivity.
Qed.

Lemma padded_digits_lookup_witness :
  let srv := const_server (Some (PList [])) in
  let s := init_state test_client in
  isdecimal "12" = true /\
  users srv (SStr " 12") s = _get srv "users" (Some [("username", SStr " 12")]) s /\
  courses srv (SStr " 12") s = _get srv "courses" (Some [("id", SInt 12)]) s /\
  courses srv (SStr (String " " arabic_three)) s =
    _get srv "courses" (Some [("id", SInt 3)]) s.
Proof.
  cbv zeta. split; [reflexivity|].
  destruct (padded_digits_lookup (const_server (Some (PList []))) (init_state test_client)
              "12" eq_refl) as [_ [H1 H2]].
  destruct (padded_digits_lookup (const_server (Some (PList []))) (init_state test_client)
              arabic_three eq_refl) as [_ [_ H3]].
  split; [exact H1 | split; [exact H2 | exact H3]].
Defined.
